(** * The zebra bridge of GoBGP (server/zclient.go)

    A shallow embedding of the nexthop tracking manager, of the translators
    between BGP paths and zebra route messages, and of the start-up code of
    the bridge, followed by the properties proved about them.

    Conventions of the embedding.
    - A Go [int] is a 64-bit two's complement integer, held in [Z]; the one
      operation of the file that can overflow, addition, wraps around.
    - A Go function that can panic (index out of range, nil dereference,
      failed type assertion) returns an [option]: [None] is the panic.
    - A Go pointer that may be nil is an [option]; a nil slice is [[]].
    - Channels and timers are events and actions of a step function. *)

From Stdlib Require Import ZArith Lia String Ascii DecimalString HexadecimalString.
From stdpp Require Import gmap strings list.
From Equations Require Import Equations.

Local Open Scope Z_scope.

(** ** Go integers *)

Definition int_min : Z := - 2 ^ 63.
Definition int_max : Z := 2 ^ 63 - 1.

(** The value an [int] takes when a mathematical result is stored in it. *)
Definition to_int (z : Z) : Z := (z + 2 ^ 63) mod 2 ^ 64 - 2 ^ 63.

Definition in_int (z : Z) : Prop := int_min <= z <= int_max.

Definition int_add (a b : Z) : Z := to_int (a + b).

(** [a / b] on ints truncates toward zero; with a positive divisor the
    quotient of an int is an int, so nothing wraps. *)
Definition int_quot (a b : Z) : Z := Z.quot a b.

Definition MaxUint32 : Z := 2 ^ 32 - 1.
Definition uint8 (z : Z) : Z := z mod 2 ^ 8.

(** ** Package strings *)

(** [genSplit] of Go with [sepSave = 0] and a non-empty separator: [n] is
    the number of cuts still allowed. *)
Fixpoint genSplit (n : nat) (s sep : string) : list string :=
  match n with
  | O => [s]
  | S n' =>
      match String.index 0 sep s with
      | None => [s]
      | Some m =>
          String.substring 0 m s
            :: genSplit n' (String.substring (m + String.length sep)
                              (String.length s - (m + String.length sep)) s) sep
      end
  end.

(** [explode] of Go for ASCII text: at most [n] one-character strings, the
    last one holding the rest. *)
Fixpoint explode (n : nat) (s : string) : list string :=
  match s with
  | EmptyString => []
  | String c rest =>
      match n with
      | O => [s]
      | S n' => match rest with
                | EmptyString => [s]
                | _ => String c EmptyString :: explode n' rest
                end
      end
  end.

(** [strings.SplitN(s, sep, n)]. *)
Definition SplitN (s sep : string) (n : Z) : list string :=
  if n =? 0 then []
  else
    let cuts := if n <? 0 then String.length s else Z.to_nat (n - 1) in
    if String.eqb sep "" then explode cuts s else genSplit cuts s sep.

(** [strings.Split(s, sep)] is [SplitN] without a bound. *)
Definition Split (s sep : string) : list string := SplitN s sep (-1).

(** ** Package strconv *)

Definition is_digit (c : ascii) : bool :=
  let n := Z.of_nat (nat_of_ascii c) in (48 <=? n) && (n <=? 57).

Definition digit_val (c : ascii) : Z := Z.of_nat (nat_of_ascii c) - 48.

(** The loop of [strconv.ParseUint] in base 10: [n] is the value read so
    far; the result is the value and whether an error is returned with it
    (a syntax error gives 0, a range error the largest value). *)
Fixpoint parseUint_loop (maxVal n : Z) (s : string) : Z * bool :=
  match s with
  | EmptyString => (n, false)
  | String c rest =>
      if negb (is_digit c) then (0, true)
      else if (2 ^ 64 - 1) / 10 + 1 <=? n then (maxVal, true)
      else
        let n1 := n * 10 + digit_val c in
        if (2 ^ 64 <=? n1) || (maxVal <? n1) then (maxVal, true)
        else parseUint_loop maxVal n1 rest
  end.

(** [strconv.ParseUint(s, 10, bitSize)] for [0 < bitSize <= 64]. *)
Definition ParseUint10 (s : string) (bitSize : Z) : Z * bool :=
  match s with
  | EmptyString => (0, true)
  | _ => parseUint_loop (2 ^ bitSize - 1) 0 s
  end.

Definition uitoa (n : Z) : string :=
  DecimalString.NilZero.string_of_uint (N.to_uint (Z.to_N n)).

(** ** Package net: IP addresses *)

(** A [net.IP] is a byte slice, 4 or 16 bytes long when well formed. *)
Definition IP : Type := list Z.

Definition v4InV6Prefix : list Z := [0; 0; 0; 0; 0; 0; 0; 0; 0; 0; 255; 255].

Definition IPv4 (a b c d : Z) : IP := v4InV6Prefix ++ [a; b; c; d].

Definition IPv4zero : IP := IPv4 0 0 0 0.
Definition IPv6unspecified : IP := replicate 16 0.

(** [To4] and [To16] return nil ([[]]) or a slice of 4, of 16 bytes, so
    that [x != nil] on their result is [x <> []]. *)
Definition To4 (ip : IP) : IP :=
  if bool_decide (length ip = 4%nat) then ip
  else if bool_decide (length ip = 16%nat) && bool_decide (take 12 ip = v4InV6Prefix)
       then drop 12 ip
  else [].

Definition To16 (ip : IP) : IP :=
  if bool_decide (length ip = 4%nat) then v4InV6Prefix ++ ip
  else if bool_decide (length ip = 16%nat) then ip
  else [].

Definition IP_Equal (ip x : IP) : bool :=
  if bool_decide (length ip = length x) then bool_decide (ip = x)
  else if bool_decide (length ip = 4%nat) && bool_decide (length x = 16%nat)
       then bool_decide (take 12 x = v4InV6Prefix) && bool_decide (ip = drop 12 x)
  else if bool_decide (length ip = 16%nat) && bool_decide (length x = 4%nat)
       then bool_decide (take 12 ip = v4InV6Prefix) && bool_decide (drop 12 ip = x)
  else false.

Definition IsUnspecified (ip : IP) : bool :=
  IP_Equal ip IPv4zero || IP_Equal ip IPv6unspecified.

(** *** Printing an address *)

Definition hexString (n : Z) : string :=
  HexadecimalString.NilZero.string_of_uint (N.to_hex_uint (Z.to_N n)).

Fixpoint groups16 (ip : list Z) : list Z :=
  match ip with
  | hi :: lo :: rest => (hi * 256 + lo) :: groups16 rest
  | _ => []
  end.

Fixpoint zero_run (gs : list Z) : nat :=
  match gs with
  | 0 :: rest => S (zero_run rest)
  | _ => O
  end.

(** The search of [IP.String] for the longest run of zero groups: [i] is
    the group under the cursor, [(e0, e1)] the best run found so far
    ([e1 - e0] is its length; both are 0 when there is none). *)
Fixpoint longest_zero_run (fuel i : nat) (gs : list Z) (best : nat * nat) : nat * nat :=
  match fuel with
  | O => best
  | S fuel' =>
      if bool_decide (8 <= i)%nat then best
      else
        let r := zero_run (drop i gs) in
        if bool_decide (0 < r)%nat && bool_decide (best.2 - best.1 < r)%nat
        then longest_zero_run fuel' (i + r + 1) gs (i, (i + r)%nat)
        else longest_zero_run fuel' (i + 1) gs best
  end.

Fixpoint print_groups (fuel i : nat) (gs : list Z) (run : option (nat * nat)) : string :=
  match fuel with
  | O => ""
  | S fuel' =>
      if bool_decide (8 <= i)%nat then ""
      else
        match run with
        | Some (e0, e1) =>
            if bool_decide (i = e0) then
              "::" +:+ (if bool_decide (8 <= e1)%nat then ""
                        else hexString (nth e1 gs 0)
                               +:+ print_groups fuel' (e1 + 1) gs run)
            else (if bool_decide (0 < i)%nat then ":" else "")
                   +:+ hexString (nth i gs 0) +:+ print_groups fuel' (i + 1) gs run
        | None =>
            (if bool_decide (0 < i)%nat then ":" else "")
              +:+ hexString (nth i gs 0) +:+ print_groups fuel' (i + 1) gs run
        end
  end.

Fixpoint hexBytes (l : list Z) : string :=
  match l with
  | [] => ""
  | b :: rest => hexString (b / 16) +:+ hexString (b mod 16) +:+ hexBytes rest
  end.

(** [IP.String]: dotted decimal for an IPv4 address in either form, the
    shortened colon form for the other 16-byte addresses. *)
Definition IP_String (ip : IP) : string :=
  match ip with
  | [] => "<nil>"
  | _ =>
      match To4 ip with
      | [a; b; c; d] => uitoa a +:+ "." +:+ uitoa b +:+ "." +:+ uitoa c +:+ "." +:+ uitoa d
      | _ =>
          if bool_decide (length ip = 16%nat) then
            let gs := groups16 ip in
            let (e0, e1) := longest_zero_run 8 0 gs (0%nat, 0%nat) in
            (* "::" never shortens a single zero group *)
            let run := if bool_decide (e1 - e0 <= 1)%nat then None else Some (e0, e1) in
            print_groups 8 0 gs run
          else "?" +:+ hexBytes ip
      end
  end.

(** *** Reading an address *)

Definition is_hex_digit (c : ascii) : bool :=
  let n := Z.of_nat (nat_of_ascii c) in
  is_digit c || ((97 <=? n) && (n <=? 102)) || ((65 <=? n) && (n <=? 70)).

Definition hex_val (c : ascii) : Z :=
  let n := Z.of_nat (nat_of_ascii c) in
  if is_digit c then n - 48 else if 97 <=? n then n - 97 + 10 else n - 65 + 10.

(** [dtoi] and [xtoi] of package net: the number at the head of [s] with
    the rest of [s]; [None] when there is no digit or the number is too big. *)
Fixpoint dtoi_loop (n : Z) (i : nat) (s : string) : option (Z * nat * string) :=
  match s with
  | String c rest =>
      if is_digit c then
        let n' := n * 10 + digit_val c in
        if 16777215 <=? n' then None else dtoi_loop n' (S i) rest
      else Some (n, i, s)
  | EmptyString => Some (n, i, s)
  end.

Definition dtoi (s : string) : option (Z * string) :=
  match dtoi_loop 0 0 s with
  | Some (n, S _, rest) => Some (n, rest)
  | _ => None
  end.

Fixpoint xtoi_loop (n : Z) (i : nat) (s : string) : option (Z * nat * string) :=
  match s with
  | String c rest =>
      if is_hex_digit c then
        let n' := n * 16 + hex_val c in
        if 16777215 <=? n' then None else xtoi_loop n' (S i) rest
      else Some (n, i, s)
  | EmptyString => Some (n, i, s)
  end.

Definition xtoi (s : string) : option (Z * string) :=
  match xtoi_loop 0 0 s with
  | Some (n, S _, rest) => Some (n, rest)
  | _ => None
  end.

(** [parseIPv4]: four decimal fields separated by dots; [k] fields are
    still to be read, [acc] holds the bytes read. The result is nil or the
    16-byte form. *)
Fixpoint parseIPv4_loop (k : nat) (s : string) (acc : list Z) : IP :=
  match k with
  | O => match s with
         | EmptyString => v4InV6Prefix ++ acc
         | _ => []
         end
  | S k' =>
      match s with
      | EmptyString => []
      | String c rest =>
          let after_dot :=
            match acc with
            | [] => Some s
            | _ => if Ascii.eqb c "."%char then Some rest else None
            end in
          match after_dot with
          | None => []
          | Some s' =>
              match dtoi s' with
              | None => []
              | Some (n, s'') =>
                  if 255 <? n then [] else parseIPv4_loop k' s'' (acc ++ [n])
              end
          end
      end
  end.

Definition parseIPv4 (s : string) : IP := parseIPv4_loop 4 s [].

(** The loop of [parseIPv6]: [acc] holds the bytes written so far (the
    index [i] of Go is its length), [ellipsis] the position of "::". The
    result is the state at the exit of the loop, [None] for "return nil". *)
Fixpoint parseIPv6_loop (fuel : nat) (s : string) (acc : list Z) (ellipsis : option nat)
  : option (list Z * option nat * string) :=
  match fuel with
  | O => Some (acc, ellipsis, s)
  | S fuel' =>
      if bool_decide (16 <= length acc)%nat then Some (acc, ellipsis, s)
      else
        match xtoi s with
        | None => None
        | Some (n, rest) =>
            if 65535 <? n then None
            else
              match rest with
              | String "."%char _ =>
                  (* a trailing IPv4 address *)
                  if bool_decide (ellipsis = None) && negb (bool_decide (length acc = 12%nat))
                  then None
                  else if bool_decide (16 < length acc + 4)%nat then None
                  else match parseIPv4 s with
                       | [] => None
                       | ip4 => Some (acc ++ drop 12 ip4, ellipsis, "")
                       end
              | EmptyString => Some (acc ++ [n / 256; n mod 256], ellipsis, "")
              | String c rest' =>
                  let acc' := acc ++ [n / 256; n mod 256] in
                  if negb (Ascii.eqb c ":"%char) || String.eqb rest' "" then None
                  else
                    match rest' with
                    | String ":"%char rest'' =>
                        match ellipsis with
                        | Some _ => None
                        | None =>
                            if String.eqb rest'' "" then Some (acc', Some (length acc'), "")
                            else parseIPv6_loop fuel' rest'' acc' (Some (length acc'))
                        end
                    | _ => parseIPv6_loop fuel' rest' acc' ellipsis
                    end
              end
        end
  end.

Definition parseIPv6 (s : string) : IP :=
  let '(ellipsis, s', only_ellipsis) :=
    match s with
    | String ":"%char (String ":"%char rest) => (Some 0%nat, rest, String.eqb rest "")
    | _ => (None, s, false)
    end in
  if only_ellipsis then replicate 16 0
  else
    match parseIPv6_loop 8 s' [] ellipsis with
    | None => []
    | Some (acc, ellipsis', rest) =>
        if negb (String.eqb rest "") then []
        else if bool_decide (length acc < 16)%nat then
          match ellipsis' with
          | None => []
          | Some e => take e acc ++ replicate (16 - length acc) 0 ++ drop e acc
          end
        else match ellipsis' with
             | Some _ => []
             | None => acc
             end
    end.

Fixpoint ParseIP_scan (whole s : string) : IP :=
  match s with
  | EmptyString => []
  | String c rest =>
      if Ascii.eqb c "."%char then parseIPv4 whole
      else if Ascii.eqb c ":"%char then parseIPv6 whole
      else ParseIP_scan whole rest
  end.

(** [net.ParseIP]: the address in its 16-byte form, nil for malformed text. *)
Definition ParseIP (s : string) : IP := ParseIP_scan s s.

(** ** Package bgp

    The packages bgp, table and zebra of the repository are imported by
    server/zclient.go; what the bridge observes of their types is modelled
    here. *)

(** Modelled from the spec: [bgp.RouteFamily], declared in package bgp: a
    route family is an address family (1 for IPv4, 2 for IPv6) and a
    subsequent address family (1 for unicast, 128 for labelled VPN) in
    one number. *)
Definition RouteFamily : Type := Z.

Definition AfiSafiToRouteFamily (afi safi : Z) : RouteFamily :=
  Z.lor (Z.shiftl afi 16) safi.

Definition RF_IPv4_UC : RouteFamily := AfiSafiToRouteFamily 1 1.
Definition RF_IPv6_UC : RouteFamily := AfiSafiToRouteFamily 2 1.
Definition RF_IPv4_VPN : RouteFamily := AfiSafiToRouteFamily 1 128.
Definition RF_IPv6_VPN : RouteFamily := AfiSafiToRouteFamily 2 128.

(** Modelled from the spec: the community values are declared in package
    bgp; one fixed value designates the backup region, and the bridge only
    compares communities with it. *)
Inductive Community : Type :=
  | COMMUNITY_REGION_BACKUP
  | COMMUNITY_other (value : Z).

#[global] Instance Community_eq_dec : EqDecision Community.
Proof. solve_decision. Defined.

(** Modelled from the spec: the dynamic type of an NLRI, one of the four
    prefix types of package bgp that [newIPRouteBody] asserts, or another
    type, of the family given. *)
Inductive NlriType : Type :=
  | IPAddrPrefix
  | IPv6AddrPrefix
  | LabeledVPNIPAddrPrefix
  | LabeledVPNIPv6AddrPrefix
  | OtherAddrPrefix (rf : RouteFamily).

#[global] Instance NlriType_eq_dec : EqDecision NlriType.
Proof. solve_decision. Defined.

(** Modelled from the spec: [bgp.AddrPrefixInterface] with the embedded
    [IPAddrPrefixDefault] (length and prefix), the text [String()] prints
    and the path-local identifier. The text is a field of its own: the
    translators below hold for whatever the bgp package prints. *)
Record AddrPrefix : Type := mkAddrPrefix {
  nlri_type : NlriType;
  nlri_Length : Z;
  nlri_Prefix : IP;
  nlri_String : string;
  PathLocalIdentifier : Z
}.

Definition nlri_RouteFamily (n : AddrPrefix) : RouteFamily :=
  match nlri_type n with
  | IPAddrPrefix => RF_IPv4_UC
  | IPv6AddrPrefix => RF_IPv6_UC
  | LabeledVPNIPAddrPrefix => RF_IPv4_VPN
  | LabeledVPNIPv6AddrPrefix => RF_IPv6_VPN
  | OtherAddrPrefix rf => rf
  end.

(** The type assertion [nlri.( *T )]: it panics on another dynamic type. *)
Definition type_assert (T : NlriType) (n : AddrPrefix) : option AddrPrefix :=
  if bool_decide (nlri_type n = T) then Some n else None.

(** Modelled from the spec: [bgp.NewIPAddrPrefix] and [bgp.NewIPv6AddrPrefix]
    build the NLRI of a prefix given as text; the prefix prints as
    address/length. *)
Definition NewIPAddrPrefix (length : Z) (prefix : string) : AddrPrefix :=
  let p := To4 (ParseIP prefix) in
  {| nlri_type := IPAddrPrefix; nlri_Length := length; nlri_Prefix := p;
     nlri_String := IP_String p +:+ "/" +:+ uitoa length; PathLocalIdentifier := 0 |}.

Definition NewIPv6AddrPrefix (length : Z) (prefix : string) : AddrPrefix :=
  let p := ParseIP prefix in
  {| nlri_type := IPv6AddrPrefix; nlri_Length := length; nlri_Prefix := p;
     nlri_String := IP_String p +:+ "/" +:+ uitoa length; PathLocalIdentifier := 0 |}.

(** Modelled from the spec: the path attributes the ingress translator
    builds (origin, nexthop, MP_REACH_NLRI, MED), declared in package bgp. *)
Definition BGP_ORIGIN_ATTR_TYPE_IGP : Z := 0.

Inductive PathAttribute : Type :=
  | PathAttributeOrigin (value : Z)
  | PathAttributeNextHop (Value : IP)
  | PathAttributeMpReachNLRI (Nexthop : IP) (Value : list AddrPrefix)
  | PathAttributeMultiExitDisc (Value : Z).

Definition NewPathAttributeOrigin (value : Z) : PathAttribute :=
  PathAttributeOrigin value.

(** Modelled from the spec: the nexthop attributes are built from the
    text of the first nexthop of a route message. *)
Definition NewPathAttributeNextHop (value : string) : PathAttribute :=
  PathAttributeNextHop (To4 (ParseIP value)).

Definition NewPathAttributeMpReachNLRI (nexthop : string) (nlri : list AddrPrefix)
  : PathAttribute :=
  let ip := ParseIP nexthop in
  PathAttributeMpReachNLRI (match To4 ip with [] => ip | ip4 => ip4 end) nlri.

Definition NewPathAttributeMultiExitDisc (value : Z) : PathAttribute :=
  PathAttributeMultiExitDisc value.

(** ** Package table *)

(** Modelled from the spec: [table.PeerInfo], the source of a path: the
    AS of the peer, the local AS, the multihop TTL and the address of the
    peer. *)
Record PeerInfo : Type := mkPeerInfo {
  AS : Z;
  LocalAS : Z;
  MultihopTtl : Z;
  Address : IP
}.

(** Modelled from the spec: [table.Path] as the record of the attributes
    the bridge reads (section 3 of the specification): source, NLRI,
    nexthop, the withdraw and nexthop-invalid flags, MED, AS path (its
    length and its serialised bytes), communities, and the marker of
    paths that came from zebra. *)
Record Path : Type := mkPath {
  path_source : option PeerInfo;
  path_nlri : AddrPrefix;
  IsWithdraw : bool;
  IsNexthopInvalid : bool;
  path_isFromExternal : bool;
  path_nexthop : IP;
  path_med : option Z;
  path_asPathLen : Z;
  path_asPath : option (list Z);
  path_communities : list Community
}.

Definition GetNlri (p : Path) : AddrPrefix := path_nlri p.
Definition GetRouteFamily (p : Path) : RouteFamily := nlri_RouteFamily (path_nlri p).
Definition GetNexthop (p : Path) : IP := path_nexthop p.
Definition GetSource (p : Path) : option PeerInfo := path_source p.
Definition GetCommunities (p : Path) : list Community := path_communities p.
Definition GetAsPathLen (p : Path) : Z := path_asPathLen p.
Definition GetAsPath (p : Path) : option (list Z) := path_asPath p.
Definition IsFromExternal (p : Path) : bool := path_isFromExternal p.

(** Modelled from the spec: [GetMed] returns the MED ("has-metric iff MED
    is retrievable"), and an error when the path has none. *)
Definition GetMed (p : Path) : Z * bool :=
  match path_med p with
  | Some m => (m, false)
  | None => (0, true)
  end.

(** Modelled from the spec: [IsLocal] reads the local marker of the
    source of the path; the source of a local path has no address. *)
Definition IsLocal (p : Path) : option bool :=
  info ← GetSource p; Some (bool_decide (Address info = [])).

Definition SetIsFromExternal (y : bool) (p : Path) : Path :=
  mkPath (path_source p) (path_nlri p) (IsWithdraw p) (IsNexthopInvalid p) y
    (path_nexthop p) (path_med p) (path_asPathLen p) (path_asPath p)
    (path_communities p).

Definition set_IsNexthopInvalid (y : bool) (p : Path) : Path :=
  mkPath (path_source p) (path_nlri p) (IsWithdraw p) y (path_isFromExternal p)
    (path_nexthop p) (path_med p) (path_asPathLen p) (path_asPath p)
    (path_communities p).

(** Modelled from the spec: [Path.Clone(isWithdraw)] is a path with the
    attributes of the original and the given withdraw flag. *)
Definition Clone (isWithdraw : bool) (p : Path) : Path :=
  mkPath (path_source p) (path_nlri p) isWithdraw (IsNexthopInvalid p)
    (path_isFromExternal p) (path_nexthop p) (path_med p) (path_asPathLen p)
    (path_asPath p) (path_communities p).

(** Modelled from the spec: [Path.SetMed(med, true)] copies [med] into
    the MED of the path. The MED has 32 bits: a value outside of them is
    refused with an error and the path is left as it is. The second
    argument is [true] at the only call of the bridge and is not observed. *)
Definition SetMed (med : Z) (doReplace : bool) (p : Path) : Path * bool :=
  if (med <? 0) || (MaxUint32 <? med) then (p, true)
  else
    (mkPath (path_source p) (path_nlri p) (IsWithdraw p) (IsNexthopInvalid p)
       (path_isFromExternal p) (path_nexthop p) (Some med) (path_asPathLen p)
       (path_asPath p) (path_communities p), false).

Fixpoint attr_nexthop (pattrs : list PathAttribute) : option IP :=
  match pattrs with
  | [] => None
  | PathAttributeNextHop v :: _ => Some v
  | _ :: rest => attr_nexthop rest
  end.

Fixpoint attr_mp_reach_nexthop (pattrs : list PathAttribute) : option IP :=
  match pattrs with
  | [] => None
  | PathAttributeMpReachNLRI nh _ :: _ => Some nh
  | _ :: rest => attr_mp_reach_nexthop rest
  end.

Fixpoint attr_med (pattrs : list PathAttribute) : option Z :=
  match pattrs with
  | [] => None
  | PathAttributeMultiExitDisc v :: _ => Some v
  | _ :: rest => attr_med rest
  end.

(** Modelled from the spec: [table.NewPath(source, nlri, isWithdraw,
    pattrs, timestamp, noImplicitWithdraw)]. The nexthop of the path is its
    NEXT_HOP attribute, else the nexthop of its MP_REACH_NLRI attribute,
    else the empty address; the time stamp is not observed. *)
Definition NewPath (source : option PeerInfo) (nlri : AddrPrefix) (isWithdraw : bool)
    (pattrs : list PathAttribute) : Path :=
  {| path_source := source;
     path_nlri := nlri;
     IsWithdraw := isWithdraw;
     IsNexthopInvalid := false;
     path_isFromExternal := false;
     path_nexthop :=
       match attr_nexthop pattrs with
       | Some v => v
       | None => default [] (attr_mp_reach_nexthop pattrs)
       end;
     path_med := attr_med pattrs;
     path_asPathLen := 0;
     path_asPath := None;
     path_communities := [] |}.

(** Modelled from the spec: [table.TableManager], the view of the global
    RIB the bridge builds: the known paths of each route family. *)
Record TableManager : Type := mkTableManager {
  Tables : gmap Z (list Path)
}.

(** Modelled from the spec: [GetPathListWithNexthop] returns the paths of
    the given families that are bound to the nexthop. *)
Definition GetPathListWithNexthop (manager : TableManager) (rfList : list RouteFamily)
    (nexthop : IP) : list Path :=
  rf ← rfList;
  match Tables manager !! rf with
  | Some t => filter (λ p, IP_Equal (GetNexthop p) nexthop = true) t
  | None => []
  end.

(** ** Package zebra *)

(** Modelled from the spec: the constants at the boundary, the address
    families 2 (IPv4) and 10 (IPv6), the route type of BGP, unicast and
    the default VRF. *)
Definition AF_INET : Z := 2.
Definition AF_INET6 : Z := 10.

Definition ROUTE_TYPE : Type := Z.
Definition ROUTE_BGP : ROUTE_TYPE := 9.
Definition SAFI_UNICAST : Z := 1.
Definition VRF_DEFAULT : Z := 0.

(** Modelled from the spec: the message flags are a bitset over
    has-nexthop, has-metric, has-aspath and has-path-id. *)
Record MESSAGE_FLAG : Type := mkMessageFlag {
  has_nexthop : bool;
  has_metric : bool;
  has_aspath : bool;
  has_path_id : bool
}.

Definition MESSAGE_none : MESSAGE_FLAG := mkMessageFlag false false false false.
Definition MESSAGE_NEXTHOP : MESSAGE_FLAG := mkMessageFlag true false false false.
Definition MESSAGE_METRIC : MESSAGE_FLAG := mkMessageFlag false true false false.
Definition MESSAGE_ASPATH : MESSAGE_FLAG := mkMessageFlag false false true false.
Definition MESSAGE_PATH_ID : MESSAGE_FLAG := mkMessageFlag false false false true.

(** [a | b] on message flags. *)
Definition message_or (a b : MESSAGE_FLAG) : MESSAGE_FLAG :=
  mkMessageFlag (has_nexthop a || has_nexthop b) (has_metric a || has_metric b)
    (has_aspath a || has_aspath b) (has_path_id a || has_path_id b).

(** Modelled from the spec: the route flags are a bitset over iBGP,
    internal and reject. *)
Record FLAG : Type := mkFlag {
  flag_ibgp : bool;
  flag_internal : bool;
  flag_reject : bool
}.

Definition FLAG_none : FLAG := mkFlag false false false.
Definition FLAG_IBGP : FLAG := mkFlag true false false.
Definition FLAG_INTERNAL : FLAG := mkFlag false true false.
Definition FLAG_REJECT : FLAG := mkFlag false false true.

Definition flag_or (a b : FLAG) : FLAG :=
  mkFlag (flag_ibgp a || flag_ibgp b) (flag_internal a || flag_internal b)
    (flag_reject a || flag_reject b).

(** Modelled from the spec: the commands a route message arrives with,
    IPV4_ROUTE_ADD/DELETE and IPV6_ROUTE_ADD/DELETE among the others. *)
Inductive API_TYPE : Type :=
  | IPV4_ROUTE_ADD
  | IPV4_ROUTE_DELETE
  | IPV6_ROUTE_ADD
  | IPV6_ROUTE_DELETE
  | API_other (command : Z).

(** Modelled from the spec: [zebra.IPRouteBody], the route message, with
    the fields the translators read and write. *)
Record IPRouteBody : Type := mkIPRouteBody {
  Type_ : ROUTE_TYPE;
  Flags : FLAG;
  SAFI : Z;
  Message_ : MESSAGE_FLAG;
  Prefix : IP;
  PrefixLength : Z;
  Nexthops : list IP;
  Ifindexs : list Z;
  Distance : Z;
  Metric : Z;
  Mtu : Z;
  Aux : list Z;
  PathId : Z;
  Api : API_TYPE
}.

(** Modelled from the spec: a route message is of the IPv4 or of the IPv6
    unicast family by its command, and a withdrawal when the command is a
    route deletion. [RF_OPAQUE] stands for any other family. *)
Definition RF_OPAQUE : RouteFamily := AfiSafiToRouteFamily 16397 241.

Definition IPRouteBody_RouteFamily (b : IPRouteBody) : RouteFamily :=
  match Api b with
  | IPV4_ROUTE_ADD | IPV4_ROUTE_DELETE => RF_IPv4_UC
  | IPV6_ROUTE_ADD | IPV6_ROUTE_DELETE => RF_IPv6_UC
  | API_other _ => RF_OPAQUE
  end.

Definition IPRouteBody_IsWithdraw (b : IPRouteBody) : bool :=
  match Api b with
  | IPV4_ROUTE_DELETE | IPV6_ROUTE_DELETE => true
  | _ => false
  end.

(** Modelled from the spec: the nexthop update of zebra (family, prefix,
    metric and nexthops), the entries of a nexthop registration, and the
    messages of the daemon as tagged bodies under a header. *)
Record Nexthop : Type := mkNexthop {
  nh_Type : Z;
  nh_Addr : IP;
  nh_Ifindex : Z
}.

Record NexthopUpdateBody : Type := mkNexthopUpdateBody {
  nu_Family : Z;
  nu_Prefix : IP;
  nu_Metric : Z;
  nu_Nexthops : list Nexthop
}.

Record RegisteredNexthop : Type := mkRegisteredNexthop {
  rn_Family : Z;
  rn_Prefix : IP
}.

Record NexthopRegisterBody : Type := mkNexthopRegisterBody {
  nr_Nexthops : list RegisteredNexthop
}.

Record Header : Type := mkHeader {
  Command : API_TYPE;
  VrfId : Z
}.

Inductive Body : Type :=
  | Body_IPRoute (b : IPRouteBody)
  | Body_NexthopUpdate (b : NexthopUpdateBody)
  | Body_Unknown (data : list Z).

Record Message : Type := mkMessage {
  msg_Header : Header;
  msg_Body : Body
}.

(** * server/zclient.go *)

(** [pathList] is a slice of pointers to paths, some of which may be nil. *)
Definition pathList : Type := list (option Path).

(** ** The nexthop tracking manager *)

(** The channels [dead], [trigger] and [pathListCh] of the Go struct are
    the events of [loop_step] below; [server] is where [UpdatePath] goes. *)
Record nexthopTrackingManager : Type := mkNexthopTrackingManager {
  nexthopCache : gset string;
  delay : Z;
  isScheduled : bool;
  scheduledPathList : gmap string pathList
}.

Definition newNexthopTrackingManager (delay : Z) : nexthopTrackingManager :=
  {| nexthopCache := ∅; delay := delay; isScheduled := false; scheduledPathList := ∅ |}.

Definition set_nexthopCache (c : gset string) (m : nexthopTrackingManager) :=
  mkNexthopTrackingManager c (delay m) (isScheduled m) (scheduledPathList m).

Definition set_isScheduled (b : bool) (m : nexthopTrackingManager) :=
  mkNexthopTrackingManager (nexthopCache m) (delay m) b (scheduledPathList m).

Definition set_scheduledPathList (l : gmap string pathList) (m : nexthopTrackingManager) :=
  mkNexthopTrackingManager (nexthopCache m) (delay m) (isScheduled m) l.

Definition isRegisteredNexthop (m : nexthopTrackingManager) (nexthop : IP) : bool :=
  let key := IP_String nexthop in
  bool_decide (key ∈ nexthopCache m).

Definition registerNexthop (m : nexthopTrackingManager) (nexthop : IP)
  : bool * nexthopTrackingManager :=
  let key := IP_String nexthop in
  if bool_decide (key ∈ nexthopCache m) then (false, m)
  else (true, set_nexthopCache ({[ key ]} ∪ nexthopCache m) m).

Definition unregisterNexthop (m : nexthopTrackingManager) (nexthop : IP)
  : nexthopTrackingManager :=
  let key := IP_String nexthop in
  set_nexthopCache (nexthopCache m ∖ {[ key ]}) m.

(** [paths[0]] is dereferenced: a nil pointer there is a panic. *)
Definition appendPathList (m : nexthopTrackingManager) (paths : pathList)
  : option nexthopTrackingManager :=
  match paths with
  | [] => Some m
  | first :: _ =>
      path ← first;
      Some (set_scheduledPathList
              (<[ IP_String (GetNexthop path) := paths ]> (scheduledPathList m)) m)
  end.

(** The loop of [calculateDelay]:
    [for penalty > 950 { delay += 8; penalty /= 2 }]. *)
Equations? calculateDelay_loop (delay penalty : Z) : Z by wf (Z.to_nat penalty) lt :=
  calculateDelay_loop delay penalty with Z_lt_dec 950 penalty := {
    | left _ => calculateDelay_loop (int_add delay 8) (int_quot penalty 2)
    | right _ => delay }.
Proof.
  unfold int_quot.
  assert (Z.quot penalty 2 < penalty) by (apply Z.quot_lt; lia).
  assert (0 <= Z.quot penalty 2) by (apply Z.quot_pos; lia).
  lia.
Qed.

Definition calculateDelay (m : nexthopTrackingManager) (penalty : Z) : Z :=
  if penalty <=? 950 then delay m
  else calculateDelay_loop 8 penalty.

(** The state of [loop]: the manager, the local variable [penalty], and
    whether the loop is still running. *)
Record nhtLoop : Type := mkNhtLoop {
  loop_m : nexthopTrackingManager;
  loop_penalty : Z;
  loop_running : bool
}.

(** What [select] can receive: the close of [dead], a tick of the 8 second
    ticker, a batch on [pathListCh], a signal on [trigger]. *)
Inductive nhtEvent : Type :=
  | Ev_dead
  | Ev_tick
  | Ev_pathList (paths : pathList)
  | Ev_trigger.

(** What the loop does to the outside: it arms a timer that signals
    [trigger] after [seconds], and it calls [server.UpdatePath]. *)
Inductive nhtAction : Type :=
  | AfterFunc (seconds : Z)
  | UpdatePath (paths : pathList).

Definition loop_init (m : nexthopTrackingManager) : nhtLoop :=
  {| loop_m := m; loop_penalty := 0; loop_running := true |}.

(** One round of the [for { select { ... } }] of [loop]. [None] is a panic.
    On [Ev_trigger] the batches are taken in the order of iteration of the
    map, which Go leaves unspecified. *)
Definition loop_step (s : nhtLoop) (e : nhtEvent) : option (nhtLoop * list nhtAction) :=
  if negb (loop_running s) then Some (s, [])
  else
    match e with
    | Ev_dead => Some (mkNhtLoop (loop_m s) (loop_penalty s) false, [])
    | Ev_tick => Some (mkNhtLoop (loop_m s) (int_quot (loop_penalty s) 2) true, [])
    | Ev_pathList paths =>
        let penalty := int_add (loop_penalty s) 500 in
        m ← appendPathList (loop_m s) paths;
        if isScheduled m then Some (mkNhtLoop m penalty true, [])
        else
          let m := set_isScheduled true m in
          let delay := calculateDelay m penalty in
          Some (mkNhtLoop m penalty true, [AfterFunc delay])
    | Ev_trigger =>
        let paths := concat (snd <$> map_to_list (scheduledPathList (loop_m s))) in
        let m := set_scheduledPathList ∅ (set_isScheduled false (loop_m s)) in
        Some (mkNhtLoop m (loop_penalty s) true, [UpdatePath paths])
    end.

(** The loop over a sequence of events, with the actions in order. *)
Fixpoint loop_run (s : nhtLoop) (evs : list nhtEvent) : option (nhtLoop * list nhtAction) :=
  match evs with
  | [] => Some (s, [])
  | e :: rest =>
      '(s', acts) ← loop_step s e;
      '(s'', acts') ← loop_run s' rest;
      Some (s'', acts ++ acts')
  end.

(** [scheduleUpdate] sends a batch to the loop unless it is empty. *)
Definition scheduleUpdate (paths : pathList) : list nhtEvent :=
  match paths with
  | [] => []
  | _ => [Ev_pathList paths]
  end.

Fixpoint filterPathToRegister (m : nexthopTrackingManager) (paths : pathList) : list Path :=
  match paths with
  | [] => []
  | None :: rest => filterPathToRegister m rest
  | Some path :: rest =>
      if IsFromExternal path then filterPathToRegister m rest
      else if IsWithdraw path || IsNexthopInvalid path then filterPathToRegister m rest
      else
        let nexthop := GetNexthop path in
        if isRegisteredNexthop m nexthop || IsUnspecified nexthop
        then filterPathToRegister m rest
        else path :: filterPathToRegister m rest
  end.

(** ** The translators *)

(** The paths that remain are not nil: the result is a list of paths. *)
Fixpoint filterOutExternalPath (paths : pathList) : list Path :=
  match paths with
  | [] => []
  | None :: rest => filterOutExternalPath rest
  | Some path :: rest =>
      if IsFromExternal path then filterOutExternalPath rest
      else path :: filterOutExternalPath rest
  end.

(** The two [for _, p := range paths] loops of [newIPRouteBody]: [conv] is
    [To4] or [To16], [loopback] the address put in place of the nexthop
    when the route is withdrawn by the speaker itself. *)
Fixpoint collect_nexthops (conv : IP -> IP) (loopback : IP) (selfRouteWithdraw : bool)
    (paths : list Path) : list IP :=
  match paths with
  | [] => []
  | p :: rest =>
      let nhop := if selfRouteWithdraw then loopback else conv (GetNexthop p) in
      if bool_decide (nhop <> []) then
        nhop :: collect_nexthops conv loopback selfRouteWithdraw rest
      else collect_nexthops conv loopback selfRouteWithdraw rest
  end.

(** [for _, c := range path.GetCommunities()] of [newIPRouteBody]. *)
Fixpoint community_flags (flags : FLAG) (cs : list Community) : FLAG :=
  match cs with
  | [] => flags
  | c :: rest =>
      community_flags
        (if bool_decide (c = COMMUNITY_REGION_BACKUP) then flag_or flags FLAG_REJECT
         else flags) rest
  end.

(** [newIPRouteBody] from [var msgFlags] to its end, once the prefix and
    the nexthops are known. *)
Definition newIPRouteBody_assemble (path : Path) (l : list string) (prefix : IP)
    (nexthops : list IP) : option (option IPRouteBody * bool) :=
  let msgFlags := if bool_decide (0 < length nexthops)%nat then MESSAGE_NEXTHOP
                  else MESSAGE_none in
  l1 ← l !! 1%nat;
  let plen := (ParseUint10 l1 8).1 in
  let '(med, err) := GetMed path in
  let msgFlags := if err then msgFlags else message_or msgFlags MESSAGE_METRIC in
  info ← GetSource path;
  let flags :=
    if AS info =? LocalAS info then flag_or FLAG_IBGP FLAG_INTERNAL
    else if 0 <? MultihopTtl info then FLAG_INTERNAL
    else FLAG_none in
  let flags := community_flags flags (GetCommunities path) in
  let '(aux, msgFlags) :=
    if 0 <? GetAsPathLen path then
      match GetAsPath path with
      | Some serialized =>
          if bool_decide (3 < length serialized)%nat
          then (drop 3 serialized, message_or msgFlags MESSAGE_ASPATH)
          else (serialized, msgFlags)
      | None => ([], msgFlags)
      end
    else ([], msgFlags) in
  let pathId := if plen =? 0 then PathLocalIdentifier (GetNlri path) else 0 in
  if (plen =? 0) && (pathId =? 0) then Some (None, false)
  else
    let msgFlags := if plen =? 0 then message_or msgFlags MESSAGE_PATH_ID else msgFlags in
    Some (Some {| Type_ := ROUTE_BGP;
                  Flags := flags;
                  SAFI := SAFI_UNICAST;
                  Message_ := msgFlags;
                  Prefix := prefix;
                  PrefixLength := uint8 plen;
                  Nexthops := nexthops;
                  Ifindexs := [];
                  Distance := 0;
                  Metric := med;
                  Mtu := 0;
                  Aux := aux;
                  PathId := pathId;
                  Api := API_other 0 |},
          IsWithdraw path).

Definition loopback4 : IP := To4 (ParseIP "127.0.0.1").
Definition loopback6 : IP := To16 (ParseIP "::1").

Definition newIPRouteBody (dst : pathList) (selfRouteWithdraw : bool)
  : option (option IPRouteBody * bool) :=
  let paths := filterOutExternalPath dst in
  match paths with
  | [] => Some (None, false)
  | path :: _ =>
      let l := SplitN (nlri_String (GetNlri path)) "/" 2 in
      let rf := GetRouteFamily path in
      if bool_decide (rf = RF_IPv4_UC) || bool_decide (rf = RF_IPv4_VPN) then
        nlri ← (if bool_decide (rf = RF_IPv4_UC)
                then type_assert IPAddrPrefix (GetNlri path)
                else type_assert LabeledVPNIPAddrPrefix (GetNlri path));
        let prefix := To4 (nlri_Prefix nlri) in
        let nexthops := collect_nexthops To4 loopback4 selfRouteWithdraw paths in
        newIPRouteBody_assemble path l prefix nexthops
      else if bool_decide (rf = RF_IPv6_UC) || bool_decide (rf = RF_IPv6_VPN) then
        nlri ← (if bool_decide (rf = RF_IPv6_UC)
                then type_assert IPv6AddrPrefix (GetNlri path)
                else type_assert LabeledVPNIPv6AddrPrefix (GetNlri path));
        let prefix := To16 (nlri_Prefix nlri) in
        let nexthops := collect_nexthops To16 loopback6 selfRouteWithdraw paths in
        newIPRouteBody_assemble path l prefix nexthops
      else Some (None, false)
  end.

Definition is_IPv4_family (rf : RouteFamily) : bool :=
  bool_decide (rf = RF_IPv4_UC) || bool_decide (rf = RF_IPv4_VPN).

Definition is_IPv6_family (rf : RouteFamily) : bool :=
  bool_decide (rf = RF_IPv6_UC) || bool_decide (rf = RF_IPv6_VPN).

(** The [for _, p := range paths] loop of [newNexthopRegisterBody]: it
    appends an entry per path and registers the nexthop in the cache; a
    family that is neither IPv4 nor IPv6 skips the path. *)
Fixpoint register_loop (family : RouteFamily) (m : nexthopTrackingManager)
    (paths : list Path) (nexthops : list RegisteredNexthop)
  : list RegisteredNexthop * nexthopTrackingManager :=
  match paths with
  | [] => (nexthops, m)
  | p :: rest =>
      let nexthop := GetNexthop p in
      if is_IPv4_family family then
        let nh := {| rn_Family := AF_INET; rn_Prefix := To4 nexthop |} in
        register_loop family (registerNexthop m nexthop).2 rest (nexthops ++ [nh])
      else if is_IPv6_family family then
        let nh := {| rn_Family := AF_INET6; rn_Prefix := To16 nexthop |} in
        register_loop family (registerNexthop m nexthop).2 rest (nexthops ++ [nh])
      else register_loop family m rest nexthops
  end.

(** The result is the body, the withdraw flag, and the manager after the
    call ([nhtManager] is a pointer: [None] is nil). *)
Definition newNexthopRegisterBody (dst : pathList) (nhtManager : option nexthopTrackingManager)
  : option NexthopRegisterBody * bool * option nexthopTrackingManager :=
  match nhtManager with
  | None => (None, false, None)
  | Some m =>
      let paths := filterPathToRegister m dst in
      match paths with
      | [] => (None, false, Some m)
      | path :: _ =>
          if IsWithdraw path then (None, true, Some m)
          else
            let family := GetRouteFamily path in
            let '(nexthops, m') := register_loop family m paths [] in
            if bool_decide (length nexthops = 0%nat)
            then (None, IsWithdraw path, Some m')
            else (Some {| nr_Nexthops := nexthops |}, IsWithdraw path, Some m')
      end
  end.

(** [m.Body.( *zebra.IPRouteBody )] panics on another body; the result is
    nil for a family that is not supported. *)
Definition createPathFromIPRouteMessage (m : Message) : option (option Path) :=
  body ← (match msg_Body m with
          | Body_IPRoute b => Some b
          | _ => None
          end);
  let family := IPRouteBody_RouteFamily body in
  let isWithdraw := IPRouteBody_IsWithdraw body in
  let pattr := [NewPathAttributeOrigin BGP_ORIGIN_ATTR_TYPE_IGP] in
  let built :=
    if bool_decide (family = RF_IPv4_UC) then
      let nlri := NewIPAddrPrefix (PrefixLength body) (IP_String (Prefix body)) in
      Some (nlri,
            match Nexthops body with
            | nh0 :: _ => pattr ++ [NewPathAttributeNextHop (IP_String nh0)]
            | [] => pattr
            end)
    else if bool_decide (family = RF_IPv6_UC) then
      let nlri := NewIPv6AddrPrefix (PrefixLength body) (IP_String (Prefix body)) in
      let nexthop := match Nexthops body with
                     | nh0 :: _ => IP_String nh0
                     | [] => ""
                     end in
      Some (nlri, pattr ++ [NewPathAttributeMpReachNLRI nexthop [nlri]])
    else None in
  match built with
  | None => Some None
  | Some (nlri, pattr) =>
      let med := NewPathAttributeMultiExitDisc (Metric body) in
      let pattr := pattr ++ [med] in
      let path := NewPath None nlri isWithdraw pattr in
      Some (Some (SetIsFromExternal true path))
  end.

Definition rfListFromNexthopUpdateBody (body : NexthopUpdateBody) : list RouteFamily :=
  if nu_Family body =? AF_INET then [RF_IPv4_UC; RF_IPv4_VPN]
  else if nu_Family body =? AF_INET6 then [RF_IPv6_UC; RF_IPv6_VPN]
  else [].

Definition error : Type := string.

(** The [for _, path := range paths] loop of
    [createPathListFromNexthopUpdateMessage]. *)
Definition update_clone (isNexthopInvalid : bool) (metric : Z) (path : Path) : Path :=
  let newPath := Clone false path in
  if isNexthopInvalid then set_IsNexthopInvalid true newPath
  else (SetMed metric true (set_IsNexthopInvalid false newPath)).1.

(** The result is the path list, the unregister body, the error, and the
    manager after the call; [None] is the panic of a nil [nhtManager]. *)
Definition createPathListFromNexthopUpdateMessage (body : NexthopUpdateBody)
    (manager : TableManager) (nhtManager : option nexthopTrackingManager)
  : option (pathList * option NexthopRegisterBody * option error
            * option nexthopTrackingManager) :=
  let isNexthopInvalid := bool_decide (length (nu_Nexthops body) = 0%nat) in
  let paths := GetPathListWithNexthop manager (rfListFromNexthopUpdateBody body)
                 (nu_Prefix body) in
  let pathsLen := length paths in
  '(nexthopUnregisterBody, nhtManager') ←
    (if bool_decide (pathsLen = 0%nat) then
       m ← nhtManager;
       Some (Some {| nr_Nexthops := [ {| rn_Family := nu_Family body;
                                         rn_Prefix := nu_Prefix body |} ] |},
             Some (unregisterNexthop m (nu_Prefix body)))
     else Some (None, nhtManager));
  let updatedPathList :=
    (λ path, Some (update_clone isNexthopInvalid (nu_Metric body) path)) <$> paths in
  Some (updatedPathList, nexthopUnregisterBody, None, nhtManager').

(** ** The bridge *)

(** What the bridge asks of the BGP server: the global RIB of a family
    ([None] when [GetRib] fails) and whether [AddPath] fails on a batch. *)
Record BgpServer : Type := mkBgpServer {
  GetRib : RouteFamily -> option (list Path);
  AddPath_fails : pathList -> bool
}.

(** What the bridge loop does to the outside. *)
Inductive bridgeAction : Type :=
  | AddPath (paths : pathList)
  | Errorf (msg : string)
  | ScheduleUpdate (events : list nhtEvent)
  | SendIPRoute (vrfId : Z) (body : IPRouteBody) (isWithdraw : bool)
  | SendNexthopRegister (vrfId : Z) (body : NexthopRegisterBody) (isWithdraw : bool).

(** The [for _, rf := range rfListFromNexthopUpdateBody(body)] loop of the
    bridge: the tables of the view and the errors logged on the way. *)
Fixpoint build_tables (server : BgpServer) (rfs : list RouteFamily)
    (tables : gmap Z (list Path)) : gmap Z (list Path) * list bridgeAction :=
  match rfs with
  | [] => (tables, [])
  | rf :: rest =>
      match GetRib server rf with
      | None =>
          let '(t, acts) := build_tables server rest tables in
          (t, Errorf ("failed to get global rib by family " +:+ uitoa rf) :: acts)
      | Some rib => build_tables server rest (<[ rf := rib ]> tables)
      end
  end.

(** The arm [case msg := <-z.client.Receive()] of the bridge loop for a
    message that is not nil: the manager after it and what it did. *)
Definition loop_message (server : BgpServer) (nhtManager : option nexthopTrackingManager)
    (msg : Message)
  : option (option nexthopTrackingManager * list bridgeAction) :=
  match msg_Body msg with
  | Body_IPRoute _ =>
      r ← createPathFromIPRouteMessage msg;
      match r with
      | Some p =>
          Some (nhtManager,
                AddPath [Some p]
                  :: (if AddPath_fails server [Some p]
                      then [Errorf ("failed to add path from zebra: "
                                      +:+ nlri_String (GetNlri p))]
                      else []))
      | None => Some (nhtManager, [])
      end
  | Body_NexthopUpdate body =>
      match nhtManager with
      | None => Some (None, [])
      | Some _ =>
          let '(tables, logs) :=
            build_tables server (rfListFromNexthopUpdateBody body) ∅ in
          let manager := {| Tables := tables |} in
          '(paths, b, err, nhtManager') ←
            createPathListFromNexthopUpdateMessage body manager nhtManager;
          match err with
          | Some _ =>
              Some (nhtManager',
                    logs ++ [Errorf ("failed to create updated path list related to nexthop "
                                       +:+ IP_String (nu_Prefix body))])
          | None =>
              Some (nhtManager',
                    logs ++ [ScheduleUpdate (scheduleUpdate paths)]
                      ++ match b with
                         | Some b => [SendNexthopRegister (VrfId (msg_Header msg)) b true]
                         | None => []
                         end)
          end
      end
  | Body_Unknown _ => Some (nhtManager, [])
  end.

Definition NlriPrefix (str : string) : string :=
  let nlri := Split str ":" in
  List.last nlri "".

(** The body of [for _, path := range msg.PathList] in the arm of the
    bridge loop for a best path event without multipath: [vrf] is the map
    [msg.Vrf] of the event (nil is [None]). The paths of the event are not
    nil. *)
Definition loop_BestPath_path (nhtManager : option nexthopTrackingManager)
    (vrf : option (gmap string Z)) (path : Path)
  : option (option nexthopTrackingManager * list bridgeAction) :=
  if String.eqb (NlriPrefix (nlri_String (GetNlri path))) "0.0.0.0/0"
  then Some (nhtManager, [])
  else
    local ← IsLocal path;
    let selfRouteWithdraw := local in
    let i := default 0 (vrf ≫= λ m : gmap string Z, m !! nlri_String (GetNlri path)) in
    '(body, isWithdraw) ← newIPRouteBody [Some path] selfRouteWithdraw;
    let sent1 :=
      match body with
      | Some body => [SendIPRoute i body (if selfRouteWithdraw : bool then true else isWithdraw)]
      | None => []
      end in
    let '(body2, isWithdraw2, nhtManager') := newNexthopRegisterBody [Some path] nhtManager in
    let sent2 :=
      match body2 with
      | Some body2 =>
          [SendNexthopRegister i body2 (if selfRouteWithdraw : bool then true else isWithdraw2)]
      | None => []
      end in
    Some (nhtManager', sent1 ++ sent2).

(** ** Opening the bridge *)

Record Client : Type := mkClient {
  cli_network : string;
  cli_address : string;
  cli_version : Z
}.

(** The zebra package as [newZebraClient] uses it: [NewClient] dials the
    daemon and [RouteTypeFromString] looks up the name of a protocol; each
    gives its result or an error. *)
Record ZebraPackage : Type := mkZebraPackage {
  NewClient : string -> string -> ROUTE_TYPE -> Z -> Client + error;
  RouteTypeFromString : string -> ROUTE_TYPE + error
}.

Record zebraClient : Type := mkZebraClient {
  client : Client;
  nhtManager_of : option nexthopTrackingManager
}.

(** What [newZebraClient] does to the outside; [Go_loop] is [go w.loop()]. *)
Inductive openAction : Type :=
  | Warnf (msg : string)
  | SendInterfaceAdd
  | SendRedistribute (t : ROUTE_TYPE) (vrfId : Z)
  | Go_loop (w : zebraClient).

(** [for _, ver := range []uint8{version}]: the client and the error after
    the loop, with the warnings logged. *)
Fixpoint connect_loop (zebra : ZebraPackage) (network address : string) (vers : list Z)
    (cli : option Client) (err : option error)
  : option Client * option error * list openAction :=
  match vers with
  | [] => (cli, err, [])
  | ver :: rest =>
      match NewClient zebra network address ROUTE_BGP ver with
      | inl c => (Some c, None, [])
      | inr e =>
          let '(cli', err', acts) := connect_loop zebra network address rest None (Some e) in
          (cli', err',
           Warnf ("cannot connect to Zebra with message version " +:+ uitoa ver
                    +:+ ". going to retry another version...") :: acts)
      end
  end.

(** [for _, typ := range protos]: the error that ends the loop, if any,
    and the subscriptions sent before it. *)
Fixpoint redistribute_loop (zebra : ZebraPackage) (protos : list string)
  : option error * list openAction :=
  match protos with
  | [] => (None, [])
  | typ :: rest =>
      match RouteTypeFromString zebra typ with
      | inr err => (Some err, [])
      | inl t =>
          let '(err, acts) := redistribute_loop zebra rest in
          (err, SendRedistribute t VRF_DEFAULT :: acts)
      end
  end.

Definition newZebraClient (zebra : ZebraPackage) (url : string) (protos : list string)
    (version : Z) (nhtEnable : bool) (nhtDelay : Z)
  : option zebraClient * option error * list openAction :=
  let l := SplitN url ":" 2 in
  match l with
  | [l0; l1] =>
      let '(cli, err, acts) := connect_loop zebra l0 l1 [version] None None in
      match cli with
      | None => (None, err, acts)
      | Some cli =>
          let '(err, sent) := redistribute_loop zebra protos in
          match err with
          | Some err => (None, Some err, acts ++ SendInterfaceAdd :: sent)
          | None =>
              let nhtManager :=
                if nhtEnable then Some (newNexthopTrackingManager nhtDelay) else None in
              let w := {| client := cli; nhtManager_of := nhtManager |} in
              (Some w, None, acts ++ SendInterfaceAdd :: sent ++ [Go_loop w])
          end
      end
  | _ => (None, Some ("unsupported url: " +:+ url), [])
  end.

(** * Runs of the manager and example data *)

(** The state of [loop] once the batches [bs] have arrived one after the
    other, with no tick and no trigger in between. *)
Definition after_batches (m : nexthopTrackingManager) (bs : list pathList)
  : option nhtLoop :=
  fst <$> loop_run (loop_init m) (Ev_pathList <$> bs).

(** The delay [calculateDelay] gives for the penalty accumulated by [bs]. *)
Definition delay_after (m : nexthopTrackingManager) (bs : list pathList) : option Z :=
  s ← after_batches m bs; Some (calculateDelay (loop_m s) (loop_penalty s)).

Definition is_batch (e : nhtEvent) : bool :=
  match e with
  | Ev_pathList _ => true
  | _ => false
  end.

Definition count_batches (evs : list nhtEvent) : Z :=
  Z.of_nat (length (filter (λ e, is_batch e = true) evs)).

(** The penalty in the state a run ends in. *)
Definition penalty_after_events (m : nexthopTrackingManager) (evs : list nhtEvent)
  : option Z :=
  '(s, _) ← loop_run (loop_init m) evs; Some (loop_penalty s).

(** A path for 10.0.0.0/24 learnt from an eBGP peer, with the given nexthop. *)
Definition example_peer : PeerInfo :=
  {| AS := 65001; LocalAS := 65000; MultihopTtl := 0; Address := [192; 0; 2; 9] |}.

Definition example_path (nexthop : IP) : Path :=
  {| path_source := Some example_peer;
     path_nlri := NewIPAddrPrefix 24 "10.0.0.0";
     IsWithdraw := false;
     IsNexthopInvalid := false;
     path_isFromExternal := false;
     path_nexthop := nexthop;
     path_med := None;
     path_asPathLen := 0;
     path_asPath := None;
     path_communities := [] |}.

Definition batch1 : pathList := [Some (example_path [192; 0; 2; 1])].
Definition batch2 : pathList := [Some (example_path [192; 0; 2; 2])].

(** A static route 10.0.0.0/24 via 192.0.2.1 that zebra redistributes. *)
Definition example_route_body : IPRouteBody :=
  {| Type_ := 3;
     Flags := FLAG_none;
     SAFI := SAFI_UNICAST;
     Message_ := message_or MESSAGE_NEXTHOP MESSAGE_METRIC;
     Prefix := [10; 0; 0; 0];
     PrefixLength := 24;
     Nexthops := [[192; 0; 2; 1]];
     Ifindexs := [];
     Distance := 0;
     Metric := 10;
     Mtu := 0;
     Aux := [];
     PathId := 0;
     Api := IPV4_ROUTE_ADD |}.

Definition example_route_message : Message :=
  {| msg_Header := {| Command := IPV4_ROUTE_ADD; VrfId := 0 |};
     msg_Body := Body_IPRoute example_route_body |}.

(** The round trip of the specification: a route message is made a path
    by the ingress translator, and the path, alone in its batch, goes
    through the egress translator. *)
Definition round_trip (m : Message) : option (option IPRouteBody * bool) :=
  r ← createPathFromIPRouteMessage m;
  newIPRouteBody [r] false.

(** The default route of an eBGP peer whose nexthop is an IPv6 address. *)
Definition example_default_path : Path :=
  {| path_source := Some example_peer;
     path_nlri := NewIPAddrPrefix 0 "0.0.0.0";
     IsWithdraw := false;
     IsNexthopInvalid := false;
     path_isFromExternal := false;
     path_nexthop := ParseIP "2001:db8::1";
     path_med := None;
     path_asPathLen := 0;
     path_asPath := None;
     path_communities := [] |}.

(** * The vocabulary of the claims on the route translator *)

(** The conversion of a nexthop to the address width of a family: [To4]
    for the IPv4 families, [To16] for the others. *)
Definition family_conv (rf : RouteFamily) : IP -> IP :=
  if is_IPv4_family rf then To4 else To16.

(** The prefix length [newIPRouteBody] reads in the text of the NLRI of a
    path: the text after the first "/", read as an 8-bit number; [None]
    when the text has no "/". *)
Definition route_plen (path : Path) : option Z :=
  l1 ← SplitN (nlri_String (GetNlri path)) "/" 2 !! 1%nat;
  Some (ParseUint10 l1 8).1.

(** The dynamic type of the NLRI is one of the four prefix types. *)
Definition nlri_typed (n : AddrPrefix) : bool :=
  match nlri_type n with
  | OtherAddrPrefix _ => false
  | _ => true
  end.

(** * Example data for the nexthop updates *)

(** Two IPv4 unicast paths bound to the nexthop 192.0.2.1. *)
Definition example_bound_path (med : option Z) : Path :=
  {| path_source := Some example_peer;
     path_nlri := NewIPAddrPrefix 24 "10.0.0.0";
     IsWithdraw := false;
     IsNexthopInvalid := false;
     path_isFromExternal := false;
     path_nexthop := [192; 0; 2; 1];
     path_med := med;
     path_asPathLen := 0;
     path_asPath := None;
     path_communities := [] |}.

Definition example_tables : TableManager :=
  {| Tables := {[ RF_IPv4_UC := [example_bound_path None; example_bound_path (Some 5);
                                  example_path [192; 0; 2; 2]] ]} |}.

(** The nexthop 192.0.2.1 is lost, and found again with metric 20. *)
Definition example_nexthop_lost : NexthopUpdateBody :=
  {| nu_Family := AF_INET; nu_Prefix := [192; 0; 2; 1]; nu_Metric := 0; nu_Nexthops := [] |}.

Definition example_nexthop_found : NexthopUpdateBody :=
  {| nu_Family := AF_INET; nu_Prefix := [192; 0; 2; 1]; nu_Metric := 20;
     nu_Nexthops := [ {| nh_Type := 3; nh_Addr := [198; 51; 100; 1]; nh_Ifindex := 2 |} ] |}.

(** The error the bridge loop logs when
    [createPathListFromNexthopUpdateMessage] returns an error. *)
Definition is_create_failure (a : bridgeAction) : bool :=
  match a with
  | Errorf msg => String.prefix "failed to create updated path list" msg
  | _ => false
  end.

(** * Opening the bridge: vocabulary and example *)

(** "Parse the URL as scheme:address": the URL is a scheme, a colon and
    an address. *)
Definition parses_as_scheme_address (url : string) : Prop :=
  exists scheme address : string, url = scheme +:+ ":" +:+ address.

(** The loop of the bridge is not among the actions. *)
Definition loop_not_started (acts : list openAction) : Prop :=
  Forall (λ a, forall w, a <> Go_loop w) acts.

(** A zebra daemon that listens on a unix socket and knows the route
    types kernel, connect and static. *)
Definition example_zebra : ZebraPackage :=
  {| NewClient := λ network address typ version,
       if String.eqb network "unix"
       then inl {| cli_network := network; cli_address := address;
                   cli_version := version |}
       else inr ("dial " +:+ network +:+ ": unknown network");
     RouteTypeFromString := λ typ,
       if String.eqb typ "kernel" then inl 1
       else if String.eqb typ "connect" then inl 2
       else if String.eqb typ "static" then inl 3
       else inr ("unknown route type: " +:+ typ) |}.

(** * The delay policy in the words of the specification *)

(** [ceil_log2_ratio p q] is the ceiling of the binary logarithm of the
    ratio [p / q], for [0 < q < p]: the least [n] with [p <= q * 2 ^ n]
    (lemma [ceil_log2_ratio_spec]). *)
Definition ceil_log2_ratio (p q : Z) : Z := Z.log2_up ((p + q - 1) / q).

(** "[delay(penalty)] returns the manager's configured base delay when
    [penalty <= 950]; otherwise it returns 8 + 8 * ceil(log2(penalty/950))
    time units." *)
Definition spec_delay (base penalty : Z) : Z :=
  if penalty <=? 950 then base else 8 + 8 * ceil_log2_ratio penalty 950.

(** * Vocabulary of the further properties *)

(** The key under which [appendPathList] files a batch: the text of the
    nexthop of its first path. *)
Definition batch_key (paths : pathList) : option string :=
  match paths with
  | Some path :: _ => Some (IP_String (GetNexthop path))
  | _ => None
  end.

Definition is_AfterFunc (a : nhtAction) : bool :=
  match a with
  | AfterFunc _ => true
  | _ => false
  end.

Definition is_UpdatePath (a : nhtAction) : bool :=
  match a with
  | UpdatePath _ => true
  | _ => false
  end.

Definition is_trigger (e : nhtEvent) : bool :=
  match e with
  | Ev_trigger => true
  | _ => false
  end.

(** The number of elements of a list that pass a test. *)
Definition count_if {A : Type} (f : A -> bool) (l : list A) : nat :=
  length (filter (λ x, f x = true) l).

(** The address family [newNexthopRegisterBody] writes for a route
    family, and the entry it writes for a path. *)
Definition family_AF (rf : RouteFamily) : Z :=
  if is_IPv4_family rf then AF_INET else AF_INET6.

Definition registered_entry (rf : RouteFamily) (p : Path) : RegisteredNexthop :=
  {| rn_Family := family_AF rf; rn_Prefix := family_conv rf (GetNexthop p) |}.

(** The keys of the cache for the nexthops of a list of paths. *)
Definition nexthop_keys (paths : list Path) : gset string :=
  list_to_set ((λ p, IP_String (GetNexthop p)) <$> paths).

(** * Example data for the fields of a route message *)

(** An iBGP path to 10.0.0.0/24 with a MED, an AS path of one AS and the
    backup-region community; the serialized AS path attribute has three
    bytes of header. *)
Definition example_ibgp_path : Path :=
  {| path_source := Some {| AS := 65000; LocalAS := 65000; MultihopTtl := 0;
                            Address := [192; 0; 2; 9] |};
     path_nlri := NewIPAddrPrefix 24 "10.0.0.0";
     IsWithdraw := false;
     IsNexthopInvalid := false;
     path_isFromExternal := false;
     path_nexthop := [192; 0; 2; 1];
     path_med := Some 50;
     path_asPathLen := 1;
     path_asPath := Some [64; 2; 6; 2; 1; 0; 0; 253; 233];
     path_communities := [COMMUNITY_REGION_BACKUP] |}.

(** A path that has no source peer. *)
Definition example_sourceless_path : Path :=
  {| path_source := None;
     path_nlri := NewIPAddrPrefix 24 "10.0.0.0";
     IsWithdraw := false;
     IsNexthopInvalid := false;
     path_isFromExternal := false;
     path_nexthop := [192; 0; 2; 1];
     path_med := None;
     path_asPathLen := 0;
     path_asPath := None;
     path_communities := [] |}.

(** A path of the EVPN family (AFI 25, SAFI 70), whose NLRI is not one of
    the four prefix types. *)
Definition example_evpn_path : Path :=
  {| path_source := Some example_peer;
     path_nlri := {| nlri_type := OtherAddrPrefix (AfiSafiToRouteFamily 25 70);
                     nlri_Length := 0; nlri_Prefix := [];
                     nlri_String := "[type:multicast][rd:65000:1][etag:0]";
                     PathLocalIdentifier := 0 |};
     IsWithdraw := false;
     IsNexthopInvalid := false;
     path_isFromExternal := false;
     path_nexthop := [192; 0; 2; 1];
     path_med := None;
     path_asPathLen := 0;
     path_asPath := None;
     path_communities := [] |}.

(** A path whose NLRI prints without a "/". *)
Definition example_slashless_path : Path :=
  {| path_source := Some example_peer;
     path_nlri := {| nlri_type := IPAddrPrefix; nlri_Length := 24;
                     nlri_Prefix := [10; 0; 0; 0]; nlri_String := "10.0.0.0";
                     PathLocalIdentifier := 0 |};
     IsWithdraw := false;
     IsNexthopInvalid := false;
     path_isFromExternal := false;
     path_nexthop := [192; 0; 2; 1];
     path_med := None;
     path_asPathLen := 0;
     path_asPath := None;
     path_communities := [] |}.

(** * Vocabulary of the properties of nexthop updates *)

(** The paths a nexthop update is about: those of the view that are bound
    to the nexthop of the update. *)
Definition bound_paths (body : NexthopUpdateBody) (manager : TableManager) : list Path :=
  GetPathListWithNexthop manager (rfListFromNexthopUpdateBody body) (nu_Prefix body).

(** The body that takes the nexthop of an update out of the tracking of
    zebra. *)
Definition unregister_body (body : NexthopUpdateBody) : NexthopRegisterBody :=
  {| nr_Nexthops := [ {| rn_Family := nu_Family body; rn_Prefix := nu_Prefix body |} ] |}.

(** The view the bridge loop builds of the global RIB for an update, and
    the errors it logs on the way. *)
Definition update_view (server : BgpServer) (body : NexthopUpdateBody) : TableManager :=
  {| Tables := (build_tables server (rfListFromNexthopUpdateBody body) ∅).1 |}.

Definition update_logs (server : BgpServer) (body : NexthopUpdateBody)
  : list bridgeAction :=
  (build_tables server (rfListFromNexthopUpdateBody body) ∅).2.

(** An update for a nexthop nothing is bound to, of an address family
    that is neither IPv4 nor IPv6. *)
Definition example_nexthop_unknown : NexthopUpdateBody :=
  {| nu_Family := 7; nu_Prefix := [192; 0; 2; 1]; nu_Metric := 0; nu_Nexthops := [] |}.

(** * The texts of NLRIs *)

(** [NlriRD]: the first two colon-separated parts of the text, joined by a
    colon again, when there are at least two parts. *)
Definition NlriRD (str : string) : string :=
  let nlri := Split str ":" in
  match nlri with
  | n0 :: n1 :: _ => n0 +:+ ":" +:+ n1
  | _ => ""
  end.

(** A text without a colon. *)
Fixpoint no_colon (s : string) : bool :=
  match s with
  | EmptyString => true
  | String c rest => negb (Ascii.eqb c ":"%char) && no_colon rest
  end.

(** * The arm of the bridge loop for update events *)

Definition uint16 (z : Z) : Z := z mod 2 ^ 16.

(** Modelled from the spec: [table.Vrf] as the bridge reads it: the name,
    the identifier (a 32-bit unsigned number) and the text of the route
    distinguisher. *)
Record Vrf : Type := mkVrf {
  vrf_Name : string;
  vrf_Id : Z;
  vrf_Rd_String : string
}.

(** What the arm asks of the server and of package table: the VRFs
    [GetVrf] returns, taken to be the same at each call during one event,
    and [table.CanImportToVrf]. *)
Record VrfView : Type := mkVrfView {
  GetVrf : list Vrf;
  CanImportToVrf : Vrf -> Path -> bool
}.

Definition is_VPN_family (rf : RouteFamily) : bool :=
  bool_decide (rf = RF_IPv4_VPN) || bool_decide (rf = RF_IPv6_VPN).

(** [for _, vrf := range globalVrfs] in the construction of the map. *)
Definition import_loop (view : VrfView) (p : Path) (m : gmap string Z) : gmap string Z :=
  foldl (λ m vrf,
           if negb (vrf_Id vrf =? 0) && CanImportToVrf view vrf p
           then <[ nlri_String (GetNlri p) := uint16 (vrf_Id vrf) ]> m
           else m)
        m (GetVrf view).

(** The map [m] of the arm: the map of the event when it has one,
    otherwise the VRFs that can import the VPN paths of the event. *)
Definition update_vrf_map (view : VrfView) (vrf : option (gmap string Z))
    (paths : list Path) : gmap string Z :=
  match vrf with
  | Some m => m
  | None =>
      foldl (λ m p, if is_VPN_family (GetRouteFamily p) then import_loop view p m else m)
            ∅ paths
  end.

(** The VRFs a path is sent to: the one of the map, else those whose
    route distinguisher is at the head of the text of the NLRI, else 0. *)
Definition update_vrfs (view : VrfView) (m : gmap string Z) (path : Path) : list Z :=
  let vrfs := match m !! nlri_String (GetNlri path) with
              | Some v => [v]
              | None => []
              end in
  let vrfs :=
    if bool_decide (length vrfs = 0%nat)
    then vrfs ++ ((λ vrf, uint16 (vrf_Id vrf))
                    <$> filter (λ vrf, NlriRD (nlri_String (GetNlri path))
                                       = vrf_Rd_String vrf) (GetVrf view))
    else vrfs in
  if bool_decide (length vrfs = 0%nat) then vrfs ++ [0] else vrfs.

(** [for _, vrfId := range vrfs]: the route and the registration of the
    nexthop are built anew for each VRF. *)
Fixpoint update_send_loop (vrfs : list Z) (nhtManager : option nexthopTrackingManager)
    (path : Path) : option (option nexthopTrackingManager * list bridgeAction) :=
  match vrfs with
  | [] => Some (nhtManager, [])
  | vrfId :: rest =>
      '(body, isWithdraw) ← newIPRouteBody [Some path] false;
      let sent1 :=
        match body with
        | Some body => [SendIPRoute vrfId body isWithdraw]
        | None => []
        end in
      let '(body2, isWithdraw2, nhtManager') :=
        newNexthopRegisterBody [Some path] nhtManager in
      let sent2 :=
        match body2 with
        | Some body2 => [SendNexthopRegister vrfId body2 isWithdraw2]
        | None => []
        end in
      '(nhtManager'', acts) ← update_send_loop rest nhtManager' path;
      Some (nhtManager'', sent1 ++ sent2 ++ acts)
  end.

(** The body of the second [for _, path := range msg.PathList] of the arm
    for an update event; [m] is the map built before. The paths of the
    event are not nil. *)
Definition loop_Update_path (view : VrfView) (m : gmap string Z)
    (nhtManager : option nexthopTrackingManager) (path : Path)
  : option (option nexthopTrackingManager * list bridgeAction) :=
  if negb (String.eqb (NlriPrefix (nlri_String (GetNlri path))) "0.0.0.0/0")
  then Some (nhtManager, [])
  else
    local ← IsLocal path;
    if local : bool then Some (nhtManager, [])
    else update_send_loop (update_vrfs view m path) nhtManager path.

(** ** Vocabulary of the properties of the two arms *)

(** The text of the NLRI is that of the IPv4 default route, alone or after
    a route distinguisher. *)
Definition is_default_text (text : string) : Prop :=
  text = "0.0.0.0/0" \/ exists rd : string, text = rd +:+ ":0.0.0.0/0".

(** The messages for one VRF. *)
Definition route_acts (vrfId : Z) (r : option IPRouteBody * bool) : list bridgeAction :=
  match r.1 with
  | Some body => [SendIPRoute vrfId body r.2]
  | None => []
  end.

Definition register_acts (vrfId : Z) (r : option NexthopRegisterBody * bool)
  : list bridgeAction :=
  match r.1 with
  | Some body => [SendNexthopRegister vrfId body r.2]
  | None => []
  end.

(** A default route with a path identifier, in a VPN with the route
    distinguisher 65000:1. *)
Definition example_vpn_default_path : Path :=
  {| path_source := Some example_peer;
     path_nlri := {| nlri_type := LabeledVPNIPAddrPrefix; nlri_Length := 0;
                     nlri_Prefix := [0; 0; 0; 0];
                     nlri_String := "65000:1:0.0.0.0/0";
                     PathLocalIdentifier := 7 |};
     IsWithdraw := false;
     IsNexthopInvalid := false;
     path_isFromExternal := false;
     path_nexthop := [192; 0; 2; 1];
     path_med := None;
     path_asPathLen := 0;
     path_asPath := None;
     path_communities := [] |}.

(** Two VRFs with that route distinguisher, and one with another. *)
Definition example_view : VrfView :=
  {| GetVrf := [ {| vrf_Name := "red"; vrf_Id := 10; vrf_Rd_String := "65000:1" |};
                 {| vrf_Name := "blue"; vrf_Id := 20; vrf_Rd_String := "65000:2" |};
                 {| vrf_Name := "green"; vrf_Id := 30; vrf_Rd_String := "65000:1" |} ];
     CanImportToVrf := λ _ _, false |}.

(** The same VRFs, each importing the paths of its route distinguisher. *)
Definition example_import_view : VrfView :=
  {| GetVrf := GetVrf example_view;
     CanImportToVrf := λ vrf p,
       String.eqb (NlriRD (nlri_String (GetNlri p))) (vrf_Rd_String vrf) |}.


(** * The best-path arm with multipath, and the VRF commands *)

(** [for _, dst := range msg.MultiPathList]: the branch of the best-path
    arm taken when [table.UseMultiplePaths.Enabled] holds. *)
Fixpoint loop_BestPath_multipath (nhtManager : option nexthopTrackingManager)
    (dsts : list pathList) : option (option nexthopTrackingManager * list bridgeAction) :=
  match dsts with
  | [] => Some (nhtManager, [])
  | dst :: rest =>
      '(body, isWithdraw) ← newIPRouteBody dst false;
      let sent1 :=
        match body with
        | Some body => [SendIPRoute 0 body isWithdraw]
        | None => []
        end in
      let '(body2, isWithdraw2, nhtManager') := newNexthopRegisterBody dst nhtManager in
      let sent2 :=
        match body2 with
        | Some body2 => [SendNexthopRegister 0 body2 isWithdraw2]
        | None => []
        end in
      '(nhtManager'', acts) ← loop_BestPath_multipath nhtManager' rest;
      Some (nhtManager'', sent1 ++ sent2 ++ acts)
  end.

(** The message goes to VRF 0 and, for a registration, is not a
    withdrawal. *)
Definition is_plain_vrf0 (a : bridgeAction) : Prop :=
  match a with
  | SendIPRoute vrfId _ _ => vrfId = 0
  | SendNexthopRegister vrfId _ isWithdraw => vrfId = 0 /\ isWithdraw = false
  | _ => False
  end.

(** [binary.BigEndian.PutUint32] on a buffer of four bytes, and
    [binary.BigEndian.Uint32], which reads it back. *)
Definition PutUint32 (v : Z) : list Z :=
  [Z.shiftr v 24 mod 256; Z.shiftr v 16 mod 256; Z.shiftr v 8 mod 256; v mod 256].

Definition Uint32 (b : list Z) : option Z :=
  match b with
  | b0 :: b1 :: b2 :: b3 :: _ =>
      Some (Z.lor (Z.lor (Z.lor b3 (Z.shiftl b2 8)) (Z.shiftl b1 16)) (Z.shiftl b0 24))
  | _ => None
  end.

(** The commands of the two functions, and what [SendCommand] is given:
    the command, the VRF of the header and the bytes of the body. *)
Inductive vrfCommand : Type :=
  | VRF_REGISTER
  | VRF_UNREGISTER.

Record sentCommand : Type := mkSentCommand {
  sc_command : vrfCommand;
  sc_vrfId : Z;
  sc_Data : list Z
}.

Definition SendVrfRegister (vrfId : Z) : sentCommand :=
  let buf := PutUint32 vrfId in
  {| sc_command := VRF_REGISTER; sc_vrfId := VRF_DEFAULT; sc_Data := buf |}.

Definition SendVrfUnregister (vrfId : Z) : sentCommand :=
  let buf := PutUint32 vrfId in
  {| sc_command := VRF_UNREGISTER; sc_vrfId := VRF_DEFAULT; sc_Data := buf |}.

(** * Properties *)

(** ** Integers *)

Lemma to_int_id (z : Z) : in_int z -> to_int z = z.
Proof.
  unfold in_int, int_min, int_max, to_int. intros H.
  rewrite Z.mod_small; lia.
Qed.

Lemma to_int_in_int (z : Z) : in_int (to_int z).
Proof.
  unfold in_int, int_min, int_max, to_int.
  pose proof (Z.mod_pos_bound (z + 2 ^ 63) (2 ^ 64)). lia.
Qed.

Lemma int_add_exact (a b : Z) : in_int (a + b) -> int_add a b = a + b.
Proof. apply to_int_id. Qed.

(** ** The delay policy *)

Lemma calculateDelay_loop_stop (d p : Z) : p <= 950 -> calculateDelay_loop d p = d.
Proof.
  intros H. simp calculateDelay_loop.
  destruct (Z_lt_dec 950 p); [lia | reflexivity].
Qed.

Lemma calculateDelay_loop_next (d p : Z) :
  950 < p -> calculateDelay_loop d p = calculateDelay_loop (int_add d 8) (int_quot p 2).
Proof.
  intros H. rewrite calculateDelay_loop_equation_1.
  destruct (Z_lt_dec 950 p); [reflexivity | lia].
Qed.

(** [n + 1] halvings bring a penalty of [951 * 2 ^ n <= p < 951 * 2 ^ (n + 1)]
    to 950 or less, and the delay grows by 8 at each of them. *)
Lemma calculateDelay_loop_count (n : nat) :
  forall d p : Z,
    951 * 2 ^ Z.of_nat n <= p < 951 * 2 ^ (Z.of_nat n + 1) ->
    in_int d -> in_int (d + 8 * (Z.of_nat n + 1)) ->
    calculateDelay_loop d p = d + 8 * (Z.of_nat n + 1).
Proof.
  induction n as [|n IH]; intros d p Hp Hd Hd'.
  - change (2 ^ Z.of_nat 0) with 1 in Hp. change (2 ^ (Z.of_nat 0 + 1)) with 2 in Hp.
    rewrite calculateDelay_loop_next by lia.
    rewrite calculateDelay_loop_stop.
    + rewrite int_add_exact; [lia | unfold in_int in *; lia].
    + unfold int_quot. rewrite Z.quot_div_nonneg by lia.
      apply Z.lt_succ_r, Z.div_lt_upper_bound; lia.
  - assert (E1 : 2 ^ Z.of_nat (S n) = 2 * 2 ^ Z.of_nat n)
      by (rewrite Nat2Z.inj_succ, Z.pow_succ_r; lia).
    assert (E2 : 2 ^ (Z.of_nat (S n) + 1) = 2 * 2 ^ (Z.of_nat n + 1))
      by (rewrite Nat2Z.inj_succ, <- Z.add_1_r, (Z.pow_add_r 2 (Z.of_nat n + 1) 1); lia).
    rewrite E1, E2 in Hp.
    assert (0 < 2 ^ Z.of_nat n) by (apply Z.pow_pos_nonneg; lia).
    rewrite calculateDelay_loop_next by lia.
    assert (Ha : int_add d 8 = d + 8)
      by (apply int_add_exact; unfold in_int in *; lia).
    rewrite Ha, IH.
    + lia.
    + unfold int_quot. rewrite Z.quot_div_nonneg by lia. split.
      * apply Z.div_le_lower_bound; lia.
      * apply Z.div_lt_upper_bound; lia.
    + unfold in_int in *; lia.
    + unfold in_int in *; lia.
Qed.

(** The defining property of the ceiling of [log2 (p / q)]. *)
Lemma ceil_log2_ratio_spec (p q : Z) :
  0 < q < p ->
  0 < ceil_log2_ratio p q
  /\ q * 2 ^ (ceil_log2_ratio p q - 1) < p <= q * 2 ^ ceil_log2_ratio p q.
Proof.
  intros Hpq. unfold ceil_log2_ratio.
  set (c := (p + q - 1) / q).
  assert (Hc : 1 < c).
  { assert (2 <= c) by (unfold c; apply Z.div_le_lower_bound; lia). lia. }
  pose proof (Z.log2_up_spec c Hc) as [Hlo Hhi].
  pose proof (Z.log2_up_pos c Hc) as Hpos.
  rewrite <- Z.sub_1_r in Hlo.
  assert (Hmul : q * c <= p + q - 1) by (unfold c; apply Z.mul_div_le; lia).
  assert (Hmod : p + q - 1 < q * (c + 1)).
  { unfold c. pose proof (Z.div_mod (p + q - 1) q ltac:(lia)).
    pose proof (Z.mod_pos_bound (p + q - 1) q ltac:(lia)). lia. }
  split; [exact Hpos | split]; nia.
Qed.

(** ** The penalty and the delay: examples *)

Example calculateDelay_at_951 : calculateDelay (newNexthopTrackingManager 1) 951 = 16.
Proof. reflexivity. Qed.

Example calculateDelay_at_1900 : calculateDelay (newNexthopTrackingManager 1) 1900 = 16.
Proof. reflexivity. Qed.

Example calculateDelay_at_1902 : calculateDelay (newNexthopTrackingManager 1) 1902 = 24.
Proof. reflexivity. Qed.

(** C2, as the specification states it, fails: a penalty of 1901 is halved
    once, to 950, and the delay is 16, where the closed form of the
    specification gives 8 + 8 * ceil(log2(1901/950)) = 24. *)
Lemma calculateDelay_not_spec_delay :
  calculateDelay (newNexthopTrackingManager 1) 1901 = 16
  /\ spec_delay 1 1901 = 24.
Proof. split; reflexivity. Qed.

(** The loop in closed form: it halves a penalty above 950
    [Z.log2 (penalty / 951) + 1] times. *)
Lemma calculateDelay_loop_log2 (penalty : Z) :
  950 < penalty <= int_max ->
  calculateDelay_loop 8 penalty = 8 + 8 * (Z.log2 (penalty / 951) + 1).
Proof.
  intros [Hgt Hmax].
  assert (Hq : 0 < penalty / 951) by (apply Z.div_str_pos; lia).
  pose proof (Z.log2_spec _ Hq) as [Hlo Hhi].
  pose proof (Z.log2_nonneg (penalty / 951)) as Hn.
  set (n := Z.log2 (penalty / 951)) in *.
  rewrite <- Z.add_1_r in Hhi.
  assert (Hn63 : n < 63).
  { apply (Z.pow_lt_mono_r_iff 2); [lia | lia |].
    apply Z.le_lt_trans with (penalty / 951); [exact Hlo |].
    apply Z.div_lt_upper_bound; unfold int_max in Hmax; lia. }
  pose proof (Z.mul_div_le penalty 951 ltac:(lia)) as Hmul.
  pose proof (Z.div_mod penalty 951 ltac:(lia)) as Hdm.
  pose proof (Z.mod_pos_bound penalty 951 ltac:(lia)) as Hmb.
  replace n with (Z.of_nat (Z.to_nat n)) by lia.
  rewrite (calculateDelay_loop_count (Z.to_nat n)).
  - reflexivity.
  - rewrite Z2Nat.id by lia. split; nia.
  - unfold in_int, int_min, int_max; lia.
  - unfold in_int, int_min, int_max; rewrite Z2Nat.id by lia; lia.
Qed.

(** C2 (amended): [calculateDelay] returns the base delay of the manager
    for a penalty of at most 950, and beyond it 8 + 8 * n where n is the
    number of integer halvings that bring the penalty to 950 or less, that
    is n = floor(log2(floor(penalty / 951))) + 1. *)
Theorem calculateDelay_halvings (m : nexthopTrackingManager) (penalty : Z) :
  penalty <= int_max ->
  calculateDelay m penalty =
    if penalty <=? 950 then delay m else 8 + 8 * (Z.log2 (penalty / 951) + 1).
Proof.
  intros Hmax. unfold calculateDelay.
  destruct (Z.leb_spec penalty 950) as [Hle | Hgt].
  - reflexivity.
  - apply calculateDelay_loop_log2. split; [exact Hgt | exact Hmax].
Qed.

Lemma calculateDelay_halvings_witness :
  1901 <= int_max /\ calculateDelay (newNexthopTrackingManager 1) 1901 = 16.
Proof.
  split; [unfold int_max; lia |].
  rewrite (calculateDelay_halvings (newNexthopTrackingManager 1) 1901); [reflexivity |].
  unfold int_max; lia.
Defined.

(** ** The loop of the manager *)

Lemma loop_run_app (s : nhtLoop) (l1 l2 : list nhtEvent) :
  loop_run s (l1 ++ l2) =
    '(s1, a1) ← loop_run s l1; '(s2, a2) ← loop_run s1 l2; Some (s2, a1 ++ a2).
Proof.
  revert s. induction l1 as [|e l1 IH]; intros s; simpl.
  - destruct (loop_run s l2) as [[s2 a2]|]; reflexivity.
  - destruct (loop_step s e) as [[s' a]|]; simpl; [|reflexivity].
    rewrite IH. destruct (loop_run s' l1) as [[s1 a1]|]; simpl; [|reflexivity].
    destruct (loop_run s1 l2) as [[s2 a2]|]; simpl; [|reflexivity].
    rewrite app_assoc. reflexivity.
Qed.

Lemma appendPathList_delay (m m' : nexthopTrackingManager) (paths : pathList) :
  appendPathList m paths = Some m' -> delay m' = delay m.
Proof.
  unfold appendPathList. destruct paths as [|[p|] rest]; simpl; intros H;
    inversion H; reflexivity.
Qed.

(** A round of the loop on a batch: the penalty grows by 500, with
    wrap-around, and the base delay and the running flag stay. *)
Lemma loop_step_batch (s s' : nhtLoop) (paths : pathList) (acts : list nhtAction) :
  loop_running s = true ->
  loop_step s (Ev_pathList paths) = Some (s', acts) ->
  loop_penalty s' = int_add (loop_penalty s) 500
  /\ delay (loop_m s') = delay (loop_m s)
  /\ loop_running s' = true.
Proof.
  intros Hrun. unfold loop_step. rewrite Hrun. simpl.
  destruct (appendPathList (loop_m s) paths) as [m|] eqn:Ha; simpl; [|discriminate].
  apply appendPathList_delay in Ha.
  destruct (isScheduled m); intros H; inversion H; subst; simpl; auto.
Qed.

(** A batch whose first pointer is not nil never makes the loop panic. *)
Lemma loop_step_batch_total (s : nhtLoop) (p : Path) (rest : pathList) :
  exists s' acts, loop_step s (Ev_pathList (Some p :: rest)) = Some (s', acts).
Proof.
  unfold loop_step. destruct (loop_running s); simpl; [|eauto].
  match goal with |- context [isScheduled ?m] => destruct (isScheduled m) end; eauto.
Qed.

(** Batches alone: as long as the sum fits an int, [n] batches add [500 * n]. *)
Lemma loop_run_batches (bs : list pathList) :
  forall (s0 s : nhtLoop) (acts : list nhtAction),
    loop_running s0 = true ->
    loop_run s0 (Ev_pathList <$> bs) = Some (s, acts) ->
    0 <= loop_penalty s0 ->
    loop_penalty s0 + 500 * Z.of_nat (length bs) <= int_max ->
    loop_penalty s = loop_penalty s0 + 500 * Z.of_nat (length bs)
    /\ delay (loop_m s) = delay (loop_m s0)
    /\ loop_running s = true.
Proof.
  induction bs as [|b bs IH]; intros s0 s acts Hrun Hr H0 Hmax.
  - simpl in Hr. inversion Hr; subst. simpl. repeat split; auto; lia.
  - rewrite fmap_cons in Hr. cbn [loop_run] in Hr.
    destruct (loop_step s0 (Ev_pathList b)) as [[s1 a1]|] eqn:Hs; simpl in Hr;
      [|discriminate].
    destruct (loop_run s1 (Ev_pathList <$> bs)) as [[s2 a2]|] eqn:Hr2; simpl in Hr;
      [|discriminate].
    inversion Hr; subst; clear Hr.
    destruct (loop_step_batch _ _ _ _ Hrun Hs) as (Hp & Hd & Hrun1).
    rewrite length_cons, Nat2Z.inj_succ in Hmax |- *.
    rewrite int_add_exact in Hp
      by (unfold in_int, int_min, int_max in *; lia).
    destruct (IH _ _ _ Hrun1 Hr2) as (Hp2 & Hd2 & Hrun2); try lia.
    repeat split; [lia | congruence | assumption].
Qed.

Lemma loop_run_replicate_batch (p : Path) (rest : pathList) (n : nat) :
  forall s0 : nhtLoop,
    loop_running s0 = true ->
    0 <= loop_penalty s0 ->
    loop_penalty s0 + 500 * Z.of_nat n <= int_max ->
    exists s acts,
      loop_run s0 (replicate n (Ev_pathList (Some p :: rest))) = Some (s, acts)
      /\ loop_penalty s = loop_penalty s0 + 500 * Z.of_nat n
      /\ loop_running s = true.
Proof.
  induction n as [|n IH]; intros s0 Hrun H0 Hmax.
  - exists s0, []. simpl. repeat split; auto; lia.
  - destruct (loop_step_batch_total s0 p rest) as (s1 & a1 & Hs).
    destruct (loop_step_batch _ _ _ _ Hrun Hs) as (Hp & _ & Hrun1).
    rewrite Nat2Z.inj_succ in Hmax.
    rewrite int_add_exact in Hp by (unfold in_int, int_min, int_max in *; lia).
    destruct (IH s1 Hrun1) as (s & acts & Hr & Hp2 & Hrun2); try lia.
    exists s, (a1 ++ acts). cbn [replicate loop_run]. rewrite Hs. simpl.
    rewrite Hr. simpl. repeat split; auto. lia.
Qed.

Lemma count_batches_cons (e : nhtEvent) (evs : list nhtEvent) :
  count_batches (e :: evs) = (if is_batch e then 1 else 0) + count_batches evs.
Proof.
  unfold count_batches. rewrite filter_cons.
  destruct (decide (is_batch e = true)) as [E | E].
  - rewrite E, length_cons. lia.
  - destruct (is_batch e); [congruence | lia].
Qed.

Lemma count_batches_nonneg (evs : list nhtEvent) : 0 <= count_batches evs.
Proof. unfold count_batches. lia. Qed.

(** A round of the loop keeps the penalty between 0 and what it was, plus
    500 on a batch, as long as the addition does not overflow. *)
Lemma loop_step_penalty (s s' : nhtLoop) (e : nhtEvent) (acts : list nhtAction) :
  loop_step s e = Some (s', acts) ->
  0 <= loop_penalty s ->
  loop_penalty s + 500 * (if is_batch e then 1 else 0) <= int_max ->
  0 <= loop_penalty s' <= loop_penalty s + 500 * (if is_batch e then 1 else 0).
Proof.
  unfold loop_step. destruct (loop_running s); simpl.
  - destruct e as [| |paths|]; simpl.
    + intros H; inversion H; subst; simpl; lia.
    + intros H H0 _; inversion H; subst; simpl. unfold int_quot.
      rewrite Z.quot_div_nonneg by lia.
      pose proof (Z.div_pos (loop_penalty s) 2 H0 ltac:(lia)).
      pose proof (Z.div_le_upper_bound (loop_penalty s) 2 (loop_penalty s)
                    ltac:(lia) ltac:(lia)).
      lia.
    + destruct (appendPathList (loop_m s) paths) as [m|]; simpl; [|discriminate].
      intros H H0 Hmax.
      assert (Hp : loop_penalty s' = int_add (loop_penalty s) 500)
        by (destruct (isScheduled m); inversion H; subst; reflexivity).
      rewrite Hp, int_add_exact by (unfold in_int, int_min, int_max in *; lia).
      lia.
    + intros H; inversion H; subst; simpl; lia.
  - intros H; inversion H; subst; destruct (is_batch e); lia.
Qed.

Lemma loop_run_penalty (evs : list nhtEvent) :
  forall (s0 s : nhtLoop) (acts : list nhtAction),
    loop_run s0 evs = Some (s, acts) ->
    0 <= loop_penalty s0 ->
    loop_penalty s0 + 500 * count_batches evs <= int_max ->
    0 <= loop_penalty s <= loop_penalty s0 + 500 * count_batches evs.
Proof.
  induction evs as [|e evs IH]; intros s0 s acts Hr H0 Hmax.
  - simpl in Hr. inversion Hr; subst. unfold count_batches; simpl. lia.
  - cbn [loop_run] in Hr.
    destruct (loop_step s0 e) as [[s1 a1]|] eqn:Hs; simpl in Hr; [|discriminate].
    destruct (loop_run s1 evs) as [[s2 a2]|] eqn:Hr2; simpl in Hr; [|discriminate].
    inversion Hr; subst; clear Hr.
    rewrite count_batches_cons in Hmax |- *.
    pose proof (count_batches_nonneg evs).
    pose proof (loop_step_penalty _ _ _ _ Hs H0 ltac:(destruct (is_batch e); lia)).
    pose proof (IH _ _ _ Hr2 ltac:(lia) ltac:(lia)).
    lia.
Qed.

(** C7, as the specification states it, fails: the counter is a 64-bit
    [int], and the batch that takes the sum past 2^63 - 1 wraps it around.
    With no tick in between, batch number 18446744073709552 leaves the
    penalty at -9223372036854775616. *)
Lemma penalty_wraps_negative :
  penalty_after_events (newNexthopTrackingManager 1)
    (replicate (Z.to_nat 18446744073709552) (Ev_pathList batch1))
  = Some (-9223372036854775616).
Proof.
  replace (Z.to_nat 18446744073709552) with (Z.to_nat 18446744073709551 + 1)%nat by lia.
  rewrite replicate_add.
  change (replicate 1 (Ev_pathList batch1)) with [Ev_pathList batch1].
  unfold penalty_after_events. rewrite loop_run_app.
  destruct (loop_run_replicate_batch (example_path [192; 0; 2; 1]) []
              (Z.to_nat 18446744073709551)
              (loop_init (newNexthopTrackingManager 1)))
    as (s & acts & Hr & Hp & Hrun).
  { reflexivity. }
  { simpl. lia. }
  { rewrite Z2Nat.id by lia. unfold int_max. simpl. lia. }
  fold batch1 in Hr. rewrite Hr. clear Hr.
  rewrite Z2Nat.id in Hp by lia.
  destruct (loop_step_batch_total s (example_path [192; 0; 2; 1]) [])
    as (s' & a & Hs).
  destruct (loop_step_batch _ _ _ _ Hrun Hs) as (Hp' & _ & _).
  fold batch1 in Hs. cbn [mbind option_bind loop_run]. rewrite Hs. simpl.
  rewrite Hp', Hp. reflexivity.
Qed.

(** C7 (amended): the penalty starts at 0 and stays between 0 and 500
    times the number of batches received, in every state the loop reaches
    by a sequence of events whose batches, at 500 each, do not overflow
    the 64-bit counter (at most 18446744073709551 of them). *)
Theorem penalty_nonneg (m : nexthopTrackingManager) (evs : list nhtEvent)
    (s : nhtLoop) (acts : list nhtAction) :
  loop_run (loop_init m) evs = Some (s, acts) ->
  500 * count_batches evs <= int_max ->
  loop_penalty (loop_init m) = 0
  /\ 0 <= loop_penalty s <= 500 * count_batches evs.
Proof.
  intros Hr Hmax. split; [reflexivity |].
  apply (loop_run_penalty evs (loop_init m) s acts Hr); simpl; lia.
Qed.

Lemma penalty_nonneg_witness :
  exists s acts,
    loop_run (loop_init (newNexthopTrackingManager 1))
      [Ev_pathList batch1; Ev_tick; Ev_pathList batch2; Ev_trigger; Ev_tick]
    = Some (s, acts)
    /\ 500 * count_batches
               [Ev_pathList batch1; Ev_tick; Ev_pathList batch2; Ev_trigger; Ev_tick]
       <= int_max
    /\ loop_penalty s = 375
    /\ loop_penalty (loop_init (newNexthopTrackingManager 1)) = 0
    /\ 0 <= loop_penalty s
         <= 500 * count_batches
                    [Ev_pathList batch1; Ev_tick; Ev_pathList batch2; Ev_trigger; Ev_tick].
Proof.
  eexists. eexists. split; [reflexivity |].
  assert (Hmax : 500 * count_batches
                         [Ev_pathList batch1; Ev_tick; Ev_pathList batch2; Ev_trigger;
                          Ev_tick] <= int_max)
    by (unfold int_max; vm_compute; discriminate).
  split; [exact Hmax |]. split; [reflexivity |].
  exact (penalty_nonneg (newNexthopTrackingManager 1)
           [Ev_pathList batch1; Ev_tick; Ev_pathList batch2; Ev_trigger; Ev_tick]
           _ _ eq_refl Hmax).
Defined.

(** ** Damping *)

(** With a base delay of at most 16, the delay does not decrease when the
    penalty grows. *)
Lemma calculateDelay_mono (m : nexthopTrackingManager) (p p' : Z) :
  delay m <= 16 -> p <= p' -> p' <= int_max ->
  calculateDelay m p <= calculateDelay m p'.
Proof.
  intros Hbase Hle Hmax. unfold calculateDelay.
  destruct (Z.leb_spec p 950), (Z.leb_spec p' 950); try lia;
    rewrite ?calculateDelay_loop_log2 by lia.
  - pose proof (Z.log2_nonneg (p' / 951)). lia.
  - assert (p / 951 <= p' / 951) by (apply Z.div_le_mono; lia).
    pose proof (Z.log2_le_mono _ _ H1). lia.
Qed.

(** C5, as the specification states it, fails: with a base delay of 20 the
    first batch (penalty 500) is scheduled after 20 seconds and the second
    (penalty 1000) after 16. *)
Lemma delay_decreases_with_base_20 :
  delay_after (newNexthopTrackingManager 20) [batch1] = Some 20
  /\ delay_after (newNexthopTrackingManager 20) [batch1; batch2] = Some 16.
Proof. split; reflexivity. Qed.

(** C5 (amended): for a base delay of at most 16 seconds, and as long as
    the accumulated penalty fits the 64-bit counter, the delay computed for
    the penalty accumulated by k batches, with no tick in between, does
    not decrease when k grows. *)
Theorem delay_after_monotone (m : nexthopTrackingManager) (bs bs' : list pathList)
    (d d' : Z) :
  delay m <= 16 ->
  500 * Z.of_nat (length (bs ++ bs')) <= int_max ->
  delay_after m bs = Some d ->
  delay_after m (bs ++ bs') = Some d' ->
  d <= d'.
Proof.
  intros Hbase Hmax Hd Hd'. unfold delay_after, after_batches in Hd, Hd'.
  rewrite length_app, Nat2Z.inj_add in Hmax.
  destruct (loop_run (loop_init m) (Ev_pathList <$> bs)) as [[s a]|] eqn:Hr;
    simpl in Hd; [|discriminate].
  destruct (loop_run (loop_init m) (Ev_pathList <$> bs ++ bs')) as [[s' a']|] eqn:Hr';
    simpl in Hd'; [|discriminate].
  inversion Hd; subst; clear Hd. inversion Hd'; subst; clear Hd'.
  destruct (loop_run_batches bs (loop_init m) _ _ eq_refl Hr) as (Hp & Hdl & _);
    [simpl; lia | simpl; lia |].
  destruct (loop_run_batches (bs ++ bs') (loop_init m) _ _ eq_refl Hr') as (Hp' & Hdl' & _);
    [simpl; lia | simpl; rewrite length_app, Nat2Z.inj_add; lia |].
  rewrite length_app, Nat2Z.inj_add in Hp'. simpl in Hp, Hp', Hdl, Hdl'.
  assert (Hm : calculateDelay (loop_m s') (loop_penalty s')
               = calculateDelay (loop_m s) (loop_penalty s')).
  { unfold calculateDelay. rewrite Hdl, Hdl'. reflexivity. }
  rewrite Hm. apply calculateDelay_mono; lia.
Qed.

Lemma delay_after_monotone_witness :
  delay (newNexthopTrackingManager 1) <= 16
  /\ 500 * Z.of_nat (length ([batch1] ++ [batch2; batch1])) <= int_max
  /\ delay_after (newNexthopTrackingManager 1) [batch1] = Some 1
  /\ delay_after (newNexthopTrackingManager 1) ([batch1] ++ [batch2; batch1]) = Some 16
  /\ 1 <= 16.
Proof.
  assert (H1 : delay (newNexthopTrackingManager 1) <= 16) by (simpl; lia).
  assert (H2 : 500 * Z.of_nat (length ([batch1] ++ [batch2; batch1])) <= int_max)
    by (unfold int_max; simpl; lia).
  split; [exact H1 |]. split; [exact H2 |].
  split; [reflexivity |]. split; [reflexivity |].
  exact (delay_after_monotone (newNexthopTrackingManager 1) [batch1] [batch2; batch1]
           1 16 H1 H2 eq_refl eq_refl).
Defined.

(** ** The nexthop register body *)

Lemma filterPathToRegister_Forall (m : nexthopTrackingManager) (dst : pathList) :
  Forall (λ p, IsWithdraw p = false /\ IsNexthopInvalid p = false
               /\ IsFromExternal p = false)
    (filterPathToRegister m dst).
Proof.
  induction dst as [|[p|] dst IH]; simpl; auto.
  destruct (IsFromExternal p) eqn:E1; auto.
  destruct (IsWithdraw p) eqn:E2; simpl; auto.
  destruct (IsNexthopInvalid p) eqn:E3; simpl; auto.
  destruct (isRegisteredNexthop m (GetNexthop p) || IsUnspecified (GetNexthop p)); auto.
Qed.

Lemma filterPathToRegister_withdrawn (m : nexthopTrackingManager) (dst : pathList) :
  (forall p, Some p ∈ dst -> IsWithdraw p = true) ->
  filterPathToRegister m dst = [].
Proof.
  induction dst as [|[p|] dst IH]; simpl; intros H; auto.
  - rewrite (H p) by (left). rewrite IH by (intros q Hq; apply H; right; exact Hq).
    destruct (IsFromExternal p); reflexivity.
  - apply IH. intros q Hq. apply H. right. exact Hq.
Qed.

(** C4, as the specification states it, fails: a batch whose only path is
    marked withdraw, given to the builder with an enabled manager, yields
    no body together with is-withdraw = false. *)
Lemma newNexthopRegisterBody_withdraw_batch :
  newNexthopRegisterBody [Some (Clone true (example_path [192; 0; 2; 1]))]
    (Some (newNexthopTrackingManager 1))
  = (None, false, Some (newNexthopTrackingManager 1)).
Proof. reflexivity. Qed.

(** C4 (amended): the builder never yields is-withdraw = true. A path
    marked withdraw is filtered out before the representative is chosen, so
    that a batch all of whose paths are marked withdraw yields no body,
    with is-withdraw = false, and leaves the cache as it is. *)
Theorem newNexthopRegisterBody_never_withdraw (dst : pathList)
    (nhtManager : option nexthopTrackingManager) :
  (newNexthopRegisterBody dst nhtManager).1.2 = false
  /\ ((forall p, Some p ∈ dst -> IsWithdraw p = true) ->
      newNexthopRegisterBody dst nhtManager = (None, false, nhtManager)).
Proof.
  unfold newNexthopRegisterBody. destruct nhtManager as [m|]; [|auto].
  split.
  - pose proof (filterPathToRegister_Forall m dst) as HF.
    destruct (filterPathToRegister m dst) as [|path paths]; [reflexivity |].
    apply Forall_cons in HF as [(Hw & _) _]. rewrite Hw.
    destruct (register_loop (GetRouteFamily path) m (path :: paths) []) as [nexthops m'].
    destruct (bool_decide (length nexthops = 0%nat)); reflexivity.
  - intros H. rewrite filterPathToRegister_withdrawn by exact H. reflexivity.
Qed.

Lemma newNexthopRegisterBody_never_withdraw_witness :
  (forall p, Some p ∈ [Some (Clone true (example_path [192; 0; 2; 1]))] ->
             IsWithdraw p = true)
  /\ newNexthopRegisterBody [Some (Clone true (example_path [192; 0; 2; 1]))]
       (Some (newNexthopTrackingManager 1))
     = (None, false, Some (newNexthopTrackingManager 1)).
Proof.
  assert (H : forall p, Some p ∈ [Some (Clone true (example_path [192; 0; 2; 1]))] ->
                        IsWithdraw p = true).
  { intros p Hp. apply list_elem_of_singleton in Hp. inversion Hp; subst. reflexivity. }
  split; [exact H |].
  exact (proj2 (newNexthopRegisterBody_never_withdraw
                  [Some (Clone true (example_path [192; 0; 2; 1]))]
                  (Some (newNexthopTrackingManager 1))) H).
Defined.

(** A batch with a path that can be registered does yield a body, with
    is-withdraw = false, and the nexthop enters the cache. *)
Example newNexthopRegisterBody_registers :
  newNexthopRegisterBody batch1 (Some (newNexthopTrackingManager 1))
  = (Some {| nr_Nexthops := [ {| rn_Family := AF_INET; rn_Prefix := [192; 0; 2; 1] |} ] |},
     false,
     Some (set_nexthopCache {[ "192.0.2.1" ]} (newNexthopTrackingManager 1))).
Proof. vm_compute. reflexivity. Qed.

(** ** The route translators *)

Lemma filterOutExternalPath_Forall (dst : pathList) :
  Forall (λ p, IsFromExternal p = false) (filterOutExternalPath dst).
Proof.
  induction dst as [|[p|] dst IH]; simpl; auto.
  destruct (IsFromExternal p) eqn:E; auto.
Qed.

(** C1, as the specification states it, fails: the path the ingress
    translator makes of a route message is marked as coming from zebra,
    and the egress translator filters such paths out: the round trip of
    the route 10.0.0.0/24 via 192.0.2.1 yields no message at all. *)
Lemma round_trip_yields_no_message :
  round_trip example_route_message = Some (None, false).
Proof. reflexivity. Qed.

(** C1 (amended): for every route message of the IPv4 or IPv6 unicast
    family, the ingress translator returns a path that is marked
    from-external and whose is-withdraw mirrors the message; the egress
    translator, given the batch of that path alone, returns no message
    (and is-withdraw = false), whatever self-route-withdraw is. *)
Theorem round_trip_filtered (m : Message) (body : IPRouteBody) :
  msg_Body m = Body_IPRoute body ->
  IPRouteBody_RouteFamily body = RF_IPv4_UC \/ IPRouteBody_RouteFamily body = RF_IPv6_UC ->
  exists p,
    createPathFromIPRouteMessage m = Some (Some p)
    /\ IsFromExternal p = true
    /\ IsWithdraw p = IPRouteBody_IsWithdraw body
    /\ (forall selfRouteWithdraw, newIPRouteBody [Some p] selfRouteWithdraw = Some (None, false))
    /\ round_trip m = Some (None, false).
Proof.
  intros Hb Hf. unfold round_trip, createPathFromIPRouteMessage. rewrite Hb. simpl.
  destruct Hf as [Hf | Hf]; rewrite Hf; simpl; eexists; repeat split.
Qed.

Lemma round_trip_filtered_witness :
  exists p,
    createPathFromIPRouteMessage example_route_message = Some (Some p)
    /\ IsFromExternal p = true
    /\ IsWithdraw p = IPRouteBody_IsWithdraw example_route_body
    /\ (forall selfRouteWithdraw, newIPRouteBody [Some p] selfRouteWithdraw = Some (None, false))
    /\ round_trip example_route_message = Some (None, false).
Proof.
  exact (round_trip_filtered example_route_message example_route_body eq_refl
           (or_introl eq_refl)).
Defined.

(** What the ingress translator makes of the example: the prefix, the
    length and the nexthop of the message are those of the path. *)
Example createPathFromIPRouteMessage_example :
  exists p,
    createPathFromIPRouteMessage example_route_message = Some (Some p)
    /\ nlri_Prefix (GetNlri p) = [10; 0; 0; 0]
    /\ nlri_Length (GetNlri p) = 24
    /\ nlri_String (GetNlri p) = "10.0.0.0/24"
    /\ GetNexthop p = [192; 0; 2; 1]
    /\ GetMed p = (10, false)
    /\ GetSource p = None.
Proof. eexists. repeat split. Qed.

Lemma loopback4_bytes : loopback4 = [127; 0; 0; 1].
Proof. reflexivity. Qed.

Lemma loopback6_bytes : loopback6 = [0; 0; 0; 0; 0; 0; 0; 0; 0; 0; 0; 0; 0; 0; 0; 1].
Proof. reflexivity. Qed.

Lemma IPv4_family_not_IPv6 (rf : RouteFamily) :
  is_IPv4_family rf = true -> is_IPv6_family rf = false.
Proof.
  unfold is_IPv4_family, is_IPv6_family.
  intros H. apply orb_true_iff in H as [H | H]; apply bool_decide_eq_true in H;
    subst rf; reflexivity.
Qed.

(** With self-route-withdraw every path of the batch gives the loopback. *)
Lemma collect_nexthops_self (conv : IP -> IP) (loopback : IP) (paths : list Path) :
  loopback <> [] ->
  collect_nexthops conv loopback true paths = replicate (length paths) loopback.
Proof.
  intros H. induction paths as [|p paths IH]; simpl; [reflexivity |].
  rewrite bool_decide_eq_true_2 by exact H. rewrite IH. reflexivity.
Qed.

(** Without it, the nexthops are those of the paths that the conversion
    does not send to nil, in the order of the batch. *)
Lemma collect_nexthops_filter (conv : IP -> IP) (loopback : IP) (paths : list Path) :
  collect_nexthops conv loopback false paths
  = filter (λ nh, nh <> []) ((λ p, conv (GetNexthop p)) <$> paths).
Proof.
  induction paths as [|p paths IH]; [reflexivity |].
  cbn [collect_nexthops]. rewrite fmap_cons, filter_cons, IH.
  case_decide as E.
  - rewrite bool_decide_eq_true_2 by exact E. reflexivity.
  - rewrite bool_decide_eq_false_2 by (intros H; exact (H E)). reflexivity.
Qed.

Lemma has_nexthop_or (a b : MESSAGE_FLAG) :
  has_nexthop b = false -> has_nexthop (message_or a b) = has_nexthop a.
Proof. intros H. simpl. rewrite H. apply orb_false_r. Qed.

(** What [newIPRouteBody_assemble] puts in the message it returns. *)
Lemma newIPRouteBody_assemble_inv (path : Path) (l : list string) (prefix : IP)
    (nexthops : list IP) (body : IPRouteBody) (w : bool) :
  newIPRouteBody_assemble path l prefix nexthops = Some (Some body, w) ->
  Nexthops body = nexthops
  /\ Prefix body = prefix
  /\ w = IsWithdraw path
  /\ has_nexthop (Message_ body) = bool_decide (0 < length nexthops)%nat.
Proof.
  unfold newIPRouteBody_assemble.
  destruct (l !! 1%nat) as [l1|]; simpl; [|discriminate].
  destruct (GetMed path) as [med err].
  destruct (GetSource path) as [info|]; simpl; [|discriminate].
  set (flags := community_flags _ _). clearbody flags.
  set (mf0 := if bool_decide (0 < length nexthops)%nat then MESSAGE_NEXTHOP
              else MESSAGE_none).
  assert (H0 : has_nexthop mf0 = bool_decide (0 < length nexthops)%nat)
    by (unfold mf0; destruct (bool_decide (0 < length nexthops)%nat); reflexivity).
  set (mf1 := if err then mf0 else message_or mf0 MESSAGE_METRIC).
  assert (H1 : has_nexthop mf1 = has_nexthop mf0)
    by (unfold mf1; destruct err; [reflexivity | apply has_nexthop_or; reflexivity]).
  match goal with
  | |- context [let '(aux, msgFlags) := ?e in _] =>
      assert (H2 : has_nexthop e.2 = has_nexthop mf1);
      [| destruct e as [aux mf2]; simpl in H2 ]
  end.
  { destruct (0 <? GetAsPathLen path); [|reflexivity].
    destruct (GetAsPath path) as [ser|]; [|reflexivity].
    destruct (bool_decide (3 < length ser)%nat); [|reflexivity].
    apply has_nexthop_or. reflexivity. }
  destruct ((ParseUint10 l1 8).1 =? 0) eqn:Ep; simpl.
  - destruct (PathLocalIdentifier (GetNlri path) =? 0); [discriminate |].
    intros H; inversion H; subst; simpl. repeat split.
    rewrite orb_false_r. congruence.
  - intros H; inversion H; subst; simpl. repeat split. congruence.
Qed.

(** What [newIPRouteBody] returns when it returns a message. *)
Lemma newIPRouteBody_inv (dst : pathList) (selfRouteWithdraw : bool)
    (body : IPRouteBody) (w : bool) :
  newIPRouteBody dst selfRouteWithdraw = Some (Some body, w) ->
  exists path rest,
    filterOutExternalPath dst = path :: rest
    /\ w = IsWithdraw path
    /\ has_nexthop (Message_ body) = bool_decide (0 < length (Nexthops body))%nat
    /\ ((is_IPv4_family (GetRouteFamily path) = true
         /\ Nexthops body = collect_nexthops To4 loopback4 selfRouteWithdraw (path :: rest))
        \/ (is_IPv4_family (GetRouteFamily path) = false
            /\ is_IPv6_family (GetRouteFamily path) = true
            /\ Nexthops body = collect_nexthops To16 loopback6 selfRouteWithdraw (path :: rest))).
Proof.
  unfold newIPRouteBody.
  destruct (filterOutExternalPath dst) as [|path rest]; [discriminate |].
  fold (is_IPv4_family (GetRouteFamily path)). fold (is_IPv6_family (GetRouteFamily path)).
  intros H. exists path, rest. split; [reflexivity |].
  destruct (is_IPv4_family (GetRouteFamily path)) eqn:E4.
  - match type of H with (?a ≫= _) = _ => destruct a as [nlri|] end; simpl in H;
      [|discriminate].
    apply newIPRouteBody_assemble_inv in H as (Hn & _ & Hw & Hf).
    rewrite Hn. auto.
  - destruct (is_IPv6_family (GetRouteFamily path)) eqn:E6; [|discriminate].
    match type of H with (?a ≫= _) = _ => destruct a as [nlri|] end; simpl in H;
      [|discriminate].
    apply newIPRouteBody_assemble_inv in H as (Hn & _ & Hw & Hf).
    rewrite Hn. auto 6.
Qed.

(** C3, as the specification states it, fails: for a path that is not
    marked withdraw, the translator called with self-route-withdraw does
    put the loopback in the message, and returns is-withdraw = false. *)
Lemma newIPRouteBody_self_withdraw_flag :
  exists body,
    newIPRouteBody batch1 true = Some (Some body, false)
    /\ Nexthops body = [[127; 0; 0; 1]]
    /\ is_IPv4_family (GetRouteFamily (example_path [192; 0; 2; 1])) = true.
Proof. eexists. repeat split. Qed.

(** C3 (amended): when [newIPRouteBody] called with self-route-withdraw
    returns a message, the message has one nexthop per path of the batch
    that is neither nil nor from zebra, each of them 127.0.0.1 if the
    family of the representative is IPv4 unicast or VPN, ::1 if it is IPv6
    unicast or VPN; the is-withdraw flag returned with it is the one of the
    representative. *)
Theorem newIPRouteBody_self_withdraw (dst : pathList) (body : IPRouteBody) (w : bool) :
  newIPRouteBody dst true = Some (Some body, w) ->
  exists path rest,
    filterOutExternalPath dst = path :: rest
    /\ w = IsWithdraw path
    /\ length (Nexthops body) = length (path :: rest)
    /\ (is_IPv4_family (GetRouteFamily path) = true ->
        Forall (λ nh, nh = [127; 0; 0; 1]) (Nexthops body))
    /\ (is_IPv6_family (GetRouteFamily path) = true ->
        Forall (λ nh, nh = [0; 0; 0; 0; 0; 0; 0; 0; 0; 0; 0; 0; 0; 0; 0; 1])
          (Nexthops body)).
Proof.
  intros H. apply newIPRouteBody_inv in H as (path & rest & Hf & Hw & _ & Hn).
  exists path, rest. split; [exact Hf |]. split; [exact Hw |].
  destruct Hn as [(E4 & Hn) | (E4 & E6 & Hn)];
    rewrite collect_nexthops_self in Hn by discriminate; rewrite Hn.
  - split; [apply length_replicate |]. split.
    + intros _. rewrite loopback4_bytes. apply Forall_replicate. reflexivity.
    + intros E6. rewrite (IPv4_family_not_IPv6 _ E4) in E6. discriminate.
  - split; [apply length_replicate |]. split.
    + intros E. congruence.
    + intros _. rewrite loopback6_bytes. apply Forall_replicate. reflexivity.
Qed.

Lemma newIPRouteBody_self_withdraw_witness :
  exists body path rest,
    newIPRouteBody batch1 true = Some (Some body, false)
    /\ filterOutExternalPath batch1 = path :: rest
    /\ false = IsWithdraw path
    /\ length (Nexthops body) = length (path :: rest)
    /\ (is_IPv4_family (GetRouteFamily path) = true ->
        Forall (λ nh, nh = [127; 0; 0; 1]) (Nexthops body))
    /\ (is_IPv6_family (GetRouteFamily path) = true ->
        Forall (λ nh, nh = [0; 0; 0; 0; 0; 0; 0; 0; 0; 0; 0; 0; 0; 0; 0; 1])
          (Nexthops body)).
Proof.
  eexists.
  destruct (newIPRouteBody_self_withdraw batch1 _ false eq_refl)
    as (path & rest & H).
  exists path, rest. split; [reflexivity | exact H].
Defined.

(** In the bridge loop it is the arm of the best path event, not the
    translator, that forces is-withdraw: what it sends for a local path is
    sent as a withdrawal. *)
Lemma loop_BestPath_local_withdraw (nhtManager nhtManager' : option nexthopTrackingManager)
    (vrf : option (gmap string Z)) (path : Path) (acts : list bridgeAction)
    (i : Z) (body : IPRouteBody) (w : bool) :
  loop_BestPath_path nhtManager vrf path = Some (nhtManager', acts) ->
  IsLocal path = Some true ->
  SendIPRoute i body w ∈ acts ->
  w = true /\ newIPRouteBody [Some path] true = Some (Some body, IsWithdraw path).
Proof.
  unfold loop_BestPath_path. intros H Hl Hin.
  destruct (String.eqb _ "0.0.0.0/0").
  { inversion H; subst. apply elem_of_nil in Hin. contradiction. }
  rewrite Hl in H. simpl in H.
  destruct (newIPRouteBody [Some path] true) as [[b wd]|] eqn:Hb; simpl in H;
    [|discriminate].
  destruct (newNexthopRegisterBody [Some path] nhtManager) as [[b2 w2] m2].
  inversion H; subst; clear H.
  apply elem_of_app in Hin as [Hin | Hin].
  - destruct b as [b|]; [|apply elem_of_nil in Hin; contradiction].
    apply list_elem_of_singleton in Hin. inversion Hin; subst.
    split; [reflexivity |].
    destruct (newIPRouteBody_inv _ _ _ _ Hb) as (p & r & Hf & Hw & _).
    simpl in Hf. destruct (IsFromExternal path); [discriminate |].
    inversion Hf; subst. reflexivity.
  - destruct b2 as [b2|]; [|apply elem_of_nil in Hin; contradiction].
    apply list_elem_of_singleton in Hin. discriminate.
Qed.

Lemma type_assert_IPv4 (path : Path) :
  is_IPv4_family (GetRouteFamily path) = true ->
  nlri_typed (GetNlri path) = true ->
  (if bool_decide (GetRouteFamily path = RF_IPv4_UC)
   then type_assert IPAddrPrefix (GetNlri path)
   else type_assert LabeledVPNIPAddrPrefix (GetNlri path)) = Some (GetNlri path).
Proof.
  unfold is_IPv4_family, GetRouteFamily, nlri_RouteFamily, nlri_typed, type_assert, GetNlri.
  destruct (nlri_type (path_nlri path)); simpl; try discriminate; reflexivity.
Qed.

Lemma type_assert_IPv6 (path : Path) :
  is_IPv6_family (GetRouteFamily path) = true ->
  nlri_typed (GetNlri path) = true ->
  (if bool_decide (GetRouteFamily path = RF_IPv6_UC)
   then type_assert IPv6AddrPrefix (GetNlri path)
   else type_assert LabeledVPNIPv6AddrPrefix (GetNlri path)) = Some (GetNlri path).
Proof.
  unfold is_IPv6_family, GetRouteFamily, nlri_RouteFamily, nlri_typed, type_assert, GetNlri.
  destruct (nlri_type (path_nlri path)); simpl; try discriminate; reflexivity.
Qed.

(** When the text of the NLRI has a "/", the path has a source, and the
    route is not a default route without path identifier, the message is
    assembled. *)
Lemma newIPRouteBody_assemble_some (path : Path) (l : list string) (prefix : IP)
    (nexthops : list IP) (l1 : string) :
  l !! 1%nat = Some l1 ->
  GetSource path <> None ->
  ((ParseUint10 l1 8).1 =? 0) && (PathLocalIdentifier (GetNlri path) =? 0) = false ->
  exists body, newIPRouteBody_assemble path l prefix nexthops
               = Some (Some body, IsWithdraw path).
Proof.
  intros Hl Hs Hd. unfold newIPRouteBody_assemble. rewrite Hl. simpl.
  destruct (GetMed path) as [med err].
  destruct (GetSource path) as [info|]; [|contradiction]. simpl.
  match goal with
  | |- context [let '(aux, msgFlags) := ?e in _] => destruct e as [aux mf]
  end.
  destruct ((ParseUint10 l1 8).1 =? 0) eqn:Ep; simpl in Hd |- *.
  - rewrite Hd. eauto.
  - eauto.
Qed.

Lemma filter_all_nil (f : Path -> IP) (l : list Path) :
  Forall (λ p, f p = []) l -> filter (λ nh, nh <> []) (f <$> l) = [].
Proof.
  induction l as [|p l IH]; intros H; [reflexivity |].
  apply Forall_cons in H as [Hp Hl].
  specialize (IH Hl). rewrite fmap_cons, filter_cons.
  case_decide as E; [contradiction | exact IH].
Qed.

(** C9, as the specification states it, fails: a default route whose
    path-local identifier is 0 is dropped, also when its nexthop, an IPv6
    address on an IPv4 unicast path, has been omitted: no message is
    returned. *)
Lemma newIPRouteBody_default_route_dropped :
  To4 (GetNexthop example_default_path) = []
  /\ is_IPv4_family (GetRouteFamily example_default_path) = true
  /\ newIPRouteBody [Some example_default_path] false = Some (None, false).
Proof. repeat split. Qed.

(** C9 (amended): in a message [newIPRouteBody] returns without
    self-route-withdraw, the nexthops are those of the paths of the batch
    (nil and from-zebra paths apart) that can be expressed in the address
    width of the family of the representative, and has-nexthop is set
    exactly when there is one. When none can be expressed, a message is
    still returned, with no nexthop and has-nexthop unset, unless the
    route is dropped as a default route without path identifier (the
    family being one of the four, and the path having a source and an NLRI
    that prints with a "/"). *)
Theorem newIPRouteBody_unrepresentable (dst : pathList) (path : Path) (rest : list Path) :
  filterOutExternalPath dst = path :: rest ->
  (forall body w,
      newIPRouteBody dst false = Some (Some body, w) ->
      Nexthops body
      = filter (λ nh, nh <> [])
          ((λ p, family_conv (GetRouteFamily path) (GetNexthop p)) <$> path :: rest)
      /\ has_nexthop (Message_ body) = bool_decide (Nexthops body <> []))
  /\ (Forall (λ p, family_conv (GetRouteFamily path) (GetNexthop p) = []) (path :: rest) ->
      is_IPv4_family (GetRouteFamily path) || is_IPv6_family (GetRouteFamily path) = true ->
      nlri_typed (GetNlri path) = true ->
      GetSource path <> None ->
      forall plen,
        route_plen path = Some plen ->
        (plen =? 0) && (PathLocalIdentifier (GetNlri path) =? 0) = false ->
        exists body,
          newIPRouteBody dst false = Some (Some body, IsWithdraw path)
          /\ Nexthops body = []
          /\ has_nexthop (Message_ body) = false).
Proof.
  intros Hf.
  assert (HA : forall body w,
             newIPRouteBody dst false = Some (Some body, w) ->
             Nexthops body
             = filter (λ nh, nh <> [])
                 ((λ p, family_conv (GetRouteFamily path) (GetNexthop p)) <$> path :: rest)
             /\ has_nexthop (Message_ body) = bool_decide (Nexthops body <> [])).
  { intros body w H.
    apply newIPRouteBody_inv in H as (path' & rest' & Hf' & _ & Hflag & Hn).
    rewrite Hf in Hf'. inversion Hf'; subst path' rest'; clear Hf'.
    assert (Hlen : bool_decide (0 < length (Nexthops body))%nat
                   = bool_decide (Nexthops body <> [])).
    { destruct (Nexthops body); reflexivity. }
    rewrite Hflag, Hlen. split; [|reflexivity].
    unfold family_conv.
    destruct Hn as [(E4 & Hn) | (E4 & _ & Hn)]; rewrite E4, Hn;
      apply collect_nexthops_filter. }
  split; [exact HA |].
  intros Hall Hfam Htyped Hsrc plen Hplen Hdrop.
  unfold route_plen in Hplen.
  destruct (SplitN (nlri_String (GetNlri path)) "/" 2 !! 1%nat) as [l1|] eqn:Hl;
    simpl in Hplen; [|discriminate].
  inversion Hplen; subst plen; clear Hplen.
  assert (Hsome : exists body, newIPRouteBody dst false
                               = Some (Some body, IsWithdraw path)).
  { unfold newIPRouteBody. rewrite Hf.
    fold (is_IPv4_family (GetRouteFamily path)).
    fold (is_IPv6_family (GetRouteFamily path)).
    destruct (is_IPv4_family (GetRouteFamily path)) eqn:E4.
    - rewrite type_assert_IPv4 by assumption. simpl.
      eapply newIPRouteBody_assemble_some; eassumption.
    - simpl in Hfam. rewrite Hfam.
      rewrite type_assert_IPv6 by assumption. simpl.
      eapply newIPRouteBody_assemble_some; eassumption. }
  destruct Hsome as (body & Hbody). exists body. split; [exact Hbody |].
  destruct (HA _ _ Hbody) as (Hn & Hflag).
  assert (Hnil : Nexthops body = []).
  { rewrite Hn. apply filter_all_nil. exact Hall. }
  split; [exact Hnil |]. rewrite Hflag, Hnil.
  apply bool_decide_eq_false_2. intros H; apply H; reflexivity.
Qed.

Lemma newIPRouteBody_unrepresentable_witness :
  exists body,
    filterOutExternalPath [Some (example_path (ParseIP "2001:db8::1"))]
    = [example_path (ParseIP "2001:db8::1")]
    /\ To4 (GetNexthop (example_path (ParseIP "2001:db8::1"))) = []
    /\ route_plen (example_path (ParseIP "2001:db8::1")) = Some 24
    /\ newIPRouteBody [Some (example_path (ParseIP "2001:db8::1"))] false
       = Some (Some body, false)
    /\ Nexthops body = []
    /\ has_nexthop (Message_ body) = false.
Proof.
  destruct (proj2 (newIPRouteBody_unrepresentable
                     [Some (example_path (ParseIP "2001:db8::1"))]
                     (example_path (ParseIP "2001:db8::1")) [] eq_refl))
    with (plen := 24) as (body & H1 & H2 & H3).
  - repeat constructor.
  - reflexivity.
  - reflexivity.
  - discriminate.
  - reflexivity.
  - reflexivity.
  - exists body. repeat split; assumption.
Defined.

(** ** Nexthop updates *)

Lemma update_clone_invalid (metric : Z) (p : Path) :
  IsNexthopInvalid (update_clone true metric p) = true.
Proof. reflexivity. Qed.

Lemma update_clone_valid (metric : Z) (p : Path) :
  0 <= metric <= MaxUint32 ->
  IsNexthopInvalid (update_clone false metric p) = false
  /\ GetMed (update_clone false metric p) = (metric, false).
Proof.
  intros H. unfold update_clone, SetMed.
  destruct (Z.ltb_spec metric 0); [lia |].
  destruct (Z.ltb_spec MaxUint32 metric); [lia |].
  simpl. split; reflexivity.
Qed.

(** With a manager that is not nil the function returns, and the error it
    returns is nil. *)
Lemma createPathListFromNexthopUpdateMessage_total (body : NexthopUpdateBody)
    (manager : TableManager) (m : nexthopTrackingManager) :
  exists b nhtManager',
    createPathListFromNexthopUpdateMessage body manager (Some m)
    = Some ((λ path, Some (update_clone (bool_decide (length (nu_Nexthops body) = 0%nat))
                             (nu_Metric body) path))
              <$> GetPathListWithNexthop manager (rfListFromNexthopUpdateBody body)
                    (nu_Prefix body),
            b, None, nhtManager').
Proof.
  unfold createPathListFromNexthopUpdateMessage.
  destruct (bool_decide
              (length (GetPathListWithNexthop manager (rfListFromNexthopUpdateBody body)
                         (nu_Prefix body)) = 0%nat)); simpl; eauto.
Qed.

Lemma createPathListFromNexthopUpdateMessage_inv (body : NexthopUpdateBody)
    (manager : TableManager) (nhtManager nhtManager' : option nexthopTrackingManager)
    (paths : pathList) (b : option NexthopRegisterBody) (err : option error) :
  createPathListFromNexthopUpdateMessage body manager nhtManager
  = Some (paths, b, err, nhtManager') ->
  paths = (λ path, Some (update_clone (bool_decide (length (nu_Nexthops body) = 0%nat))
                           (nu_Metric body) path))
            <$> GetPathListWithNexthop manager (rfListFromNexthopUpdateBody body)
                  (nu_Prefix body)
  /\ err = None.
Proof.
  unfold createPathListFromNexthopUpdateMessage.
  match goal with
  | |- context [?c ≫= _] => destruct c as [[ub m']|]; simpl; [|discriminate]
  end.
  intros H; inversion H; subst. split; reflexivity.
Qed.

(** C6: the clones returned for a nexthop update with no nexthop are all
    marked nexthop-invalid; those returned for an update with a nexthop
    have the mark cleared and the metric of the update as their MED (the
    metric is a 32-bit unsigned number). There is one clone per path
    bound to the nexthop. *)
Theorem nexthop_invalidation (body : NexthopUpdateBody) (manager : TableManager)
    (nhtManager nhtManager' : option nexthopTrackingManager) (paths : pathList)
    (b : option NexthopRegisterBody) (err : option error) :
  createPathListFromNexthopUpdateMessage body manager nhtManager
  = Some (paths, b, err, nhtManager') ->
  0 <= nu_Metric body <= MaxUint32 ->
  length paths
  = length (GetPathListWithNexthop manager (rfListFromNexthopUpdateBody body)
              (nu_Prefix body))
  /\ (nu_Nexthops body = [] ->
      Forall (λ p, exists clone, p = Some clone /\ IsNexthopInvalid clone = true) paths)
  /\ (nu_Nexthops body <> [] ->
      Forall (λ p, exists clone, p = Some clone
                                 /\ IsNexthopInvalid clone = false
                                 /\ GetMed clone = (nu_Metric body, false)) paths).
Proof.
  intros H Hm. apply createPathListFromNexthopUpdateMessage_inv in H as [-> _].
  split; [apply length_fmap |]. split.
  - intros Hn. rewrite Hn. simpl. apply Forall_fmap, Forall_true.
    intros p. simpl. eauto using update_clone_invalid.
  - intros Hn. rewrite bool_decide_eq_false_2
      by (destruct (nu_Nexthops body); [contradiction | discriminate]).
    apply Forall_fmap, Forall_true. intros p. simpl.
    destruct (update_clone_valid (nu_Metric body) p Hm). eauto.
Qed.

Lemma nexthop_invalidation_witness :
  exists clone1 clone2,
    createPathListFromNexthopUpdateMessage example_nexthop_found example_tables
      (Some (newNexthopTrackingManager 1))
    = Some ([Some clone1; Some clone2], None, None, Some (newNexthopTrackingManager 1))
    /\ 0 <= nu_Metric example_nexthop_found <= MaxUint32
    /\ nu_Nexthops example_nexthop_found <> []
    /\ Forall (λ p, exists clone, p = Some clone
                                  /\ IsNexthopInvalid clone = false
                                  /\ GetMed clone = (20, false))
         [Some clone1; Some clone2].
Proof.
  eexists. eexists. split; [vm_compute; reflexivity |].
  assert (Hm : 0 <= nu_Metric example_nexthop_found <= MaxUint32)
    by (unfold MaxUint32; simpl; lia).
  split; [exact Hm |]. split; [discriminate |].
  refine (proj2 (proj2 (nexthop_invalidation example_nexthop_found example_tables
                          (Some (newNexthopTrackingManager 1)) _ _ _ _ _ Hm)) _).
  - vm_compute. reflexivity.
  - discriminate.
Defined.

(** The update that loses the nexthop marks the two bound paths, and it
    asks for no unregistration, as paths are bound. *)
Example nexthop_lost_example :
  exists clone1 clone2,
    createPathListFromNexthopUpdateMessage example_nexthop_lost example_tables
      (Some (newNexthopTrackingManager 1))
    = Some ([Some clone1; Some clone2], None, None, Some (newNexthopTrackingManager 1))
    /\ IsNexthopInvalid clone1 = true /\ IsNexthopInvalid clone2 = true
    /\ GetMed clone1 = (0, true) /\ GetMed clone2 = (5, false).
Proof. eexists. eexists. split; [vm_compute; reflexivity |]. repeat split. Qed.

(** ** The error of [createPathListFromNexthopUpdateMessage] *)

Lemma build_tables_logs (server : BgpServer) (rfs : list RouteFamily) :
  forall tables,
    forallb (λ a, negb (is_create_failure a)) (build_tables server rfs tables).2 = true.
Proof.
  induction rfs as [|rf rfs IH]; intros tables; simpl; [reflexivity |].
  destruct (GetRib server rf) as [rib|]; [apply IH |].
  specialize (IH tables). destruct (build_tables server rfs tables) as [t acts].
  simpl in *. exact IH.
Qed.

(** C10: [createPathListFromNexthopUpdateMessage] returns a nil error
    whenever it returns (it panics only on a nil manager, which the bridge
    loop never passes), so that the bridge loop, which never panics on a
    message, never logs "failed to create updated path list". *)
Theorem createPathList_error_unreachable (body : NexthopUpdateBody) (manager : TableManager)
    (nhtManager : option nexthopTrackingManager) (server : BgpServer) (msg : Message) :
  match createPathListFromNexthopUpdateMessage body manager nhtManager with
  | Some (_, _, err, _) => err = None
  | None => nhtManager = None
  end
  /\ exists nhtManager' acts,
       loop_message server nhtManager msg = Some (nhtManager', acts)
       /\ forallb (λ a, negb (is_create_failure a)) acts = true.
Proof.
  split.
  - destruct nhtManager as [m|].
    + destruct (createPathListFromNexthopUpdateMessage_total body manager m)
        as (b & m' & ->). reflexivity.
    + destruct (createPathListFromNexthopUpdateMessage body manager None)
        as [[[[paths b] err] m']|] eqn:H; [|reflexivity].
      apply createPathListFromNexthopUpdateMessage_inv in H as [_ H]. exact H.
  - unfold loop_message. destruct (msg_Body msg) as [b | b | data] eqn:Hb.
    + unfold createPathFromIPRouteMessage. rewrite Hb. simpl.
      match goal with
      | |- context [match ?built with Some _ => _ | None => _ end ≫= _] =>
          destruct built as [[nlri pattr]|]
      end; simpl; [|eauto].
      eexists _, _. split; [reflexivity |]. simpl.
      match goal with |- context [AddPath_fails ?s ?l] => destruct (AddPath_fails s l) end;
        reflexivity.
    + destruct nhtManager as [m|]; [|eauto].
      pose proof (build_tables_logs server (rfListFromNexthopUpdateBody b) ∅) as Hlogs.
      destruct (build_tables server (rfListFromNexthopUpdateBody b) ∅) as [tables logs].
      simpl in Hlogs.
      destruct (createPathListFromNexthopUpdateMessage_total b {| Tables := tables |} m)
        as (ub & m' & ->). simpl.
      eexists _, _. split; [reflexivity |].
      rewrite forallb_app, Hlogs. simpl. destruct ub; reflexivity.
    + eauto.
Qed.

(** ** Opening the bridge *)

Lemma substring_0_0 (s : string) : String.substring 0 0 s = "".
Proof. destruct s; reflexivity. Qed.

Lemma substring_full (s : string) : String.substring 0 (String.length s) s = s.
Proof. induction s as [|a s IH]; simpl; [reflexivity | rewrite IH; reflexivity]. Qed.

(** A string is what comes before one of its characters, the character,
    and what comes after it. *)
Lemma substring_split (c : ascii) (m : nat) :
  forall s : string,
    String.substring m 1 s = String c "" ->
    s = String.substring 0 m s
          +:+ String c (String.substring (S m) (String.length s - S m) s).
Proof.
  induction m as [|m IH]; intros [|a s] H; simpl in H; try discriminate.
  - rewrite substring_0_0 in H. inversion H; subst. simpl.
    rewrite Nat.sub_0_r, substring_full. reflexivity.
  - cbn [String.substring String.length Nat.sub].
    rewrite (IH s H) at 1. reflexivity.
Qed.

Lemma substring_at_append (a b : string) (c : ascii) :
  String.substring (String.length a) 1 (a +:+ String c b) = String c "".
Proof.
  induction a as [|x a IH]; simpl; [rewrite substring_0_0; reflexivity | exact IH].
Qed.

(** [SplitN(url, ":", 2)] has two elements exactly when the URL is a
    scheme, a colon and an address; the elements are then such a scheme
    and such an address. *)
Lemma SplitN_url_inv (url l0 l1 : string) :
  SplitN url ":" 2 = [l0; l1] -> url = l0 +:+ ":" +:+ l1.
Proof.
  unfold SplitN. simpl.
  destruct (String.index 0 ":" url) as [m|] eqn:Hi; [|discriminate].
  intros H. inversion H; subst; clear H.
  apply index_correct1 in Hi. simpl in Hi.
  rewrite Nat.add_1_r. apply (substring_split ":"%char m url Hi).
Qed.

Lemma SplitN_url_parses (url : string) :
  (exists l0 l1, SplitN url ":" 2 = [l0; l1]) <-> parses_as_scheme_address url.
Proof.
  split.
  - intros (l0 & l1 & H). exists l0, l1. apply SplitN_url_inv. exact H.
  - intros (a & b & ->). unfold SplitN. simpl.
    destruct (String.index 0 ":" (a +:+ ":" +:+ b)) as [m|] eqn:Hi;
      [eexists _, _; reflexivity |].
    exfalso.
    apply (index_correct3 0 (String.length a) ":" _ Hi); [discriminate | lia |].
    exact (substring_at_append a b ":"%char).
Qed.

Lemma redistribute_loop_sent (zebra : ZebraPackage) (protos : list string) :
  loop_not_started (redistribute_loop zebra protos).2.
Proof.
  unfold loop_not_started.
  induction protos as [|typ protos IH]; simpl; [constructor |].
  destruct (RouteTypeFromString zebra typ) as [t | e]; [|constructor].
  destruct (redistribute_loop zebra protos) as [err acts]. simpl in *.
  constructor; [discriminate | exact IH].
Qed.

Lemma redistribute_loop_unknown (zebra : ZebraPackage) (protos : list string)
    (typ : string) (e : error) :
  typ ∈ protos -> RouteTypeFromString zebra typ = inr e ->
  exists e', (redistribute_loop zebra protos).1 = Some e'.
Proof.
  intros Hin He. induction protos as [|x protos IH]; [inversion Hin |].
  simpl. destruct (RouteTypeFromString zebra x) as [t | e'] eqn:Hx; [|simpl; eauto].
  apply elem_of_cons in Hin as [-> | Hin]; [congruence |].
  destruct (IH Hin) as (e'' & IH'). destruct (redistribute_loop zebra protos).
  simpl in *. eauto.
Qed.

(** C8: [newZebraClient] returns an error, and does not start the loop of
    the bridge, for every URL that is not a scheme, a colon and an address
    (nothing at all is done then), and whenever one of the protocols asked
    for has a name [RouteTypeFromString] does not know; the loop is only
    started together with the return of the bridge and of a nil error. *)
Theorem newZebraClient_config_errors (zebra : ZebraPackage) (url : string)
    (protos : list string) (version : Z) (nhtEnable : bool) (nhtDelay : Z) :
  (~ parses_as_scheme_address url ->
   newZebraClient zebra url protos version nhtEnable nhtDelay
   = (None, Some ("unsupported url: " +:+ url), []))
  /\ (forall typ e,
        typ ∈ protos -> RouteTypeFromString zebra typ = inr e ->
        exists e',
          (newZebraClient zebra url protos version nhtEnable nhtDelay).1
          = (None, Some e')
          /\ loop_not_started
               (newZebraClient zebra url protos version nhtEnable nhtDelay).2)
  /\ (~ loop_not_started (newZebraClient zebra url protos version nhtEnable nhtDelay).2 ->
      exists w, (newZebraClient zebra url protos version nhtEnable nhtDelay).1
                = (Some w, None)).
Proof.
  unfold newZebraClient.
  destruct (SplitN url ":" 2) as [|l0 [|l1 [|l2 l]]] eqn:Hs.
  1, 2, 4: (split; [reflexivity |]; split;
            [intros typ e _ _; eexists; split; [reflexivity | constructor]
            | intros H; exfalso; apply H; constructor]).
  split; [|split].
  - intros Hp. exfalso. apply Hp. apply SplitN_url_parses. eauto.
  - intros typ e Hin He. simpl.
    destruct (NewClient zebra l0 l1 ROUTE_BGP version) as [c | e0]; simpl.
    + destruct (redistribute_loop_unknown zebra protos typ e Hin He) as (e' & He').
      pose proof (redistribute_loop_sent zebra protos) as Hsent.
      destruct (redistribute_loop zebra protos) as [err sent]. simpl in *. subst err.
      eexists. split; [reflexivity |].
      constructor; [discriminate | exact Hsent].
    + eexists. split; [reflexivity |]. repeat constructor. discriminate.
  - simpl. destruct (NewClient zebra l0 l1 ROUTE_BGP version) as [c | e0]; simpl.
    + pose proof (redistribute_loop_sent zebra protos) as Hsent.
      destruct (redistribute_loop zebra protos) as [[err|] sent]; simpl in *.
      * intros H. exfalso. apply H. constructor; [discriminate | exact Hsent].
      * intros _. eauto.
    + intros H. exfalso. apply H. repeat constructor. discriminate.
Qed.

Lemma not_parses_localhost : ~ parses_as_scheme_address "localhost".
Proof.
  intros H. apply SplitN_url_parses in H as (l0 & l1 & H). discriminate.
Defined.

Lemma newZebraClient_config_errors_witness :
  (~ parses_as_scheme_address "localhost"
   /\ newZebraClient example_zebra "localhost" ["static"] 2 true 5
      = (None, Some "unsupported url: localhost", []))
  /\ ("ospf" ∈ ["static"; "ospf"; "kernel"]
      /\ RouteTypeFromString example_zebra "ospf" = inr "unknown route type: ospf"
      /\ exists e',
           (newZebraClient example_zebra "unix:/var/run/zserv.api"
              ["static"; "ospf"; "kernel"] 2 true 5).1 = (None, Some e')
           /\ loop_not_started
                (newZebraClient example_zebra "unix:/var/run/zserv.api"
                   ["static"; "ospf"; "kernel"] 2 true 5).2).
Proof.
  split.
  - split; [exact not_parses_localhost |].
    exact (proj1 (newZebraClient_config_errors example_zebra "localhost" ["static"]
                    2 true 5) not_parses_localhost).
  - assert (Hin : "ospf" ∈ ["static"; "ospf"; "kernel"])
      by (apply elem_of_cons; right; apply elem_of_cons; left; reflexivity).
    split; [exact Hin |]. split; [reflexivity |].
    exact (proj1 (proj2 (newZebraClient_config_errors example_zebra
                           "unix:/var/run/zserv.api" ["static"; "ospf"; "kernel"]
                           2 true 5))
             "ospf" "unknown route type: ospf" Hin eq_refl).
Defined.

(** The bridge opens on a well-formed URL and known protocols: the
    subscriptions are sent and the loop is started. With the unknown
    protocol second, the first subscription has been sent when the error
    is returned. *)
Example newZebraClient_opens :
  exists w,
    newZebraClient example_zebra "unix:/var/run/zserv.api" ["static"; "kernel"] 2 true 5
    = (Some w, None,
       [SendInterfaceAdd; SendRedistribute 3 VRF_DEFAULT; SendRedistribute 1 VRF_DEFAULT;
        Go_loop w])
    /\ nhtManager_of w = Some (newNexthopTrackingManager 5).
Proof. eexists. split; reflexivity. Qed.

Example newZebraClient_unknown_protocol :
  newZebraClient example_zebra "unix:/var/run/zserv.api" ["static"; "ospf"; "kernel"]
    2 true 5
  = (None, Some "unknown route type: ospf",
     [SendInterfaceAdd; SendRedistribute 3 VRF_DEFAULT]).
Proof. reflexivity. Qed.

Example newZebraClient_dial_fails :
  newZebraClient example_zebra "tcp:127.0.0.1:2601" ["static"] 2 true 5
  = (None, Some "dial tcp: unknown network",
     [Warnf "cannot connect to Zebra with message version 2. going to retry another version..."]).
Proof. reflexivity. Qed.

(** ** The counter beyond 64 bits *)

(** The bound on the number of batches in the monotonicity of the delay is
    needed: batch number 18446744073709552 wraps the penalty around to a
    negative number, for which the delay is the base delay again. *)
Lemma delay_after_overflow :
  delay_after (newNexthopTrackingManager 1)
    (replicate (Z.to_nat 18446744073709551) batch1) = Some 440
  /\ delay_after (newNexthopTrackingManager 1)
       (replicate (Z.to_nat 18446744073709552) batch1) = Some 1.
Proof.
  assert (Hrun : forall n : nat,
             500 * Z.of_nat n <= int_max ->
             exists s acts,
               loop_run (loop_init (newNexthopTrackingManager 1))
                 (Ev_pathList <$> replicate n batch1) = Some (s, acts)
               /\ loop_penalty s = 500 * Z.of_nat n
               /\ delay (loop_m s) = 1
               /\ loop_running s = true).
  { intros n Hn. rewrite fmap_replicate.
    destruct (loop_run_replicate_batch (example_path [192; 0; 2; 1]) [] n
                (loop_init (newNexthopTrackingManager 1)) eq_refl)
      as (s & acts & Hr & Hp & Hrn); [simpl; lia | simpl; lia |].
    exists s, acts. fold batch1 in Hr. split; [exact Hr |].
    split; [simpl in Hp; lia |]. split; [|exact Hrn].
    rewrite <- (fmap_replicate Ev_pathList) in Hr.
    destruct (loop_run_batches _ (loop_init (newNexthopTrackingManager 1)) _ _
                eq_refl Hr) as (_ & Hd & _);
      [simpl; lia | simpl; rewrite length_replicate; lia | exact Hd]. }
  destruct (Hrun (Z.to_nat 18446744073709551)) as (s & acts & Hr & Hp & Hd & Hrn).
  { rewrite Z2Nat.id by lia. unfold int_max. simpl. lia. }
  rewrite Z2Nat.id in Hp by lia.
  split.
  - unfold delay_after, after_batches. rewrite Hr. simpl.
    unfold calculateDelay. rewrite Hp. simpl.
    rewrite calculateDelay_loop_log2 by (unfold int_max; simpl; lia). reflexivity.
  - replace (Z.to_nat 18446744073709552) with (Z.to_nat 18446744073709551 + 1)%nat by lia.
    rewrite replicate_add.
    change (replicate 1 batch1) with [batch1].
    unfold delay_after, after_batches. rewrite fmap_app, loop_run_app, Hr.
    destruct (loop_step_batch_total s (example_path [192; 0; 2; 1]) [])
      as (s' & a & Hs).
    destruct (loop_step_batch _ _ _ _ Hrn Hs) as (Hp' & Hd' & _).
    fold batch1 in Hs. cbn [mbind option_bind fmap list_fmap loop_run]. rewrite Hs. simpl.
    unfold calculateDelay. rewrite Hp', Hp, Hd', Hd. reflexivity.
Qed.

(** ** The closed form of the specification and the loop *)

(** Beyond 950 the delay of the loop is the closed form of the
    specification or 8 less: the two differ exactly when the penalty is
    above [950 * 2 ^ n] for the number [n] of halvings of the loop. *)
Lemma calculateDelay_vs_spec_delay (m : nexthopTrackingManager) (penalty : Z) :
  950 < penalty <= int_max ->
  (penalty <= 950 * 2 ^ (Z.log2 (penalty / 951) + 1) ->
   calculateDelay m penalty = spec_delay (delay m) penalty)
  /\ (950 * 2 ^ (Z.log2 (penalty / 951) + 1) < penalty ->
      calculateDelay m penalty = spec_delay (delay m) penalty - 8).
Proof.
  intros [Hgt Hmax]. unfold calculateDelay, spec_delay.
  destruct (Z.leb_spec penalty 950) as [Hle | _]; [lia |].
  rewrite calculateDelay_loop_log2 by lia.
  assert (Hq : 0 < penalty / 951) by (apply Z.div_str_pos; lia).
  pose proof (Z.log2_spec _ Hq) as [Hlo Hhi].
  pose proof (Z.log2_nonneg (penalty / 951)) as Hn.
  pose proof (Z.div_mod penalty 951 ltac:(lia)) as Hdm.
  pose proof (Z.mod_pos_bound penalty 951 ltac:(lia)) as Hmb.
  set (n := Z.log2 (penalty / 951)) in *.
  rewrite <- Z.add_1_r in Hhi.
  destruct (ceil_log2_ratio_spec penalty 950 ltac:(lia)) as (Hc & Hclo & Hchi).
  set (c := ceil_log2_ratio penalty 950) in *.
  assert (Hpow : forall a b, 0 <= a <= b -> 2 ^ a <= 2 ^ b)
    by (intros a b Hab; apply Z.pow_le_mono_r; lia).
  assert (Hcn : n + 1 <= c).
  { destruct (Z.le_gt_cases (n + 1) c) as [H | H]; [exact H | exfalso].
    pose proof (Hpow c n ltac:(lia)). nia. }
  assert (Hcn' : c <= n + 2).
  { destruct (Z.le_gt_cases c (n + 2)) as [H | H]; [exact H | exfalso].
    pose proof (Hpow (n + 2) (c - 1) ltac:(lia)) as Hp2.
    replace (2 ^ (n + 2)) with (2 * 2 ^ (n + 1)) in Hp2
      by (rewrite <- Z.pow_succ_r by lia; f_equal; lia).
    nia. }
  split; intros Hcmp.
  - assert (c = n + 1); [|lia].
    destruct (Z.eq_dec c (n + 1)) as [E | E]; [exact E | exfalso].
    assert (Ec : c - 1 = n + 1) by lia. rewrite Ec in Hclo. lia.
  - assert (c = n + 2); [|lia].
    destruct (Z.eq_dec c (n + 2)) as [E | E]; [exact E | exfalso].
    assert (Ec : c = n + 1) by lia. rewrite Ec in Hchi. lia.
Qed.

(** ** The scenarios of the specification *)

(** S1: the best path 10.0.0.0/24 via 192.0.2.1 of an eBGP peer gives a
    route message with that prefix and nexthop, no route flag, and the
    message flag has-nexthop alone. *)
Example newIPRouteBody_S1 :
  newIPRouteBody batch1 false
  = Some (Some {| Type_ := ROUTE_BGP;
                  Flags := FLAG_none;
                  SAFI := SAFI_UNICAST;
                  Message_ := MESSAGE_NEXTHOP;
                  Prefix := [10; 0; 0; 0];
                  PrefixLength := 24;
                  Nexthops := [[192; 0; 2; 1]];
                  Ifindexs := [];
                  Distance := 0;
                  Metric := 0;
                  Mtu := 0;
                  Aux := [];
                  PathId := 0;
                  Api := API_other 0 |}, false).
Proof. reflexivity. Qed.

(** S3: with a base delay of 1, the first batch is scheduled after 1
    second, and once the penalty is over 950 the delay is 16. *)
Example loop_run_S3 :
  loop_run (loop_init (newNexthopTrackingManager 1))
    [Ev_pathList batch1; Ev_trigger; Ev_pathList batch2; Ev_pathList batch1; Ev_trigger]
  = Some (mkNhtLoop (mkNexthopTrackingManager ∅ 1 false ∅) 1500 true,
          [AfterFunc 1; UpdatePath batch1; AfterFunc 16; UpdatePath (batch1 ++ batch2)]).
Proof. vm_compute. reflexivity. Qed.

(** * Further properties *)

(** ** The cache of registered nexthops *)

Lemma isRegisteredNexthop_spec (m : nexthopTrackingManager) (nexthop : IP) :
  isRegisteredNexthop m nexthop = true <-> IP_String nexthop ∈ nexthopCache m.
Proof. unfold isRegisteredNexthop. apply bool_decide_eq_true. Qed.

Lemma registerNexthop_cache (m : nexthopTrackingManager) (nexthop : IP) :
  nexthopCache (registerNexthop m nexthop).2 = {[ IP_String nexthop ]} ∪ nexthopCache m.
Proof.
  unfold registerNexthop.
  destruct (bool_decide (IP_String nexthop ∈ nexthopCache m)) eqn:E; simpl;
    [|reflexivity].
  apply bool_decide_eq_true in E. set_solver.
Qed.

Lemma registerNexthop_registered (m : nexthopTrackingManager) (nexthop : IP) :
  isRegisteredNexthop (registerNexthop m nexthop).2 nexthop = true.
Proof. apply isRegisteredNexthop_spec. rewrite registerNexthop_cache. set_solver. Qed.

(** X1: [registerNexthop] answers true exactly when the nexthop was not
    in the cache; after it the nexthop is registered, a second
    registration answers false and changes nothing, and the cache has
    grown by the text of the nexthop and by nothing else. *)
Theorem registerNexthop_once (m : nexthopTrackingManager) (nexthop : IP) :
  (registerNexthop m nexthop).1 = negb (isRegisteredNexthop m nexthop)
  /\ isRegisteredNexthop (registerNexthop m nexthop).2 nexthop = true
  /\ registerNexthop (registerNexthop m nexthop).2 nexthop
     = (false, (registerNexthop m nexthop).2)
  /\ nexthopCache (registerNexthop m nexthop).2
     = {[ IP_String nexthop ]} ∪ nexthopCache m.
Proof.
  split; [|split; [|split]].
  - unfold registerNexthop, isRegisteredNexthop.
    destruct (bool_decide (IP_String nexthop ∈ nexthopCache m)); reflexivity.
  - apply registerNexthop_registered.
  - pose proof (registerNexthop_registered m nexthop) as H.
    unfold isRegisteredNexthop in H. unfold registerNexthop at 1. rewrite H.
    reflexivity.
  - apply registerNexthop_cache.
Qed.

(** X2: [unregisterNexthop] leaves the nexthop unregistered, whether it
    was registered or not; it undoes a registration, and doing it twice is
    doing it once; the nexthop can then be registered anew. *)
Theorem unregisterNexthop_removes (m : nexthopTrackingManager) (nexthop : IP) :
  isRegisteredNexthop (unregisterNexthop m nexthop) nexthop = false
  /\ nexthopCache (unregisterNexthop (registerNexthop m nexthop).2 nexthop)
     = nexthopCache m ∖ {[ IP_String nexthop ]}
  /\ unregisterNexthop (unregisterNexthop m nexthop) nexthop
     = unregisterNexthop m nexthop
  /\ (registerNexthop (unregisterNexthop m nexthop) nexthop).1 = true.
Proof.
  assert (Hout : IP_String nexthop ∉ nexthopCache m ∖ {[IP_String nexthop]})
    by set_solver.
  split; [|split; [|split]].
  - unfold isRegisteredNexthop, unregisterNexthop. simpl.
    apply bool_decide_eq_false_2. exact Hout.
  - unfold unregisterNexthop. simpl. rewrite registerNexthop_cache. set_solver.
  - unfold unregisterNexthop, set_nexthopCache. simpl. f_equal. set_solver.
  - unfold registerNexthop, unregisterNexthop. simpl.
    rewrite (bool_decide_eq_false_2 _ Hout). reflexivity.
Qed.

(** X3: the cache is keyed by the text of the address, and an IPv4
    address prints alike in its 4-byte and in its 16-byte form: to
    register one form is to register the other. *)
Theorem registerNexthop_both_forms (m : nexthopTrackingManager) (ip : IP) :
  length ip = 4%nat ->
  IP_String (To16 ip) = IP_String ip
  /\ To4 (To16 ip) = ip
  /\ isRegisteredNexthop (registerNexthop m ip).2 (To16 ip) = true
  /\ isRegisteredNexthop (registerNexthop m (To16 ip)).2 ip = true.
Proof.
  intros Hlen.
  destruct ip as [|a [|b [|c [|d [|e l]]]]]; try discriminate Hlen.
  assert (Hs : IP_String (To16 [a; b; c; d]) = IP_String [a; b; c; d]) by reflexivity.
  split; [exact Hs |]. split; [reflexivity |]. split.
  - unfold isRegisteredNexthop. rewrite Hs. apply registerNexthop_registered.
  - unfold isRegisteredNexthop. rewrite <- Hs.
    apply (registerNexthop_registered m (To16 [a; b; c; d])).
Qed.

Lemma registerNexthop_both_forms_witness :
  length [192; 0; 2; 1] = 4%nat
  /\ IP_String (To16 [192; 0; 2; 1]) = "192.0.2.1"
  /\ isRegisteredNexthop (registerNexthop (newNexthopTrackingManager 1) [192; 0; 2; 1]).2
       (To16 [192; 0; 2; 1]) = true.
Proof.
  split; [reflexivity |]. split; [reflexivity |].
  exact (proj1 (proj2 (proj2 (registerNexthop_both_forms (newNexthopTrackingManager 1)
                                [192; 0; 2; 1] eq_refl)))).
Defined.

(** ** The scheduled batches *)

Lemma appendPathList_some (m : nexthopTrackingManager) (paths : pathList) (k : string) :
  batch_key paths = Some k ->
  appendPathList m paths
  = Some (set_scheduledPathList (<[ k := paths ]> (scheduledPathList m)) m).
Proof.
  destruct paths as [|[p|] rest]; simpl; intros H; inversion H; reflexivity.
Qed.

(** X4: [appendPathList] files a batch under the text of the nexthop of
    its first path, in place of the batch that was filed there, and leaves
    the batches of the other nexthops, the cache and the flags alone; an
    empty batch changes nothing. *)
Theorem appendPathList_overwrites (m : nexthopTrackingManager) (paths paths' : pathList)
    (k : string) :
  batch_key paths = Some k ->
  batch_key paths' = Some k ->
  exists m1 m2,
    appendPathList m paths = Some m1
    /\ appendPathList m1 paths' = Some m2
    /\ appendPathList m paths' = Some m2
    /\ scheduledPathList m2 !! k = Some paths'
    /\ (forall k', k' <> k -> scheduledPathList m2 !! k' = scheduledPathList m !! k')
    /\ nexthopCache m2 = nexthopCache m
    /\ isScheduled m2 = isScheduled m
    /\ delay m2 = delay m
    /\ appendPathList m [] = Some m.
Proof.
  intros Hk Hk'. eexists _, _.
  split; [apply appendPathList_some; exact Hk |].
  split; [apply appendPathList_some; exact Hk' |].
  split.
  - rewrite (appendPathList_some m paths' k Hk').
    unfold set_scheduledPathList. simpl. rewrite insert_insert_eq. reflexivity.
  - simpl. rewrite insert_insert_eq. split; [apply lookup_insert_eq |].
    split; [|repeat split].
    intros k' Hne. apply lookup_insert_ne. congruence.
Qed.

Lemma appendPathList_overwrites_witness :
  batch_key batch1 = Some "192.0.2.1"
  /\ batch_key (batch1 ++ batch2) = Some "192.0.2.1"
  /\ exists m1 m2,
       appendPathList (newNexthopTrackingManager 1) batch1 = Some m1
       /\ appendPathList m1 (batch1 ++ batch2) = Some m2
       /\ scheduledPathList m2 !! "192.0.2.1" = Some (batch1 ++ batch2).
Proof.
  split; [reflexivity |]. split; [reflexivity |].
  destruct (appendPathList_overwrites (newNexthopTrackingManager 1) batch1
              (batch1 ++ batch2) "192.0.2.1" eq_refl eq_refl)
    as (m1 & m2 & H1 & H2 & _ & H4 & _).
  exists m1, m2. repeat split; assumption.
Defined.

(** ** The range of the delay *)

(** X5: for a penalty above 950 [calculateDelay] returns a multiple of 8
    between 16 and 440 seconds, whatever the base delay is; up to 950 it
    returns the base delay. *)
Theorem calculateDelay_range (m : nexthopTrackingManager) (penalty : Z) :
  penalty <= int_max ->
  (penalty <= 950 /\ calculateDelay m penalty = delay m)
  \/ (950 < penalty
      /\ 16 <= calculateDelay m penalty <= 440
      /\ calculateDelay m penalty mod 8 = 0).
Proof.
  intros Hmax. unfold calculateDelay.
  destruct (Z.leb_spec penalty 950) as [Hle | Hgt]; [left; auto | right].
  rewrite calculateDelay_loop_log2 by lia.
  assert (Hq : 0 < penalty / 951) by (apply Z.div_str_pos; lia).
  pose proof (Z.log2_nonneg (penalty / 951)) as Hn.
  assert (Hlt : Z.log2 (penalty / 951) < 54).
  { apply Z.log2_lt_pow2; [exact Hq |].
    apply Z.div_lt_upper_bound; unfold int_max in Hmax; lia. }
  split; [exact Hgt |]. split; [lia |].
  replace (8 + 8 * (Z.log2 (penalty / 951) + 1))
    with ((Z.log2 (penalty / 951) + 2) * 8) by lia.
  apply Z.mod_mul. lia.
Qed.

Lemma calculateDelay_range_witness :
  9223372036854775807 <= int_max
  /\ calculateDelay (newNexthopTrackingManager 1) 9223372036854775807 = 440.
Proof.
  assert (H : 9223372036854775807 <= int_max) by (unfold int_max; lia).
  split; [exact H |].
  destruct (calculateDelay_range (newNexthopTrackingManager 1) 9223372036854775807 H)
    as [[Hle _] | (_ & _ & _)]; [lia |].
  unfold calculateDelay. simpl.
  rewrite calculateDelay_loop_log2 by (unfold int_max; lia). reflexivity.
Defined.

(** ** Ticks, timers and triggers *)

Lemma loop_run_ticks (n : nat) :
  forall s : nhtLoop,
    loop_running s = true ->
    loop_run s (replicate n Ev_tick)
    = Some (mkNhtLoop (loop_m s) (Z.quot (loop_penalty s) (2 ^ Z.of_nat n)) true, []).
Proof.
  induction n as [|n IH]; intros [m p r] Hrun; simpl in Hrun; subst r.
  - simpl. rewrite Z.quot_1_r. reflexivity.
  - cbn [replicate loop_run]. unfold loop_step. simpl negb. cbv iota.
    cbn [mbind option_bind]. rewrite IH by reflexivity. simpl loop_m. simpl loop_penalty.
    cbn [mbind option_bind app]. unfold int_quot.
    rewrite Z.quot_quot by (try apply Z.pow_nonzero; lia).
    rewrite Nat2Z.inj_succ, Z.pow_succ_r by lia. reflexivity.
Qed.

(** X6: ticks alone halve the penalty toward zero, whatever its sign:
    [n] ticks leave the quotient of the penalty by [2 ^ n], truncated
    toward zero, so that 64 ticks or more bring any penalty to 0 (63 are
    enough for a penalty that is not negative); they change nothing else
    and do nothing to the outside. *)
Theorem ticks_decay (s : nhtLoop) (n : nat) :
  loop_running s = true ->
  in_int (loop_penalty s) ->
  loop_run s (replicate n Ev_tick)
  = Some (mkNhtLoop (loop_m s) (Z.quot (loop_penalty s) (2 ^ Z.of_nat n)) true, [])
  /\ Z.abs (Z.quot (loop_penalty s) (2 ^ Z.of_nat n)) <= Z.abs (loop_penalty s)
  /\ ((64 <= n)%nat \/ (63 <= n)%nat /\ 0 <= loop_penalty s ->
      Z.quot (loop_penalty s) (2 ^ Z.of_nat n) = 0).
Proof.
  intros Hrun Hint. split; [apply loop_run_ticks; exact Hrun |].
  assert (Hpos : 0 < 2 ^ Z.of_nat n) by (apply Z.pow_pos_nonneg; lia).
  split.
  - rewrite <- (Z.abs_eq (2 ^ Z.of_nat n)) at 1 by lia.
    rewrite <- Z.quot_abs by lia.
    rewrite Z.quot_div_nonneg by lia.
    apply Z.div_le_upper_bound; [lia |]. nia.
  - intros Hn. apply Z.quot_small_iff; [lia |].
    rewrite (Z.abs_eq (2 ^ Z.of_nat n)) by lia.
    unfold in_int, int_min, int_max in Hint.
    destruct Hn as [Hn | [Hn H0]].
    + apply Z.lt_le_trans with (2 ^ 64); [lia |].
      apply Z.pow_le_mono_r; lia.
    + apply Z.lt_le_trans with (2 ^ 63); [lia |].
      apply Z.pow_le_mono_r; lia.
Qed.

Lemma ticks_decay_witness :
  loop_run (mkNhtLoop (newNexthopTrackingManager 1) (-9223372036854775616) true)
    (replicate 64 Ev_tick)
  = Some (mkNhtLoop (newNexthopTrackingManager 1) 0 true, []).
Proof.
  assert (Hint : in_int (-9223372036854775616))
    by (unfold in_int, int_min, int_max; lia).
  destruct (ticks_decay (mkNhtLoop (newNexthopTrackingManager 1) (-9223372036854775616)
                           true) 64 eq_refl Hint) as (Hr & _ & H0).
  rewrite Hr. simpl loop_penalty. simpl loop_penalty in H0.
  rewrite (H0 (or_introl (le_n 64))). reflexivity.
Defined.

Lemma count_if_app {A : Type} (f : A -> bool) (l1 l2 : list A) :
  count_if f (l1 ++ l2) = (count_if f l1 + count_if f l2)%nat.
Proof. unfold count_if. rewrite filter_app, length_app. reflexivity. Qed.

Lemma count_if_cons {A : Type} (f : A -> bool) (x : A) (l : list A) :
  count_if f (x :: l) = (Nat.b2n (f x) + count_if f l)%nat.
Proof.
  unfold count_if. rewrite filter_cons.
  destruct (decide (f x = true)) as [E | E].
  - rewrite E. reflexivity.
  - destruct (f x); [congruence | reflexivity].
Qed.

(** A round of the loop arms a timer only if none is pending, and calls
    [UpdatePath] only on a trigger. *)
Lemma loop_step_timers (s s' : nhtLoop) (e : nhtEvent) (acts : list nhtAction) :
  loop_step s e = Some (s', acts) ->
  (count_if is_AfterFunc acts + Nat.b2n (isScheduled (loop_m s))
   <= Nat.b2n (is_trigger e) + Nat.b2n (isScheduled (loop_m s')))%nat
  /\ (count_if is_UpdatePath acts <= Nat.b2n (is_trigger e))%nat.
Proof.
  unfold loop_step. destruct (loop_running s); simpl.
  - destruct e as [| |paths|]; simpl.
    + intros H; inversion H; subst; simpl. unfold count_if; simpl. lia.
    + intros H; inversion H; subst; simpl. unfold count_if; simpl. lia.
    + destruct (appendPathList (loop_m s) paths) as [m|] eqn:Ha; simpl; [|discriminate].
      assert (Hs : isScheduled m = isScheduled (loop_m s)).
      { unfold appendPathList in Ha. destruct paths as [|[p|] rest]; simpl in Ha;
          inversion Ha; reflexivity. }
      destruct (isScheduled m) eqn:E; intros H; inversion H; subst s' acts;
        cbn [loop_m isScheduled set_isScheduled]; rewrite <- Hs, ?E;
        unfold count_if; simpl; lia.
    + intros H; inversion H; subst; simpl. unfold count_if; simpl.
      destruct (isScheduled (loop_m s)); simpl; lia.
  - intros H; inversion H; subst. unfold count_if; simpl. lia.
Qed.

(** X7: the loop never arms a second timer while one is pending: in every
    run, the timers armed, plus one if a timer was pending at the start,
    are at most the triggers received, plus one if a timer is pending at
    the end; and [UpdatePath] is called at most once per trigger. *)
Theorem timers_one_at_a_time (evs : list nhtEvent) :
  forall (s s' : nhtLoop) (acts : list nhtAction),
    loop_run s evs = Some (s', acts) ->
    (count_if is_AfterFunc acts + Nat.b2n (isScheduled (loop_m s))
     <= count_if is_trigger evs + Nat.b2n (isScheduled (loop_m s')))%nat
    /\ (count_if is_UpdatePath acts <= count_if is_trigger evs)%nat.
Proof.
  induction evs as [|e evs IH]; intros s s' acts Hr.
  - simpl in Hr. inversion Hr; subst. unfold count_if; simpl. lia.
  - cbn [loop_run] in Hr.
    destruct (loop_step s e) as [[s1 a1]|] eqn:Hs; simpl in Hr; [|discriminate].
    destruct (loop_run s1 evs) as [[s2 a2]|] eqn:Hr2; simpl in Hr; [|discriminate].
    inversion Hr; subst; clear Hr.
    destruct (loop_step_timers _ _ _ _ Hs) as [H1 H2].
    destruct (IH _ _ _ Hr2) as [H3 H4].
    rewrite !count_if_app, count_if_cons. lia.
Qed.

Lemma timers_one_at_a_time_witness :
  exists s' acts,
    loop_run (loop_init (newNexthopTrackingManager 1))
      [Ev_pathList batch1; Ev_pathList batch2; Ev_tick; Ev_pathList batch1; Ev_trigger;
       Ev_pathList batch2]
    = Some (s', acts)
    /\ count_if is_AfterFunc acts = 2%nat
    /\ count_if is_UpdatePath acts = 1%nat
    /\ (count_if is_AfterFunc acts
        + Nat.b2n (isScheduled (loop_m (loop_init (newNexthopTrackingManager 1))))
        <= count_if is_trigger
             [Ev_pathList batch1; Ev_pathList batch2; Ev_tick; Ev_pathList batch1;
              Ev_trigger; Ev_pathList batch2]
           + Nat.b2n (isScheduled (loop_m s')))%nat.
Proof.
  eexists. eexists. split; [vm_compute; reflexivity |].
  split; [reflexivity |]. split; [reflexivity |].
  exact (proj1 (timers_one_at_a_time
                  [Ev_pathList batch1; Ev_pathList batch2; Ev_tick; Ev_pathList batch1;
                   Ev_trigger; Ev_pathList batch2]
                  (loop_init (newNexthopTrackingManager 1)) _ _ eq_refl)).
Defined.

Lemma last_cons_default {A : Type} (l : list A) :
  forall a d : A, List.last (a :: l) d = List.last l a.
Proof.
  induction l as [|x l IH]; intros a d; [reflexivity |].
  change (List.last (a :: x :: l) d) with (List.last (x :: l) d).
  rewrite (IH x d), (IH x a). reflexivity.
Qed.

(** While a timer is pending, the batches for one nexthop replace one
    another under its key, and nothing is done to the outside. *)
Lemma loop_run_scheduled_batches (k : string) (bs : list pathList) :
  forall (c : gset string) (d : Z) (cur : pathList) (p : Z),
    Forall (λ b, batch_key b = Some k) bs ->
    exists p',
      loop_run (mkNhtLoop (mkNexthopTrackingManager c d true {[ k := cur ]}) p true)
        (Ev_pathList <$> bs)
      = Some (mkNhtLoop (mkNexthopTrackingManager c d true {[ k := List.last bs cur ]})
                p' true, []).
Proof.
  induction bs as [|b bs IH]; intros c d cur p HF.
  - exists p. reflexivity.
  - apply Forall_cons in HF as [Hb HF].
    destruct (IH c d b (int_add p 500) HF) as (p' & Hr).
    exists p'. rewrite (last_cons_default bs b cur).
    rewrite fmap_cons. cbn [loop_run]. unfold loop_step. simpl.
    rewrite (appendPathList_some _ b k Hb). simpl.
    unfold set_scheduledPathList. simpl.
    rewrite <- insert_empty, insert_insert_eq, insert_empty.
    rewrite Hr. reflexivity.
Qed.

(** X8: batches for one nexthop that arrive between the arming of a timer
    and its trigger are coalesced: the first one arms the only timer, with
    the delay of the penalty it has raised, and the trigger gives
    [UpdatePath] the last batch alone, clears the schedule and leaves the
    cache as it was. *)
Theorem batches_coalesce (s : nhtLoop) (b : pathList) (bs : list pathList) (k : string) :
  loop_running s = true ->
  isScheduled (loop_m s) = false ->
  scheduledPathList (loop_m s) = ∅ ->
  Forall (λ b', batch_key b' = Some k) (b :: bs) ->
  exists s',
    loop_run s (Ev_pathList b :: (Ev_pathList <$> bs) ++ [Ev_trigger])
    = Some (s', [AfterFunc (calculateDelay (loop_m s) (int_add (loop_penalty s) 500));
                 UpdatePath (List.last bs b)])
    /\ isScheduled (loop_m s') = false
    /\ scheduledPathList (loop_m s') = ∅
    /\ nexthopCache (loop_m s') = nexthopCache (loop_m s)
    /\ loop_running s' = true.
Proof.
  destruct s as [[c d sch sl] p r]. simpl. intros -> -> -> HF.
  apply Forall_cons in HF as [Hb HF].
  destruct (loop_run_scheduled_batches k bs c d b (int_add p 500) HF) as (p' & Hr).
  eexists. split.
  - cbn [loop_run]. unfold loop_step. simpl.
    rewrite (appendPathList_some _ b k Hb). simpl.
    unfold set_scheduledPathList, set_isScheduled. simpl. rewrite insert_empty.
    rewrite loop_run_app, Hr. simpl.
    rewrite map_to_list_singleton. simpl. rewrite app_nil_r. reflexivity.
  - simpl. repeat split.
Qed.

Lemma batches_coalesce_witness :
  Forall (λ b', batch_key b' = Some "192.0.2.1")
    [batch1; batch1 ++ batch2; batch1 ++ batch1]
  /\ exists s',
       loop_run (loop_init (newNexthopTrackingManager 1))
         [Ev_pathList batch1; Ev_pathList (batch1 ++ batch2);
          Ev_pathList (batch1 ++ batch1); Ev_trigger]
       = Some (s', [AfterFunc 1; UpdatePath (batch1 ++ batch1)])
       /\ isScheduled (loop_m s') = false.
Proof.
  assert (HF : Forall (λ b', batch_key b' = Some "192.0.2.1")
                 [batch1; batch1 ++ batch2; batch1 ++ batch1])
    by (repeat constructor).
  split; [exact HF |].
  destruct (batches_coalesce (loop_init (newNexthopTrackingManager 1)) batch1
              [batch1 ++ batch2; batch1 ++ batch1] "192.0.2.1" eq_refl eq_refl eq_refl HF)
    as (s' & Hr & Hs & _).
  exists s'. split; [exact Hr | exact Hs].
Defined.

(** ** Registering the nexthops of a batch *)

Lemma registerNexthop_fields (m : nexthopTrackingManager) (nexthop : IP) :
  delay (registerNexthop m nexthop).2 = delay m
  /\ isScheduled (registerNexthop m nexthop).2 = isScheduled m
  /\ scheduledPathList (registerNexthop m nexthop).2 = scheduledPathList m.
Proof.
  unfold registerNexthop.
  destruct (bool_decide (IP_String nexthop ∈ nexthopCache m)); simpl; auto.
Qed.

(** For an IPv4 or IPv6 family the loop writes an entry per path and
    adds the nexthops to the cache. *)
Lemma register_loop_supported (rf : RouteFamily) (paths : list Path) :
  is_IPv4_family rf || is_IPv6_family rf = true ->
  forall (m : nexthopTrackingManager) (acc : list RegisteredNexthop),
    (register_loop rf m paths acc).1 = acc ++ (registered_entry rf <$> paths)
    /\ nexthopCache (register_loop rf m paths acc).2 = nexthop_keys paths ∪ nexthopCache m
    /\ delay (register_loop rf m paths acc).2 = delay m
    /\ isScheduled (register_loop rf m paths acc).2 = isScheduled m
    /\ scheduledPathList (register_loop rf m paths acc).2 = scheduledPathList m.
Proof.
  intros Hrf. induction paths as [|p paths IH]; intros m acc.
  - simpl. rewrite app_nil_r. unfold nexthop_keys. simpl. repeat split. set_solver.
  - assert (Hstep : register_loop rf m (p :: paths) acc
                    = register_loop rf (registerNexthop m (GetNexthop p)).2 paths
                        (acc ++ [registered_entry rf p])).
    { unfold registered_entry, family_AF, family_conv. simpl.
      destruct (is_IPv4_family rf); [reflexivity |].
      simpl in Hrf. rewrite Hrf. reflexivity. }
    rewrite Hstep.
    destruct (IH (registerNexthop m (GetNexthop p)).2 (acc ++ [registered_entry rf p]))
      as (H1 & H2 & H3 & H4 & H5).
    destruct (registerNexthop_fields m (GetNexthop p)) as (F1 & F2 & F3).
    rewrite H1, H2, H3, H4, H5, registerNexthop_cache, F1, F2, F3.
    rewrite <- app_assoc. repeat split.
    unfold nexthop_keys. rewrite fmap_cons. simpl. set_solver.
Qed.

Lemma register_loop_unsupported (rf : RouteFamily) (paths : list Path) :
  is_IPv4_family rf = false -> is_IPv6_family rf = false ->
  forall (m : nexthopTrackingManager) (acc : list RegisteredNexthop),
    register_loop rf m paths acc = (acc, m).
Proof.
  intros H4 H6. induction paths as [|p paths IH]; intros m acc; simpl; [reflexivity |].
  rewrite H4, H6. apply IH.
Qed.

Lemma filterPathToRegister_kept (m : nexthopTrackingManager) (dst : pathList) :
  Forall (λ p, IsFromExternal p = false /\ IsWithdraw p = false
               /\ IsNexthopInvalid p = false
               /\ isRegisteredNexthop m (GetNexthop p) = false
               /\ IsUnspecified (GetNexthop p) = false
               /\ Some p ∈ dst)
    (filterPathToRegister m dst).
Proof.
  induction dst as [|[p|] dst IH]; simpl.
  - constructor.
  - assert (IH' : Forall (λ q, IsFromExternal q = false /\ IsWithdraw q = false
                               /\ IsNexthopInvalid q = false
                               /\ isRegisteredNexthop m (GetNexthop q) = false
                               /\ IsUnspecified (GetNexthop q) = false
                               /\ Some q ∈ Some p :: dst)
                   (filterPathToRegister m dst)).
    { eapply Forall_impl; [exact IH |]. simpl. intros q (A & B & C & D & E & F).
      repeat split; auto. right. exact F. }
    destruct (IsFromExternal p) eqn:E1; [exact IH' |].
    destruct (IsWithdraw p) eqn:E2; [exact IH' |].
    destruct (IsNexthopInvalid p) eqn:E3; [exact IH' |]. simpl.
    destruct (isRegisteredNexthop m (GetNexthop p)) eqn:E4; [exact IH' |].
    destruct (IsUnspecified (GetNexthop p)) eqn:E5; [exact IH' |]. simpl.
    constructor; [|exact IH']. repeat split; auto. left.
  - eapply Forall_impl; [exact IH |]. simpl. intros q (A & B & C & D & E & F).
    repeat split; auto. right. exact F.
Qed.

(** The two outcomes of [newNexthopRegisterBody] on a batch that keeps a
    path after the filter. *)
Lemma newNexthopRegisterBody_kept (dst : pathList) (m : nexthopTrackingManager)
    (path : Path) (rest : list Path) :
  filterPathToRegister m dst = path :: rest ->
  (is_IPv4_family (GetRouteFamily path) || is_IPv6_family (GetRouteFamily path) = true ->
   exists m',
     newNexthopRegisterBody dst (Some m)
     = (Some {| nr_Nexthops := registered_entry (GetRouteFamily path) <$> path :: rest |},
        false, Some m')
     /\ nexthopCache m' = nexthop_keys (path :: rest) ∪ nexthopCache m
     /\ scheduledPathList m' = scheduledPathList m
     /\ isScheduled m' = isScheduled m
     /\ delay m' = delay m)
  /\ (is_IPv4_family (GetRouteFamily path) || is_IPv6_family (GetRouteFamily path) = false ->
      newNexthopRegisterBody dst (Some m) = (None, false, Some m)).
Proof.
  intros Hf. pose proof (filterPathToRegister_kept m dst) as HF. rewrite Hf in HF.
  apply Forall_cons in HF as [(_ & Hw & _) _].
  unfold newNexthopRegisterBody. rewrite Hf, Hw. split.
  - intros Hrf.
    destruct (register_loop_supported (GetRouteFamily path) (path :: rest) Hrf m [])
      as (H1 & H2 & H3 & H4 & H5).
    destruct (register_loop (GetRouteFamily path) m (path :: rest) [])
      as [nexthops m'] eqn:Hl.
    simpl in H1, H2, H3, H4, H5. subst nexthops.
    exists m'. rewrite fmap_cons. simpl. repeat split; assumption.
  - intros Hrf. apply orb_false_iff in Hrf as [H4 H6].
    rewrite (register_loop_unsupported _ _ H4 H6). reflexivity.
Qed.

(** X9: for a batch that keeps a path after the filter, and whose first
    kept path is of an IPv4 or IPv6 family, [newNexthopRegisterBody]
    returns a body with one entry per kept path, in order, of the address
    family and in the address width of that first path, with is-withdraw
    false; the cache has grown by the nexthops of the kept paths. The kept
    paths are paths of the batch that are not from zebra, not withdrawn,
    whose nexthop is valid, specified and was not in the cache. For
    another family nothing is returned and nothing is registered. *)
Theorem newNexthopRegisterBody_entries (dst : pathList) (m : nexthopTrackingManager)
    (path : Path) (rest : list Path) :
  filterPathToRegister m dst = path :: rest ->
  Forall (λ p, IsFromExternal p = false /\ IsWithdraw p = false
               /\ IsNexthopInvalid p = false
               /\ isRegisteredNexthop m (GetNexthop p) = false
               /\ IsUnspecified (GetNexthop p) = false
               /\ Some p ∈ dst) (path :: rest)
  /\ (is_IPv4_family (GetRouteFamily path) || is_IPv6_family (GetRouteFamily path) = true ->
      exists m',
        newNexthopRegisterBody dst (Some m)
        = (Some {| nr_Nexthops := registered_entry (GetRouteFamily path) <$> path :: rest |},
           false, Some m')
        /\ nexthopCache m' = nexthop_keys (path :: rest) ∪ nexthopCache m
        /\ scheduledPathList m' = scheduledPathList m
        /\ isScheduled m' = isScheduled m
        /\ delay m' = delay m)
  /\ (is_IPv4_family (GetRouteFamily path) || is_IPv6_family (GetRouteFamily path) = false ->
      newNexthopRegisterBody dst (Some m) = (None, false, Some m)).
Proof.
  intros Hf. split.
  - pose proof (filterPathToRegister_kept m dst) as HF. rewrite Hf in HF. exact HF.
  - apply newNexthopRegisterBody_kept. exact Hf.
Qed.

Lemma newNexthopRegisterBody_entries_witness :
  filterPathToRegister (newNexthopTrackingManager 1) (batch1 ++ [None] ++ batch2)
  = [example_path [192; 0; 2; 1]; example_path [192; 0; 2; 2]]
  /\ exists m',
       newNexthopRegisterBody (batch1 ++ [None] ++ batch2)
         (Some (newNexthopTrackingManager 1))
       = (Some {| nr_Nexthops := [ {| rn_Family := 2; rn_Prefix := [192; 0; 2; 1] |};
                                   {| rn_Family := 2; rn_Prefix := [192; 0; 2; 2] |} ] |},
          false, Some m')
       /\ nexthopCache m' = {[ "192.0.2.1"; "192.0.2.2" ]}.
Proof.
  split; [reflexivity |].
  destruct (proj1 (proj2 (newNexthopRegisterBody_entries (batch1 ++ [None] ++ batch2)
                            (newNexthopTrackingManager 1)
                            (example_path [192; 0; 2; 1]) [example_path [192; 0; 2; 2]]
                            eq_refl)) eq_refl)
    as (m' & Hr & Hc & _).
  exists m'. split; [exact Hr |].
  rewrite Hc. unfold nexthop_keys. simpl. set_solver.
Defined.

Lemma filterPathToRegister_registered (m m' : nexthopTrackingManager) (dst : pathList) :
  nexthopCache m ⊆ nexthopCache m' ->
  (forall p, p ∈ filterPathToRegister m dst -> IP_String (GetNexthop p) ∈ nexthopCache m') ->
  filterPathToRegister m' dst = [].
Proof.
  intros Hsub. induction dst as [|[p|] dst IH]; simpl; intros Hk; auto.
  destruct (IsFromExternal p); [auto |].
  destruct (IsWithdraw p || IsNexthopInvalid p); [auto |].
  destruct (isRegisteredNexthop m (GetNexthop p)) eqn:E4.
  - apply isRegisteredNexthop_spec in E4.
    rewrite (proj2 (isRegisteredNexthop_spec m' (GetNexthop p)) (Hsub _ E4)).
    simpl in *. auto.
  - simpl in *. destruct (IsUnspecified (GetNexthop p)).
    + rewrite orb_true_r. auto.
    + rewrite (proj2 (isRegisteredNexthop_spec m' (GetNexthop p)) (Hk p ltac:(left))).
      simpl. apply IH. intros q Hq. apply Hk. right. exact Hq.
Qed.

(** X10: a nexthop is registered once: when [newNexthopRegisterBody]
    has returned a body for a batch, the same batch given again, with the
    manager as the first call left it, yields no body, with is-withdraw
    false, and leaves the manager as it is. *)
Theorem newNexthopRegisterBody_once (dst : pathList) (m m' : nexthopTrackingManager)
    (body : NexthopRegisterBody) (w : bool) :
  newNexthopRegisterBody dst (Some m) = (Some body, w, Some m') ->
  newNexthopRegisterBody dst (Some m') = (None, false, Some m').
Proof.
  intros H.
  destruct (filterPathToRegister m dst) as [|path rest] eqn:Hf.
  { unfold newNexthopRegisterBody in H. rewrite Hf in H. discriminate. }
  destruct (newNexthopRegisterBody_kept dst m path rest Hf) as [Hyes Hno].
  destruct (is_IPv4_family (GetRouteFamily path) || is_IPv6_family (GetRouteFamily path));
    [|rewrite (Hno eq_refl) in H; discriminate].
  destruct (Hyes eq_refl) as (m'' & Hr & Hc & _). rewrite Hr in H.
  inversion H; subst m''. clear H Hr.
  assert (Hnil : filterPathToRegister m' dst = []).
  { apply (filterPathToRegister_registered m m').
    - rewrite Hc. set_solver.
    - intros p Hp. rewrite Hf in Hp. rewrite Hc. unfold nexthop_keys.
      apply elem_of_union_l, elem_of_list_to_set, list_elem_of_fmap. eauto. }
  unfold newNexthopRegisterBody. rewrite Hnil. reflexivity.
Qed.

Lemma newNexthopRegisterBody_once_witness :
  exists body m',
    newNexthopRegisterBody batch1 (Some (newNexthopTrackingManager 1))
    = (Some body, false, Some m')
    /\ newNexthopRegisterBody batch1 (Some m') = (None, false, Some m').
Proof.
  eexists. eexists. split; [exact newNexthopRegisterBody_registers |].
  exact (newNexthopRegisterBody_once batch1 (newNexthopTrackingManager 1) _ _ false
           newNexthopRegisterBody_registers).
Defined.

(** ** The fields of a route message *)

Lemma parseUint_loop_range (maxVal : Z) (s : string) :
  forall n : Z,
    0 <= n <= maxVal ->
    0 <= (parseUint_loop maxVal n s).1 <= maxVal.
Proof.
  induction s as [|c s IH]; intros n Hn; simpl; [exact Hn |].
  destruct (is_digit c) eqn:Ed; simpl; [|lia].
  destruct ((2 ^ 64 - 1) / 10 + 1 <=? n); simpl; [lia |].
  destruct (Z.leb_spec (2 ^ 64) (n * 10 + digit_val c)); simpl; [lia |].
  destruct (Z.ltb_spec maxVal (n * 10 + digit_val c)); simpl; [lia |].
  apply IH. split; [|lia].
  unfold is_digit in Ed. apply andb_true_iff in Ed as [Ed _].
  apply Z.leb_le in Ed. unfold digit_val. lia.
Qed.

(** What [ParseUint] returns for 8 bits fits 8 bits, error or not. *)
Lemma ParseUint10_8_range (s : string) : 0 <= (ParseUint10 s 8).1 <= 255.
Proof.
  unfold ParseUint10. destruct s as [|c s]; simpl fst; [lia |].
  apply (parseUint_loop_range (2 ^ 8 - 1) (String c s) 0). lia.
Qed.

Lemma flag_or_reject_twice (f : FLAG) :
  flag_or (flag_or f FLAG_REJECT) FLAG_REJECT = flag_or f FLAG_REJECT.
Proof. destruct f as [[|] [|] [|]]; reflexivity. Qed.

(** The loop over the communities sets the reject flag exactly when the
    backup-region community is among them. *)
Lemma community_flags_reject (cs : list Community) :
  forall f : FLAG,
    community_flags f cs
    = if bool_decide (COMMUNITY_REGION_BACKUP ∈ cs) then flag_or f FLAG_REJECT else f.
Proof.
  induction cs as [|c cs IH]; intros f; cbn [community_flags].
  - rewrite bool_decide_eq_false_2 by (apply not_elem_of_nil). reflexivity.
  - rewrite IH. destruct (decide (c = COMMUNITY_REGION_BACKUP)) as [-> | Hne].
    + rewrite (bool_decide_eq_true_2 (COMMUNITY_REGION_BACKUP = COMMUNITY_REGION_BACKUP))
        by reflexivity.
      rewrite (bool_decide_eq_true_2 (COMMUNITY_REGION_BACKUP ∈ COMMUNITY_REGION_BACKUP :: cs))
        by (left).
      destruct (bool_decide (COMMUNITY_REGION_BACKUP ∈ cs));
        [apply flag_or_reject_twice | reflexivity].
    + rewrite (bool_decide_eq_false_2 (c = COMMUNITY_REGION_BACKUP)) by exact Hne.
      destruct (decide (COMMUNITY_REGION_BACKUP ∈ cs)) as [Hin | Hin].
      * rewrite (bool_decide_eq_true_2 _ Hin).
        rewrite bool_decide_eq_true_2 by (right; exact Hin). reflexivity.
      * rewrite (bool_decide_eq_false_2 _ Hin).
        rewrite bool_decide_eq_false_2; [reflexivity |].
        intros H. apply elem_of_cons in H as [H | H]; [congruence | contradiction].
Qed.

(** Every field of the message [newIPRouteBody_assemble] returns. *)
Lemma newIPRouteBody_assemble_fields (path : Path) (l : list string) (prefix : IP)
    (nexthops : list IP) (body : IPRouteBody) (w : bool) :
  newIPRouteBody_assemble path l prefix nexthops = Some (Some body, w) ->
  exists (l1 : string) (info : PeerInfo),
    l !! 1%nat = Some l1
    /\ GetSource path = Some info
    /\ ((ParseUint10 l1 8).1 =? 0) && (PathLocalIdentifier (GetNlri path) =? 0) = false
    /\ Type_ body = ROUTE_BGP
    /\ SAFI body = SAFI_UNICAST
    /\ PrefixLength body = uint8 (ParseUint10 l1 8).1
    /\ Flags body
       = community_flags
           (if AS info =? LocalAS info then flag_or FLAG_IBGP FLAG_INTERNAL
            else if 0 <? MultihopTtl info then FLAG_INTERNAL
            else FLAG_none) (GetCommunities path)
    /\ Metric body = (GetMed path).1
    /\ has_metric (Message_ body) = negb (GetMed path).2
    /\ has_aspath (Message_ body)
       = (0 <? GetAsPathLen path)
         && match GetAsPath path with
            | Some serialized => bool_decide (3 < length serialized)%nat
            | None => false
            end
    /\ Aux body
       = (if 0 <? GetAsPathLen path then
            match GetAsPath path with
            | Some serialized =>
                if bool_decide (3 < length serialized)%nat then drop 3 serialized
                else serialized
            | None => []
            end
          else [])
    /\ has_path_id (Message_ body) = ((ParseUint10 l1 8).1 =? 0)
    /\ PathId body
       = (if (ParseUint10 l1 8).1 =? 0 then PathLocalIdentifier (GetNlri path) else 0).
Proof.
  unfold newIPRouteBody_assemble.
  destruct (l !! 1%nat) as [l1|]; simpl; [|discriminate].
  destruct (GetMed path) as [med err].
  destruct (GetSource path) as [info|]; simpl; [|discriminate].
  set (flags := community_flags _ _).
  intros H. exists l1, info. split; [reflexivity |]. split; [reflexivity |].
  destruct (bool_decide (0 < length nexthops)%nat), err,
    (0 <? GetAsPathLen path), (GetAsPath path) as [ser|];
    try destruct (bool_decide (3 < length ser)%nat);
    destruct ((ParseUint10 l1 8).1 =? 0);
    destruct (PathLocalIdentifier (GetNlri path) =? 0);
    simpl in H; try discriminate H;
    inversion H; subst; simpl; repeat split.
Qed.

Lemma type_assert_typed (T : NlriType) (n n' : AddrPrefix) :
  T <> OtherAddrPrefix (nlri_RouteFamily n) ->
  type_assert T n = Some n' -> n' = n /\ nlri_typed n = true.
Proof.
  unfold type_assert, nlri_typed, nlri_RouteFamily.
  case_bool_decide as E; [|discriminate].
  intros HT H. inversion H; subst. split; [reflexivity |].
  destruct (nlri_type n'); try reflexivity. contradiction.
Qed.

Lemma type_assert_untyped (T : NlriType) (n : AddrPrefix) :
  nlri_typed n = false ->
  (forall rf, T <> OtherAddrPrefix rf) ->
  type_assert T n = None.
Proof.
  unfold type_assert, nlri_typed. intros Hn HT.
  destruct (nlri_type n) as [| | | |rf] eqn:E; try discriminate.
  rewrite bool_decide_eq_false_2; [reflexivity |].
  intros HE. exact (HT rf (eq_sym HE)).
Qed.

(** What [newIPRouteBody] reads in the batch for the message it returns. *)
Lemma newIPRouteBody_fields (dst : pathList) (selfRouteWithdraw : bool)
    (body : IPRouteBody) (w : bool) :
  newIPRouteBody dst selfRouteWithdraw = Some (Some body, w) ->
  exists (path : Path) (rest : list Path) (info : PeerInfo) (plen : Z),
    filterOutExternalPath dst = path :: rest
    /\ GetSource path = Some info
    /\ route_plen path = Some plen
    /\ nlri_typed (GetNlri path) = true
    /\ is_IPv4_family (GetRouteFamily path) || is_IPv6_family (GetRouteFamily path) = true
    /\ Prefix body = family_conv (GetRouteFamily path) (nlri_Prefix (GetNlri path))
    /\ (plen =? 0) && (PathLocalIdentifier (GetNlri path) =? 0) = false
    /\ Type_ body = ROUTE_BGP
    /\ SAFI body = SAFI_UNICAST
    /\ PrefixLength body = uint8 plen
    /\ Flags body
       = community_flags
           (if AS info =? LocalAS info then flag_or FLAG_IBGP FLAG_INTERNAL
            else if 0 <? MultihopTtl info then FLAG_INTERNAL
            else FLAG_none) (GetCommunities path)
    /\ Metric body = (GetMed path).1
    /\ has_metric (Message_ body) = negb (GetMed path).2
    /\ has_aspath (Message_ body)
       = (0 <? GetAsPathLen path)
         && match GetAsPath path with
            | Some serialized => bool_decide (3 < length serialized)%nat
            | None => false
            end
    /\ Aux body
       = (if 0 <? GetAsPathLen path then
            match GetAsPath path with
            | Some serialized =>
                if bool_decide (3 < length serialized)%nat then drop 3 serialized
                else serialized
            | None => []
            end
          else [])
    /\ has_path_id (Message_ body) = (plen =? 0)
    /\ PathId body = (if plen =? 0 then PathLocalIdentifier (GetNlri path) else 0).
Proof.
  unfold newIPRouteBody.
  destruct (filterOutExternalPath dst) as [|path rest]; [discriminate |].
  fold (is_IPv4_family (GetRouteFamily path)). fold (is_IPv6_family (GetRouteFamily path)).
  intros H. exists path, rest.
  assert (Hcase : exists nlri prefix nexthops,
             (if bool_decide (GetRouteFamily path = RF_IPv4_UC)
              then type_assert IPAddrPrefix (GetNlri path)
              else if is_IPv4_family (GetRouteFamily path)
                   then type_assert LabeledVPNIPAddrPrefix (GetNlri path)
                   else if bool_decide (GetRouteFamily path = RF_IPv6_UC)
                        then type_assert IPv6AddrPrefix (GetNlri path)
                        else type_assert LabeledVPNIPv6AddrPrefix (GetNlri path))
             = Some nlri
             /\ is_IPv4_family (GetRouteFamily path) || is_IPv6_family (GetRouteFamily path)
                = true
             /\ prefix = family_conv (GetRouteFamily path) (nlri_Prefix nlri)
             /\ newIPRouteBody_assemble path
                  (SplitN (nlri_String (GetNlri path)) "/" 2) prefix nexthops
                = Some (Some body, w)).
  { unfold family_conv.
    destruct (is_IPv4_family (GetRouteFamily path)) eqn:E4.
    - match type of H with (?a ≫= _) = _ => destruct a as [nlri|] eqn:Ea end;
        simpl in H; [|discriminate].
      eexists nlri, _, _. split; [|split; [reflexivity | split; [reflexivity | exact H]]].
      try destruct (bool_decide (GetRouteFamily path = RF_IPv4_UC));
        first [reflexivity | exact Ea].
    - destruct (is_IPv6_family (GetRouteFamily path)) eqn:E6; [|discriminate].
      match type of H with (?a ≫= _) = _ => destruct a as [nlri|] eqn:Ea end;
        simpl in H; [|discriminate].
      eexists nlri, _, _. split; [|split; [reflexivity | split; [reflexivity | exact H]]].
      assert (E4' : bool_decide (GetRouteFamily path = RF_IPv4_UC) = false).
      { unfold is_IPv4_family in E4. apply orb_false_iff in E4 as [E4 _]. exact E4. }
      rewrite E4'. first [reflexivity | exact Ea]. }
  destruct Hcase as (nlri & prefix & nexthops & Ha & Hrf & Hp & Has).
  assert (Hn : nlri = GetNlri path /\ nlri_typed (GetNlri path) = true).
  { unfold GetRouteFamily, GetNlri in *.
    destruct (bool_decide (nlri_RouteFamily (path_nlri path) = RF_IPv4_UC));
      [|destruct (is_IPv4_family (nlri_RouteFamily (path_nlri path)));
        [|destruct (bool_decide (nlri_RouteFamily (path_nlri path) = RF_IPv6_UC))]];
      (eapply type_assert_typed; [|exact Ha]); discriminate. }
  destruct Hn as [-> Ht].
  destruct (newIPRouteBody_assemble_inv _ _ _ _ _ _ Has) as (_ & Hpre & _ & _).
  destruct (newIPRouteBody_assemble_fields _ _ _ _ _ _ Has)
    as (l1 & info & Hl & Hs & Hd & F).
  exists info, (ParseUint10 l1 8).1.
  split; [reflexivity |]. split; [exact Hs |].
  split; [unfold route_plen; rewrite Hl; reflexivity |].
  split; [exact Ht |]. split; [exact Hrf |].
  split; [rewrite Hpre; exact Hp |]. split; [exact Hd |]. exact F.
Qed.

(** X11: the route flags of a message returned by [newIPRouteBody] are
    read in the source and in the communities of the representative: iBGP
    is set exactly when its AS is the local AS, internal when that holds or
    the multihop TTL is positive, reject exactly when the backup-region
    community is among its communities. *)
Theorem newIPRouteBody_route_flags (dst : pathList) (selfRouteWithdraw : bool)
    (body : IPRouteBody) (w : bool) :
  newIPRouteBody dst selfRouteWithdraw = Some (Some body, w) ->
  exists (path : Path) (rest : list Path) (info : PeerInfo),
    filterOutExternalPath dst = path :: rest
    /\ GetSource path = Some info
    /\ flag_ibgp (Flags body) = (AS info =? LocalAS info)
    /\ flag_internal (Flags body) = (AS info =? LocalAS info) || (0 <? MultihopTtl info)
    /\ flag_reject (Flags body)
       = bool_decide (COMMUNITY_REGION_BACKUP ∈ GetCommunities path).
Proof.
  intros H.
  destruct (newIPRouteBody_fields _ _ _ _ H)
    as (path & rest & info & plen & Hf & Hs & _ & _ & _ & _ & _ & _ & _ & _ & HF & _).
  exists path, rest, info. split; [exact Hf |]. split; [exact Hs |].
  rewrite HF, community_flags_reject.
  destruct (AS info =? LocalAS info), (0 <? MultihopTtl info),
    (bool_decide (COMMUNITY_REGION_BACKUP ∈ GetCommunities path)); repeat split.
Qed.

Lemma newIPRouteBody_route_flags_witness :
  exists body,
    newIPRouteBody [Some example_ibgp_path] false = Some (Some body, false)
    /\ flag_ibgp (Flags body) = true
    /\ flag_internal (Flags body) = true
    /\ flag_reject (Flags body) = true.
Proof.
  assert (H : exists body,
             newIPRouteBody [Some example_ibgp_path] false = Some (Some body, false))
    by (eexists; reflexivity).
  destruct H as [body H]. exists body. split; [exact H |].
  destruct (newIPRouteBody_route_flags _ _ _ _ H)
    as (path & rest & info & Hf & Hs & H1 & H2 & H3).
  inversion Hf; subst path rest. inversion Hs; subst info.
  rewrite H1, H2, H3. repeat split.
Defined.

Lemma route_plen_range (path : Path) (plen : Z) :
  route_plen path = Some plen -> 0 <= plen <= 255.
Proof.
  unfold route_plen.
  destruct (SplitN (nlri_String (GetNlri path)) "/" 2 !! 1%nat) as [l1|];
    simpl; [|discriminate].
  intros H. inversion H; subst. apply ParseUint10_8_range.
Qed.

(** X12: in a message returned by [newIPRouteBody] the prefix length is
    the number read after the "/" in the text of the NLRI of the
    representative, which is between 0 and 255 (no truncation by the
    conversion to uint8 occurs); the prefix is that of the NLRI converted
    to the width of the family; the path identifier is carried, and its
    flag set, exactly for a default route (length 0), where it is the
    path-local identifier of the NLRI and is not 0. *)
Theorem newIPRouteBody_prefix (dst : pathList) (selfRouteWithdraw : bool)
    (body : IPRouteBody) (w : bool) :
  newIPRouteBody dst selfRouteWithdraw = Some (Some body, w) ->
  exists (path : Path) (rest : list Path) (plen : Z),
    filterOutExternalPath dst = path :: rest
    /\ route_plen path = Some plen
    /\ 0 <= plen <= 255
    /\ PrefixLength body = plen
    /\ Prefix body = family_conv (GetRouteFamily path) (nlri_Prefix (GetNlri path))
    /\ Type_ body = ROUTE_BGP
    /\ SAFI body = SAFI_UNICAST
    /\ has_path_id (Message_ body) = (plen =? 0)
    /\ (plen = 0 ->
        PathId body = PathLocalIdentifier (GetNlri path) /\ PathId body <> 0)
    /\ (plen <> 0 -> PathId body = 0).
Proof.
  intros H.
  destruct (newIPRouteBody_fields _ _ _ _ H)
    as (path & rest & info & plen & Hf & _ & Hp & _ & _ & Hpre & Hd & HT & HS & HL
        & _ & _ & _ & _ & _ & Hpi & HI).
  exists path, rest, plen.
  pose proof (route_plen_range _ _ Hp) as Hr.
  split; [exact Hf |]. split; [exact Hp |]. split; [exact Hr |].
  split; [rewrite HL; unfold uint8; apply Z.mod_small; lia |].
  split; [exact Hpre |]. split; [exact HT |]. split; [exact HS |].
  split; [exact Hpi |].
  split.
  - intros ->. simpl in HI, Hd. split; [exact HI |].
    rewrite HI. apply Z.eqb_neq. exact Hd.
  - intros Hne. apply Z.eqb_neq in Hne. rewrite Hne in HI. exact HI.
Qed.

Lemma newIPRouteBody_prefix_witness :
  exists body,
    newIPRouteBody [Some example_ibgp_path] false = Some (Some body, false)
    /\ PrefixLength body = 24
    /\ Prefix body = [10; 0; 0; 0]
    /\ has_path_id (Message_ body) = false
    /\ PathId body = 0.
Proof.
  assert (H : exists body,
             newIPRouteBody [Some example_ibgp_path] false = Some (Some body, false))
    by (eexists; reflexivity).
  destruct H as [body H]. exists body. split; [exact H |].
  destruct (newIPRouteBody_prefix _ _ _ _ H)
    as (path & rest & plen & Hf & Hp & _ & HL & Hpre & _ & _ & Hpi & _ & H0).
  assert (Hpath : example_ibgp_path = path) by (injection Hf; auto).
  subst path.
  assert (Hplen : plen = 24) by (vm_compute in Hp; congruence).
  rewrite Hplen in HL, Hpi, H0.
  split; [exact HL |]. split; [exact Hpre |]. split; [exact Hpi |].
  apply H0. discriminate.
Defined.

(** X13: in a message returned by [newIPRouteBody] the metric is the MED of
    the representative and its flag is set exactly when the path has a MED;
    the AS-path flag is set exactly when the path has a positive AS-path
    length and an AS-path attribute whose serialization is longer than 3
    bytes, and then the auxiliary bytes are the serialization less its
    first 3 bytes; a serialization of at most 3 bytes is passed whole with
    the flag unset, and without AS path there are no auxiliary bytes. *)
Theorem newIPRouteBody_metric_aspath (dst : pathList) (selfRouteWithdraw : bool)
    (body : IPRouteBody) (w : bool) :
  newIPRouteBody dst selfRouteWithdraw = Some (Some body, w) ->
  exists (path : Path) (rest : list Path),
    filterOutExternalPath dst = path :: rest
    /\ Metric body = default 0 (path_med path)
    /\ has_metric (Message_ body) = bool_decide (is_Some (path_med path))
    /\ (has_aspath (Message_ body) = true <->
        0 < GetAsPathLen path
        /\ exists serialized,
             GetAsPath path = Some serialized /\ (3 < length serialized)%nat)
    /\ (forall serialized,
          0 < GetAsPathLen path -> GetAsPath path = Some serialized ->
          Aux body = if bool_decide (3 < length serialized)%nat
                     then drop 3 serialized else serialized)
    /\ (GetAsPathLen path <= 0 \/ GetAsPath path = None -> Aux body = []).
Proof.
  intros H.
  destruct (newIPRouteBody_fields _ _ _ _ H)
    as (path & rest & info & plen & Hf & _ & _ & _ & _ & _ & _ & _ & _ & _
        & _ & HM & Hm & Ha & HA & _).
  exists path, rest. split; [exact Hf |].
  unfold GetMed in HM, Hm.
  split; [destruct (path_med path); exact HM |].
  split.
  { rewrite Hm. destruct (path_med path) as [z|]; reflexivity. }
  split.
  { rewrite Ha. split.
    - intros Hb. apply andb_true_iff in Hb as [H1 H2].
      apply Z.ltb_lt in H1. split; [exact H1 |].
      destruct (GetAsPath path) as [ser|]; [|discriminate].
      exists ser. split; [reflexivity |]. apply bool_decide_eq_true_1 in H2. exact H2.
    - intros (H1 & ser & H2 & H3). apply Z.ltb_lt in H1. rewrite H1, H2. simpl.
      apply bool_decide_eq_true_2. exact H3. }
  split.
  { intros ser H1 H2. apply Z.ltb_lt in H1. rewrite H1, H2 in HA. exact HA. }
  intros [H1 | H1].
  - apply Z.ltb_ge in H1. rewrite H1 in HA. exact HA.
  - rewrite H1 in HA. destruct (0 <? GetAsPathLen path); exact HA.
Qed.

Lemma newIPRouteBody_metric_aspath_witness :
  exists body,
    newIPRouteBody [Some example_ibgp_path] false = Some (Some body, false)
    /\ Metric body = 50
    /\ has_metric (Message_ body) = true
    /\ has_aspath (Message_ body) = true
    /\ Aux body = [2; 1; 0; 0; 253; 233].
Proof.
  assert (H : exists body,
             newIPRouteBody [Some example_ibgp_path] false = Some (Some body, false))
    by (eexists; reflexivity).
  destruct H as [body H]. exists body. split; [exact H |].
  destruct (newIPRouteBody_metric_aspath _ _ _ _ H)
    as (path & rest & Hf & HM & Hm & Ha & HA & _).
  inversion Hf; subst path rest.
  split; [exact HM |]. split; [exact Hm |].
  split.
  - apply Ha. split; [reflexivity |]. eexists. split; [reflexivity |]. simpl. lia.
  - exact (HA _ eq_refl eq_refl).
Defined.

Lemma filterOutExternalPath_nil (dst : pathList) :
  filterOutExternalPath dst = []
  <-> forall p, Some p ∈ dst -> IsFromExternal p = true.
Proof.
  induction dst as [|[p|] dst IH]; simpl.
  - split; [intros _ p Hp; inversion Hp | reflexivity].
  - destruct (IsFromExternal p) eqn:E.
    + rewrite IH. split.
      * intros Hd q Hq. apply elem_of_cons in Hq as [Hq | Hq];
          [inversion Hq; subst; exact E | exact (Hd q Hq)].
      * intros Hd q Hq. apply Hd. apply elem_of_cons. right. exact Hq.
    + split; [discriminate |]. intros Hd.
      rewrite (Hd p) in E; [discriminate | apply elem_of_cons; left; reflexivity].
  - rewrite IH. split.
    + intros Hd q Hq. apply elem_of_cons in Hq as [Hq | Hq];
        [discriminate | exact (Hd q Hq)].
    + intros Hd q Hq. apply Hd. apply elem_of_cons. right. exact Hq.
Qed.

(** X14: [newIPRouteBody] returns no message, and no withdraw mark, for a
    batch all of whose paths are nil or from zebra itself, and for a batch
    whose representative (the first path that is neither) is of a family
    other than IPv4/IPv6 unicast and VPN, whatever the other paths are. *)
Theorem newIPRouteBody_no_message (dst : pathList) (selfRouteWithdraw : bool) :
  ((forall p, Some p ∈ dst -> IsFromExternal p = true) ->
   newIPRouteBody dst selfRouteWithdraw = Some (None, false))
  /\ (forall path rest,
        filterOutExternalPath dst = path :: rest ->
        is_IPv4_family (GetRouteFamily path) || is_IPv6_family (GetRouteFamily path)
        = false ->
        newIPRouteBody dst selfRouteWithdraw = Some (None, false)).
Proof.
  split.
  - intros Hd. apply filterOutExternalPath_nil in Hd.
    unfold newIPRouteBody. rewrite Hd. reflexivity.
  - intros path rest Hf Hrf. apply orb_false_iff in Hrf as [H4 H6].
    unfold newIPRouteBody. rewrite Hf.
    fold (is_IPv4_family (GetRouteFamily path)).
    fold (is_IPv6_family (GetRouteFamily path)).
    rewrite H4, H6. reflexivity.
Qed.

Lemma newIPRouteBody_no_message_witness :
  newIPRouteBody [None; Some (SetIsFromExternal true (example_path [192; 0; 2; 1]))] false
  = Some (None, false)
  /\ newIPRouteBody [None; Some example_evpn_path; Some (example_path [192; 0; 2; 1])] false
     = Some (None, false).
Proof.
  split.
  - apply (proj1 (newIPRouteBody_no_message _ false)).
    intros p Hp. apply elem_of_cons in Hp as [Hp | Hp]; [discriminate |].
    apply list_elem_of_singleton in Hp. inversion Hp; subst. reflexivity.
  - exact (proj2 (newIPRouteBody_no_message
                    [None; Some example_evpn_path; Some (example_path [192; 0; 2; 1])]
                    false)
             example_evpn_path [example_path [192; 0; 2; 1]] eq_refl eq_refl).
Defined.

Lemma newIPRouteBody_assemble_none (path : Path) (l : list string) (prefix : IP)
    (nexthops : list IP) :
  newIPRouteBody_assemble path l prefix nexthops = None
  <-> l !! 1%nat = None \/ GetSource path = None.
Proof.
  unfold newIPRouteBody_assemble.
  destruct (l !! 1%nat) as [l1|]; simpl; [|split; [left; reflexivity | reflexivity]].
  destruct (GetMed path) as [med err].
  destruct (GetSource path) as [info|]; simpl;
    [|split; [right; reflexivity | reflexivity]].
  split; [|intros [Hc | Hc]; discriminate].
  destruct (0 <? GetAsPathLen path);
    [destruct (GetAsPath path) as [ser|];
     [destruct (bool_decide (3 < length ser)%nat) |] |];
    destruct (((ParseUint10 l1 8).1 =? 0)
              && ((if (ParseUint10 l1 8).1 =? 0
                   then PathLocalIdentifier (GetNlri path) else 0) =? 0));
    discriminate.
Qed.

Lemma route_plen_none (path : Path) :
  route_plen path = None
  <-> SplitN (nlri_String (GetNlri path)) "/" 2 !! 1%nat = None.
Proof.
  unfold route_plen.
  destruct (SplitN (nlri_String (GetNlri path)) "/" 2 !! 1%nat); simpl;
    split; intros H; first [discriminate | reflexivity].
Qed.

Lemma type_assert_supported (path : Path) :
  is_IPv4_family (GetRouteFamily path) || is_IPv6_family (GetRouteFamily path) = true ->
  (if is_IPv4_family (GetRouteFamily path)
   then if bool_decide (GetRouteFamily path = RF_IPv4_UC)
        then type_assert IPAddrPrefix (GetNlri path)
        else type_assert LabeledVPNIPAddrPrefix (GetNlri path)
   else if bool_decide (GetRouteFamily path = RF_IPv6_UC)
        then type_assert IPv6AddrPrefix (GetNlri path)
        else type_assert LabeledVPNIPv6AddrPrefix (GetNlri path))
  = if nlri_typed (GetNlri path) then Some (GetNlri path) else None.
Proof.
  intros Hrf.
  destruct (nlri_typed (GetNlri path)) eqn:Ht.
  - destruct (is_IPv4_family (GetRouteFamily path)) eqn:E4.
    + apply type_assert_IPv4; assumption.
    + apply type_assert_IPv6; assumption.
  - repeat match goal with |- context [if ?b then _ else _] => destruct b end;
      apply type_assert_untyped; (assumption || discriminate).
Qed.

(** X15: [newIPRouteBody] panics exactly when the batch has a
    representative (a first path that is neither nil nor from zebra) of
    one of the four families IPv4/IPv6 unicast and VPN, and the NLRI of the
    representative is not of the prefix type of that family (the type
    assertion fails), or its text has no "/" (the index [l[1]] is out of
    range), or the path has no source peer (nil dereference). In every
    other case it returns. *)
Theorem newIPRouteBody_panics (dst : pathList) (selfRouteWithdraw : bool) :
  newIPRouteBody dst selfRouteWithdraw = None
  <-> exists (path : Path) (rest : list Path),
        filterOutExternalPath dst = path :: rest
        /\ is_IPv4_family (GetRouteFamily path) || is_IPv6_family (GetRouteFamily path)
           = true
        /\ (nlri_typed (GetNlri path) = false
            \/ route_plen path = None
            \/ GetSource path = None).
Proof.
  unfold newIPRouteBody.
  destruct (filterOutExternalPath dst) as [|path rest] eqn:Hf.
  { split; [discriminate | intros (p & r & H & _); discriminate]. }
  fold (is_IPv4_family (GetRouteFamily path)). fold (is_IPv6_family (GetRouteFamily path)).
  pose proof (type_assert_supported path) as Hta.
  pose proof (route_plen_none path) as Hpl.
  destruct (is_IPv4_family (GetRouteFamily path)) eqn:E4;
    [|destruct (is_IPv6_family (GetRouteFamily path)) eqn:E6];
    cbn [mbind option_bind orb] in Hta |- *.
  3:{ split; [discriminate |]. intros (p & r & H & Hrf & _).
      inversion H; subst p r. rewrite E4, E6 in Hrf. discriminate. }
  all: rewrite (Hta eq_refl); clear Hta.
  all: destruct (nlri_typed (GetNlri path)) eqn:Ht; cbn [mbind option_bind].
  all: assert (Hrf : is_IPv4_family (GetRouteFamily path)
                     || is_IPv6_family (GetRouteFamily path) = true)
         by (rewrite ?E4, ?E6; reflexivity).
  all: try rewrite newIPRouteBody_assemble_none, <- Hpl.
  all: split;
    [ intros Hc; exists path, rest; split; [reflexivity |];
      split; [exact Hrf |]; first [right; exact Hc | left; exact Ht]
    | intros (p & r & H & _ & Hc);
      inversion H; subst p r; try reflexivity;
      (destruct Hc as [Hc | Hc]; [rewrite Ht in Hc; discriminate | exact Hc]) ].
Qed.

Lemma newIPRouteBody_panics_witness :
  newIPRouteBody [Some example_sourceless_path] false = None
  /\ newIPRouteBody [Some example_slashless_path] true = None.
Proof.
  split.
  - apply (proj2 (newIPRouteBody_panics _ false)).
    exists example_sourceless_path, []. split; [reflexivity |].
    split; [reflexivity |]. right. right. reflexivity.
  - apply (proj2 (newIPRouteBody_panics _ true)).
    exists example_slashless_path, []. split; [reflexivity |].
    split; [reflexivity |]. right. left. reflexivity.
Defined.

(** ** Nexthop updates and the cache *)

(** X16: [createPathListFromNexthopUpdateMessage] takes the nexthop of the
    update out of the cache, and returns the body that unregisters it,
    exactly when no path of the view is bound to the nexthop; this is
    always so for an update of an address family other than IPv4 and IPv6.
    With a path bound there is no such body and the manager is left as it
    is. With a nil manager the function panics exactly when no path is
    bound. *)
Theorem nexthop_update_unregisters (body : NexthopUpdateBody) (manager : TableManager)
    (m : nexthopTrackingManager) :
  (bound_paths body manager = [] ->
   createPathListFromNexthopUpdateMessage body manager (Some m)
   = Some ([], Some (unregister_body body), None,
           Some (unregisterNexthop m (nu_Prefix body))))
  /\ (bound_paths body manager <> [] ->
      exists paths,
        createPathListFromNexthopUpdateMessage body manager (Some m)
        = Some (paths, None, None, Some m)
        /\ length paths = length (bound_paths body manager))
  /\ (nu_Family body <> AF_INET -> nu_Family body <> AF_INET6 ->
      bound_paths body manager = [])
  /\ (createPathListFromNexthopUpdateMessage body manager None = None
      <-> bound_paths body manager = []).
Proof.
  unfold bound_paths, createPathListFromNexthopUpdateMessage, unregister_body.
  split; [|split; [|split]].
  - intros ->. reflexivity.
  - destruct (GetPathListWithNexthop _ _ _) as [|p l]; [intros H; contradiction |].
    intros _. simpl. eexists. split; [reflexivity |].
    simpl. rewrite length_fmap. reflexivity.
  - intros H4 H6. unfold rfListFromNexthopUpdateBody.
    apply Z.eqb_neq in H4, H6. rewrite H4, H6. reflexivity.
  - destruct (GetPathListWithNexthop _ _ _) as [|p l]; simpl.
    + split; reflexivity.
    + split; discriminate.
Qed.

Lemma nexthop_update_unregisters_witness :
  createPathListFromNexthopUpdateMessage example_nexthop_unknown example_tables
    (Some (registerNexthop (newNexthopTrackingManager 1) [192; 0; 2; 1]).2)
  = Some ([], Some (unregister_body example_nexthop_unknown), None,
          Some (newNexthopTrackingManager 1))
  /\ (exists paths,
        createPathListFromNexthopUpdateMessage example_nexthop_lost example_tables
          (Some (newNexthopTrackingManager 1))
        = Some (paths, None, None, Some (newNexthopTrackingManager 1))
        /\ length paths = 2%nat).
Proof.
  destruct (nexthop_update_unregisters example_nexthop_unknown example_tables
              (registerNexthop (newNexthopTrackingManager 1) [192; 0; 2; 1]).2)
    as (H1 & _ & H3 & _).
  destruct (nexthop_update_unregisters example_nexthop_lost example_tables
              (newNexthopTrackingManager 1)) as (_ & H2 & _).
  split.
  - assert (Hn4 : nu_Family example_nexthop_unknown <> AF_INET) by discriminate.
    assert (Hn6 : nu_Family example_nexthop_unknown <> AF_INET6) by discriminate.
    rewrite (H1 (H3 Hn4 Hn6)).
    vm_compute. reflexivity.
  - destruct H2 as (paths & Hp & Hl); [discriminate |].
    exists paths. split; [exact Hp | exact Hl].
Defined.

(** X17: the arm of the bridge loop for a nexthop update does nothing
    when nexthop tracking is off. When it is on, with the RIBs it could get
    (each failure is logged): if no path is bound to the nexthop it
    schedules nothing, takes the nexthop out of the cache and sends one
    unregister message for it in the VRF of the update; otherwise it
    schedules one batch, the clones of the bound paths, sends nothing and
    leaves the cache as it is. It never panics. *)
Theorem loop_nexthop_update (server : BgpServer) (msg : Message)
    (body : NexthopUpdateBody) (m : nexthopTrackingManager) :
  msg_Body msg = Body_NexthopUpdate body ->
  loop_message server None msg = Some (None, [])
  /\ (bound_paths body (update_view server body) = [] ->
      loop_message server (Some m) msg
      = Some (Some (unregisterNexthop m (nu_Prefix body)),
              update_logs server body
                ++ [ScheduleUpdate [];
                    SendNexthopRegister (VrfId (msg_Header msg)) (unregister_body body)
                      true]))
  /\ (bound_paths body (update_view server body) <> [] ->
      loop_message server (Some m) msg
      = Some (Some m,
              update_logs server body
                ++ [ScheduleUpdate
                      [Ev_pathList
                         ((λ path, Some (update_clone
                                           (bool_decide (length (nu_Nexthops body) = 0%nat))
                                           (nu_Metric body) path))
                            <$> bound_paths body (update_view server body))]])).
Proof.
  intros Hb. unfold loop_message, update_view, update_logs. rewrite Hb.
  split; [reflexivity |].
  destruct (build_tables server (rfListFromNexthopUpdateBody body) ∅) as [tables logs].
  cbn [fst snd].
  unfold bound_paths, createPathListFromNexthopUpdateMessage, unregister_body.
  destruct (GetPathListWithNexthop {| Tables := tables |}
              (rfListFromNexthopUpdateBody body) (nu_Prefix body)) as [|p l].
  - split; [intros _; reflexivity | intros H; contradiction].
  - split; [discriminate | intros _; reflexivity].
Qed.

Lemma loop_nexthop_update_witness :
  loop_message
    {| GetRib := λ rf, if rf =? RF_IPv4_UC then Some [example_path [192; 0; 2; 2]]
                       else None;
       AddPath_fails := λ _, false |}
    (Some (newNexthopTrackingManager 1))
    {| msg_Header := {| Command := API_other 0; VrfId := 3 |};
       msg_Body := Body_NexthopUpdate example_nexthop_lost |}
  = Some (Some (newNexthopTrackingManager 1),
          [Errorf ("failed to get global rib by family " +:+ uitoa RF_IPv4_VPN);
           ScheduleUpdate [];
           SendNexthopRegister 3 (unregister_body example_nexthop_lost) true]).
Proof.
  destruct (loop_nexthop_update
              {| GetRib := λ rf, if rf =? RF_IPv4_UC
                                 then Some [example_path [192; 0; 2; 2]] else None;
                 AddPath_fails := λ _, false |}
              {| msg_Header := {| Command := API_other 0; VrfId := 3 |};
                 msg_Body := Body_NexthopUpdate example_nexthop_lost |}
              example_nexthop_lost (newNexthopTrackingManager 1) eq_refl)
    as (_ & H & _).
  rewrite (H eq_refl). vm_compute. reflexivity.
Defined.

(** ** Opening the bridge *)

Lemma redistribute_loop_ok (zebra : ZebraPackage) (protos : list string)
    (acts : list openAction) :
  redistribute_loop zebra protos = (None, acts)
  <-> exists ts : list ROUTE_TYPE,
        Forall2 (λ typ t, RouteTypeFromString zebra typ = inl t) protos ts
        /\ acts = (λ t, SendRedistribute t VRF_DEFAULT) <$> ts.
Proof.
  revert acts. induction protos as [|typ protos IH]; intros acts; simpl.
  - split.
    + intros H. inversion H; subst. exists []. split; [constructor | reflexivity].
    + intros (ts & Hf & ->). inversion Hf; subst. reflexivity.
  - destruct (RouteTypeFromString zebra typ) as [t | e] eqn:Ht.
    + destruct (redistribute_loop zebra protos) as [err sent]. split.
      * intros H. inversion H; subst.
        destruct (proj1 (IH sent) eq_refl) as (ts & Hf & ->).
        exists (t :: ts). split; [constructor; assumption | reflexivity].
      * intros (ts & Hf & ->). inversion Hf as [|? t' ? ts' Ht' Hf']; subst.
        rewrite Ht in Ht'. inversion Ht'; subst t'.
        assert (Hr : (err, sent)
                     = (None, (λ t, SendRedistribute t VRF_DEFAULT) <$> ts'))
          by (apply IH; eauto).
        inversion Hr; subst. reflexivity.
    + split; [discriminate |].
      intros (ts & Hf & _). inversion Hf; subst. congruence.
Qed.

(** X18: [newZebraClient] returns a bridge exactly when the URL splits at
    its first colon into a network and an address, [zebra.NewClient]
    connects to them with the version asked for, and every protocol has a
    route type. The bridge holds that client, and a fresh manager with the
    delay asked for when nexthop tracking is enabled, none otherwise; what
    was done is: the interfaces asked for, one redistribution per protocol
    in the order given, in the default VRF, and the loop started last. *)
Theorem newZebraClient_opens_iff (zebra : ZebraPackage) (url : string)
    (protos : list string) (version : Z) (nhtEnable : bool) (nhtDelay : Z)
    (w : zebraClient) (err : option error) (acts : list openAction) :
  newZebraClient zebra url protos version nhtEnable nhtDelay = (Some w, err, acts)
  <-> err = None
      /\ exists (l0 l1 : string) (ts : list ROUTE_TYPE),
           SplitN url ":" 2 = [l0; l1]
           /\ NewClient zebra l0 l1 ROUTE_BGP version = inl (client w)
           /\ Forall2 (λ typ t, RouteTypeFromString zebra typ = inl t) protos ts
           /\ nhtManager_of w
              = (if nhtEnable then Some (newNexthopTrackingManager nhtDelay) else None)
           /\ acts = SendInterfaceAdd
                       :: ((λ t, SendRedistribute t VRF_DEFAULT) <$> ts) ++ [Go_loop w].
Proof.
  unfold newZebraClient.
  destruct (SplitN url ":" 2) as [|l0 [|l1 [|l2 l]]] eqn:Hs.
  1, 2, 4: (split; [discriminate | intros (_ & a & b & ts & H & _); discriminate]).
  simpl.
  destruct (NewClient zebra l0 l1 ROUTE_BGP version) as [c | e] eqn:Hc.
  - destruct (redistribute_loop zebra protos) as [[e|] sent] eqn:Hr.
    + split; [discriminate |].
      intros (_ & a & b & ts & H & _ & Hf & _ & _).
      assert (Hok : redistribute_loop zebra protos
                    = (None, (λ t, SendRedistribute t VRF_DEFAULT) <$> ts))
        by (apply redistribute_loop_ok; eauto).
      congruence.
    + apply redistribute_loop_ok in Hr as (ts & Hf & ->). split.
      * intros H. inversion H; subst; clear H. split; [reflexivity |].
        exists l0, l1, ts. simpl. repeat split; assumption.
      * intros (-> & a & b & ts' & H & Hc' & Hf' & Hm & ->).
        inversion H; subst a b; clear H. rewrite Hc in Hc'. inversion Hc'; subst c.
        assert (Hts : (None, (λ t, SendRedistribute t VRF_DEFAULT) <$> ts)
                      = (None : option error, (λ t, SendRedistribute t VRF_DEFAULT) <$> ts')).
        { transitivity (redistribute_loop zebra protos).
          - symmetry. apply redistribute_loop_ok. eauto.
          - apply redistribute_loop_ok. eauto. }
        inversion Hts as [Hts']. rewrite <- Hm.
        destruct w as [cw mw]. reflexivity.
  - split; [discriminate |].
    intros (_ & a & b & ts & H & Hc' & _). inversion H; subst a b. congruence.
Qed.

Lemma newZebraClient_opens_iff_witness :
  exists w,
    newZebraClient example_zebra "unix:/var/run/zserv.api" ["static"; "kernel"] 2 true 5
    = (Some w, None,
       [SendInterfaceAdd; SendRedistribute 3 0; SendRedistribute 1 0; Go_loop w])
    /\ nhtManager_of w = Some (newNexthopTrackingManager 5).
Proof.
  exists {| client := {| cli_network := "unix"; cli_address := "/var/run/zserv.api";
                         cli_version := 2 |};
            nhtManager_of := Some (newNexthopTrackingManager 5) |}.
  split; [|reflexivity].
  apply (proj2 (newZebraClient_opens_iff example_zebra "unix:/var/run/zserv.api"
                  ["static"; "kernel"] 2 true 5 _ None _)).
  split; [reflexivity |].
  exists "unix", "/var/run/zserv.api", [3; 1].
  split; [reflexivity |]. split; [reflexivity |].
  split; [repeat constructor |]. split; reflexivity.
Defined.

(** X19: [newZebraClient] returns either a bridge and no error, or no
    bridge and an error, never both and never neither. When
    [zebra.NewClient] fails on a well-formed URL, the error returned is
    the one of [zebra.NewClient], one warning is logged and nothing is
    sent to zebra. The loop of the bridge is started exactly when a bridge
    is returned. *)
Theorem newZebraClient_bridge_or_error (zebra : ZebraPackage) (url : string)
    (protos : list string) (version : Z) (nhtEnable : bool) (nhtDelay : Z) :
  ((exists w acts,
      newZebraClient zebra url protos version nhtEnable nhtDelay
      = (Some w, None, acts ++ [Go_loop w])
      /\ loop_not_started acts)
   \/ (exists e acts,
         newZebraClient zebra url protos version nhtEnable nhtDelay
         = (None, Some e, acts)
         /\ loop_not_started acts))
  /\ (forall l0 l1 e,
        SplitN url ":" 2 = [l0; l1] ->
        NewClient zebra l0 l1 ROUTE_BGP version = inr e ->
        newZebraClient zebra url protos version nhtEnable nhtDelay
        = (None, Some e,
           [Warnf ("cannot connect to Zebra with message version " +:+ uitoa version
                     +:+ ". going to retry another version...")])).
Proof.
  unfold newZebraClient. split.
  - destruct (SplitN url ":" 2) as [|l0 [|l1 [|l2 l]]] eqn:Hs.
    1, 2, 4: (right; eexists _, _; split; [reflexivity | constructor]).
    simpl.
    destruct (NewClient zebra l0 l1 ROUTE_BGP version) as [c | e] eqn:Hc.
    + pose proof (redistribute_loop_sent zebra protos) as Hsent.
      destruct (redistribute_loop zebra protos) as [[e|] sent]; simpl in Hsent.
      * right. eexists _, _. split; [reflexivity |].
        constructor; [discriminate | exact Hsent].
      * left. eexists _, (SendInterfaceAdd :: sent). split; [reflexivity |].
        constructor; [discriminate | exact Hsent].
    + right. eexists _, _. split; [reflexivity |].
      constructor; [discriminate | constructor].
  - intros l0 l1 e -> Hc. simpl. rewrite Hc. reflexivity.
Qed.

Lemma newZebraClient_bridge_or_error_witness :
  newZebraClient example_zebra "tcp:127.0.0.1:2601" ["static"] 2 true 5
  = (None, Some "dial tcp: unknown network",
     [Warnf "cannot connect to Zebra with message version 2. going to retry another version..."]).
Proof.
  exact (proj2 (newZebraClient_bridge_or_error example_zebra "tcp:127.0.0.1:2601"
                  ["static"] 2 true 5)
           "tcp" "127.0.0.1:2601" "dial tcp: unknown network" eq_refl eq_refl).
Defined.

(** ** The texts of NLRIs *)

Lemma string_app_assoc (a b c : string) : (a +:+ b) +:+ c = a +:+ (b +:+ c).
Proof.
  induction a as [|x a IH]; [reflexivity |].
  change (String x ((a +:+ b) +:+ c) = String x (a +:+ (b +:+ c))).
  rewrite IH. reflexivity.
Qed.

Lemma string_length_app (a b : string) :
  String.length (a +:+ b) = (String.length a + String.length b)%nat.
Proof.
  induction a as [|x a IH]; [reflexivity |].
  change (S (String.length (a +:+ b)) = S (String.length a + String.length b)).
  rewrite IH. reflexivity.
Qed.

Lemma index_colon_cons (c : ascii) (r : string) :
  String.index 0 ":" (String c r)
  = if Ascii.eqb c ":"%char then Some 0%nat
    else match String.index 0 ":" r with
         | Some n => Some (S n)
         | None => None
         end.
Proof.
  cbn [String.index String.prefix].
  destruct (ascii_dec ":" c) as [<- | Hne].
  - destruct r; reflexivity.
  - assert (E : Ascii.eqb c ":"%char = false)
      by (apply Ascii.eqb_neq; intros ->; apply Hne; reflexivity).
    rewrite E. reflexivity.
Qed.

Lemma index_no_colon (s : string) :
  no_colon s = true -> String.index 0 ":" s = None.
Proof.
  induction s as [|c r IH]; [reflexivity |].
  intros H. simpl in H. apply andb_true_iff in H as [Hc Hr].
  rewrite index_colon_cons. apply negb_true_iff in Hc. rewrite Hc, (IH Hr). reflexivity.
Qed.

Lemma index_first_colon (p0 rest : string) :
  no_colon p0 = true ->
  String.index 0 ":" (p0 +:+ ":" +:+ rest) = Some (String.length p0).
Proof.
  induction p0 as [|c r IH]; intros H.
  - simpl. destruct rest; reflexivity.
  - simpl in H. apply andb_true_iff in H as [Hc Hr].
    change (String c r +:+ ":" +:+ rest) with (String c (r +:+ ":" +:+ rest)).
    rewrite index_colon_cons. apply negb_true_iff in Hc. rewrite Hc, (IH Hr). reflexivity.
Qed.

Lemma substring_app_head (a b : string) :
  String.substring 0 (String.length a) (a +:+ b) = a.
Proof.
  induction a as [|c a IH]; simpl; [apply substring_0_0 | rewrite IH; reflexivity].
Qed.

Lemma substring_app_tail (a b : string) (c : ascii) :
  String.substring (String.length a + 1)
    (String.length (a +:+ String c b) - (String.length a + 1)) (a +:+ String c b) = b.
Proof.
  induction a as [|x a IH]; simpl.
  - rewrite Nat.sub_0_r. apply substring_full.
  - exact IH.
Qed.

Lemma genSplit_no_colon (n : nat) (s : string) :
  no_colon s = true -> genSplit n s ":" = [s].
Proof.
  intros H. destruct n as [|n]; [reflexivity |].
  simpl. rewrite (index_no_colon s H). reflexivity.
Qed.

Lemma genSplit_first_colon (n : nat) (p0 rest : string) :
  no_colon p0 = true ->
  genSplit (S n) (p0 +:+ ":" +:+ rest) ":" = p0 :: genSplit n rest ":".
Proof.
  intros H. cbn [genSplit]. rewrite (index_first_colon p0 rest H).
  cbn [String.length]. rewrite substring_app_head.
  exact (f_equal (λ x, p0 :: genSplit n x ":") (substring_app_tail p0 rest ":"%char)).
Qed.

Lemma genSplit_nonempty (n : nat) (s sep : string) : genSplit n s sep <> [].
Proof.
  destruct n as [|n]; simpl; [discriminate |].
  destruct (String.index 0 sep s); discriminate.
Qed.

Lemma first_colon_cases (s : string) :
  no_colon s = true
  \/ exists p0 rest, s = p0 +:+ ":" +:+ rest /\ no_colon p0 = true.
Proof.
  induction s as [|c r IH]; [left; reflexivity |].
  destruct (Ascii.eqb c ":"%char) eqn:Ec.
  - right. apply Ascii.eqb_eq in Ec as ->. exists "", r. split; reflexivity.
  - destruct IH as [Hr | (p0 & rest & -> & Hp)].
    + left. simpl. rewrite Ec, Hr. reflexivity.
    + right. exists (String c p0), rest. split; [reflexivity |].
      simpl. rewrite Ec, Hp. reflexivity.
Qed.

Lemma last_colon_cases (s : string) :
  no_colon s = true
  \/ exists a b, s = a +:+ ":" +:+ b /\ no_colon b = true.
Proof.
  induction s as [|c r IH]; [left; reflexivity |].
  destruct IH as [Hr | (a & b & -> & Hb)].
  - destruct (Ascii.eqb c ":"%char) eqn:Ec.
    + right. apply Ascii.eqb_eq in Ec as ->. exists "", r. split; [reflexivity | exact Hr].
    + left. simpl. rewrite Ec, Hr. reflexivity.
  - right. exists (String c a), b. split; [reflexivity | exact Hb].
Qed.

Lemma last_cons_nonempty {A : Type} (x d : A) (l : list A) :
  l <> [] -> List.last (x :: l) d = List.last l d.
Proof. destruct l; [contradiction | reflexivity]. Qed.

Lemma genSplit_last (n : nat) :
  forall a b : string,
    (String.length a < n)%nat -> no_colon b = true ->
    List.last (genSplit n (a +:+ ":" +:+ b) ":") "" = b.
Proof.
  induction n as [|n IH]; intros a b Hn Hb; [lia |].
  destruct (first_colon_cases a) as [Ha | (p0 & a' & -> & Hp)].
  - rewrite (genSplit_first_colon n a b Ha), (genSplit_no_colon n b Hb). reflexivity.
  - rewrite string_app_assoc.
    change ((":" +:+ a') +:+ ":" +:+ b) with (":" +:+ (a' +:+ ":" +:+ b)).
    rewrite (genSplit_first_colon n p0 _ Hp).
    rewrite last_cons_nonempty by apply genSplit_nonempty.
    apply IH; [|exact Hb].
    rewrite string_length_app in Hn.
    change (String.length (":" +:+ a')) with (S (String.length a')) in Hn. lia.
Qed.

Lemma Split_colon (s : string) : Split s ":" = genSplit (String.length s) s ":".
Proof. reflexivity. Qed.

Lemma NlriPrefix_no_colon (s : string) : no_colon s = true -> NlriPrefix s = s.
Proof.
  intros H. unfold NlriPrefix. rewrite Split_colon, (genSplit_no_colon _ s H). reflexivity.
Qed.

Lemma NlriPrefix_app (a b : string) :
  no_colon b = true -> NlriPrefix (a +:+ ":" +:+ b) = b.
Proof.
  intros H. unfold NlriPrefix. rewrite Split_colon. apply genSplit_last; [|exact H].
  rewrite string_length_app.
  change (String.length (":" +:+ b)) with (S (String.length b)). lia.
Qed.

(** X20: [NlriPrefix] returns what follows the last colon of the text,
    and the whole text when it has no colon; its result never has a
    colon. So the text of a VPN route, a route distinguisher before the
    prefix, gives the prefix, while the text of an IPv6 prefix gives only
    what follows its last colon. *)
Theorem NlriPrefix_after_last_colon (s : string) :
  (no_colon s = true -> NlriPrefix s = s)
  /\ (forall a b, s = a +:+ ":" +:+ b -> no_colon b = true -> NlriPrefix s = b)
  /\ no_colon (NlriPrefix s) = true.
Proof.
  split; [apply NlriPrefix_no_colon |].
  split; [intros a b -> Hb; apply NlriPrefix_app; exact Hb |].
  destruct (last_colon_cases s) as [Hs | (a & b & -> & Hb)].
  - rewrite (NlriPrefix_no_colon s Hs). exact Hs.
  - rewrite (NlriPrefix_app a b Hb). exact Hb.
Qed.

Lemma NlriPrefix_after_last_colon_witness :
  NlriPrefix "65000:1:10.0.0.0/24" = "10.0.0.0/24"
  /\ NlriPrefix "10.0.0.0/24" = "10.0.0.0/24"
  /\ NlriPrefix "2001:db8::/32" = "/32".
Proof.
  split; [|split].
  - exact (proj1 (proj2 (NlriPrefix_after_last_colon "65000:1:10.0.0.0/24"))
             "65000:1" "10.0.0.0/24" eq_refl eq_refl).
  - exact (proj1 (NlriPrefix_after_last_colon "10.0.0.0/24") eq_refl).
  - exact (proj1 (proj2 (NlriPrefix_after_last_colon "2001:db8::/32"))
             "2001:db8:" "/32" eq_refl eq_refl).
Defined.

(** X21: [NlriRD] returns the empty text for a text without a colon, the
    whole text when it has one colon, and otherwise the text before its
    second colon: the route distinguisher at the head of the text of a VPN
    route. *)
Theorem NlriRD_first_two_parts (s : string) :
  (no_colon s = true -> NlriRD s = "")
  /\ (forall a b,
        s = a +:+ ":" +:+ b -> no_colon a = true -> no_colon b = true ->
        NlriRD s = s)
  /\ (forall a b c,
        s = a +:+ ":" +:+ b +:+ ":" +:+ c -> no_colon a = true -> no_colon b = true ->
        NlriRD s = a +:+ ":" +:+ b).
Proof.
  unfold NlriRD. rewrite Split_colon. split; [|split].
  - intros H. rewrite (genSplit_no_colon _ s H). reflexivity.
  - intros a b -> Ha Hb.
    destruct (String.length (a +:+ ":" +:+ b)) as [|n] eqn:El.
    { rewrite string_length_app in El.
      change (String.length (":" +:+ b)) with (S (String.length b)) in El. lia. }
    rewrite (genSplit_first_colon n a b Ha), (genSplit_no_colon n b Hb). reflexivity.
  - intros a b c -> Ha Hb.
    destruct (String.length (a +:+ ":" +:+ b +:+ ":" +:+ c)) as [|[|n]] eqn:El.
    1, 2: (rewrite string_length_app in El;
           change (String.length (":" +:+ b +:+ ":" +:+ c))
             with (S (String.length (b +:+ ":" +:+ c))) in El;
           rewrite string_length_app in El;
           change (String.length (":" +:+ c)) with (S (String.length c)) in El; lia).
    rewrite (genSplit_first_colon (S n) a _ Ha), (genSplit_first_colon n b c Hb).
    reflexivity.
Qed.

Lemma NlriRD_first_two_parts_witness :
  NlriRD "65000:1:10.0.0.0/24" = "65000:1"
  /\ NlriRD "10.0.0.0/24" = "".
Proof.
  split.
  - exact (proj2 (proj2 (NlriRD_first_two_parts "65000:1:10.0.0.0/24"))
             "65000" "1" "10.0.0.0/24" eq_refl eq_refl eq_refl).
  - exact (proj1 (NlriRD_first_two_parts "10.0.0.0/24") eq_refl).
Defined.

(** ** The two arms of the bridge loop for the events of the server *)

Lemma is_default_text_spec (text : string) :
  is_default_text text <-> String.eqb (NlriPrefix text) "0.0.0.0/0" = true.
Proof.
  rewrite String.eqb_eq. unfold is_default_text. split.
  - intros [-> | (rd & ->)]; [reflexivity |].
    exact (NlriPrefix_app rd "0.0.0.0/0" eq_refl).
  - intros H. destruct (last_colon_cases text) as [Hn | (a & b & -> & Hb)].
    + rewrite (NlriPrefix_no_colon text Hn) in H. left. exact H.
    + rewrite (NlriPrefix_app a b Hb) in H. subst b. right. exists a. reflexivity.
Qed.



Lemma newNexthopRegisterBody_none (dst : pathList)
    (nhtManager nhtManager' : option nexthopTrackingManager) (w : bool) :
  newNexthopRegisterBody dst nhtManager = (None, w, nhtManager') ->
  nhtManager' = nhtManager /\ w = false.
Proof.
  destruct nhtManager as [m|]; [|intros H; inversion H; split; reflexivity].
  destruct (filterPathToRegister m dst) as [|path rest] eqn:Hf.
  { unfold newNexthopRegisterBody. rewrite Hf. intros H; inversion H; split; reflexivity. }
  destruct (newNexthopRegisterBody_kept dst m path rest Hf) as [Hyes Hno].
  destruct (is_IPv4_family (GetRouteFamily path) || is_IPv6_family (GetRouteFamily path)).
  - destruct (Hyes eq_refl) as (m' & -> & _). discriminate.
  - rewrite (Hno eq_refl). intros H; inversion H; split; reflexivity.
Qed.

Lemma newNexthopRegisterBody_some (dst : pathList)
    (nhtManager nhtManager' : option nexthopTrackingManager)
    (body : NexthopRegisterBody) (w : bool) :
  newNexthopRegisterBody dst nhtManager = (Some body, w, nhtManager') ->
  exists m m' path rest,
    nhtManager = Some m /\ nhtManager' = Some m' /\ w = false
    /\ filterPathToRegister m dst = path :: rest
    /\ nr_Nexthops body = registered_entry (GetRouteFamily path) <$> path :: rest
    /\ nexthopCache m' = nexthop_keys (path :: rest) ∪ nexthopCache m.
Proof.
  destruct nhtManager as [m|]; [|discriminate].
  destruct (filterPathToRegister m dst) as [|path rest] eqn:Hf.
  { unfold newNexthopRegisterBody. rewrite Hf. discriminate. }
  destruct (newNexthopRegisterBody_kept dst m path rest Hf) as [Hyes Hno].
  destruct (is_IPv4_family (GetRouteFamily path) || is_IPv6_family (GetRouteFamily path)).
  - destruct (Hyes eq_refl) as (m' & -> & Hc & _). intros H; inversion H; subst.
    exists m, m', path, rest.
    split; [reflexivity |]. split; [reflexivity |]. split; [reflexivity |].
    split; [exact Hf |]. split; [reflexivity | exact Hc].
  - rewrite (Hno eq_refl). discriminate.
Qed.

(** Once the nexthops of a batch have been looked at, the batch yields no
    body any more. *)
Lemma newNexthopRegisterBody_settled (dst : pathList)
    (nhtManager nhtManager' : option nexthopTrackingManager)
    (b : option NexthopRegisterBody) (w : bool) :
  newNexthopRegisterBody dst nhtManager = (b, w, nhtManager') ->
  newNexthopRegisterBody dst nhtManager' = (None, false, nhtManager').
Proof.
  intros H. destruct b as [body|].
  - destruct (newNexthopRegisterBody_some _ _ _ _ _ H)
      as (m & m' & path & rest & -> & -> & -> & Hf & _ & Hc).
    assert (Hnil : filterPathToRegister m' dst = []).
    { apply (filterPathToRegister_registered m m').
      - rewrite Hc. set_solver.
      - intros p Hp. rewrite Hf in Hp. rewrite Hc. unfold nexthop_keys.
        apply elem_of_union_l, elem_of_list_to_set, list_elem_of_fmap. eauto. }
    unfold newNexthopRegisterBody. rewrite Hnil. reflexivity.
  - destruct (newNexthopRegisterBody_none _ _ _ _ H) as [-> ->]. exact H.
Qed.

Lemma update_send_loop_settled (path : Path) (r : option IPRouteBody * bool)
    (nhtManager : option nexthopTrackingManager) (vrfs : list Z) :
  newIPRouteBody [Some path] false = Some r ->
  newNexthopRegisterBody [Some path] nhtManager = (None, false, nhtManager) ->
  update_send_loop vrfs nhtManager path
  = Some (nhtManager, flat_map (λ v, route_acts v r) vrfs).
Proof.
  intros Hr Hn. induction vrfs as [|v rest IH]; [reflexivity |].
  cbn [update_send_loop flat_map]. rewrite Hr. destruct r as [body w].
  cbn [mbind option_bind]. rewrite Hn, IH. cbn [mbind option_bind].
  unfold route_acts at 2. cbn [fst snd]. destruct body; reflexivity.
Qed.

Lemma update_vrfs_nonempty (view : VrfView) (m : gmap string Z) (path : Path) :
  update_vrfs view m path <> [].
Proof.
  unfold update_vrfs.
  destruct (m !! nlri_String (GetNlri path)) as [v|]; [discriminate |].
  cbn [length bool_decide]. rewrite (bool_decide_eq_true_2 (0%nat = 0%nat) eq_refl).
  cbn [app].
  destruct (_ <$> filter _ (GetVrf view)) as [|x l]; discriminate.
Qed.

(** X23: in the update arm a default route that is not local is sent to
    each of its VRFs (the one the map gives, else those whose route
    distinguisher is at the head of the text, else VRF 0), with the same
    body; its nexthop is registered for the first of them only, since the
    first registration puts it in the cache, and the manager is left as
    that one registration left it. *)
Theorem loop_Update_sends (view : VrfView) (m : gmap string Z)
    (nhtManager nhtManager' : option nexthopTrackingManager) (path : Path)
    (r : option IPRouteBody * bool) (b : option NexthopRegisterBody) (w : bool) :
  is_default_text (nlri_String (GetNlri path)) ->
  IsLocal path = Some false ->
  newIPRouteBody [Some path] false = Some r ->
  newNexthopRegisterBody [Some path] nhtManager = (b, w, nhtManager') ->
  exists (v : Z) (rest : list Z),
    update_vrfs view m path = v :: rest
    /\ loop_Update_path view m nhtManager path
       = Some (nhtManager',
               route_acts v r ++ register_acts v (b, w)
                 ++ flat_map (λ v', route_acts v' r) rest).
Proof.
  intros Hd Hl Hr Hn.
  pose proof (update_vrfs_nonempty view m path) as Hne.
  destruct (update_vrfs view m path) as [|v rest] eqn:Hv; [contradiction |].
  exists v, rest. split; [reflexivity |].
  unfold loop_Update_path. apply is_default_text_spec in Hd. rewrite Hd, Hl.
  cbn [negb mbind option_bind]. rewrite Hv.
  cbn [update_send_loop]. rewrite Hr. destruct r as [body wd].
  cbn [mbind option_bind]. rewrite Hn.
  rewrite (update_send_loop_settled path (body, wd) nhtManager' rest Hr
             (newNexthopRegisterBody_settled _ _ _ _ _ Hn)).
  cbn [mbind option_bind]. unfold route_acts at 1, register_acts. cbn [fst snd].
  destruct body, b; reflexivity.
Qed.

Lemma loop_Update_sends_witness :
  exists body regbody m',
    loop_Update_path example_view ∅ (Some (newNexthopTrackingManager 1))
      example_vpn_default_path
    = Some (Some m',
            [SendIPRoute 10 body false; SendNexthopRegister 10 regbody false;
             SendIPRoute 30 body false])
    /\ isRegisteredNexthop m' [192; 0; 2; 1] = true.
Proof.
  assert (Hd : is_default_text (nlri_String (GetNlri example_vpn_default_path)))
    by (right; exists "65000:1"; reflexivity).
  assert (Hr : exists body,
             newIPRouteBody [Some example_vpn_default_path] false
             = Some (Some body, false)) by (eexists; reflexivity).
  destruct Hr as (body & Hr).
  assert (Hn : exists regbody m',
             newNexthopRegisterBody [Some example_vpn_default_path]
               (Some (newNexthopTrackingManager 1))
             = (Some regbody, false, Some m')
             /\ isRegisteredNexthop m' [192; 0; 2; 1] = true)
    by (eexists _, _; split; reflexivity).
  destruct Hn as (regbody & m' & Hn & Hc).
  exists body, regbody, m'. split; [|exact Hc].
  destruct (loop_Update_sends example_view ∅ _ _ example_vpn_default_path _ _ _
              Hd eq_refl Hr Hn) as (v & rest & Hv & H).
  rewrite H. injection Hv as <- <-. reflexivity.
Defined.

(** ** The map of the VRFs of an update event *)

Lemma import_loop_entries (view : VrfView) (p : Path) (vrfs : list Vrf)
    (P : string -> Z -> Prop) :
  (forall vrf, vrf ∈ vrfs -> vrf_Id vrf <> 0 -> CanImportToVrf view vrf p = true ->
               P (nlri_String (GetNlri p)) (uint16 (vrf_Id vrf))) ->
  forall m0 : gmap string Z,
    (forall text v, m0 !! text = Some v -> P text v) ->
    forall text v,
      foldl (λ m vrf,
               if negb (vrf_Id vrf =? 0) && CanImportToVrf view vrf p
               then <[ nlri_String (GetNlri p) := uint16 (vrf_Id vrf) ]> m
               else m) m0 vrfs !! text = Some v ->
      P text v.
Proof.
  induction vrfs as [|vrf vrfs IH]; intros Hstep m0 H0 text v; simpl; [apply H0 |].
  apply IH.
  - intros vrf' Hin. apply Hstep. right. exact Hin.
  - intros text' v'.
    destruct (negb (vrf_Id vrf =? 0) && CanImportToVrf view vrf p) eqn:E; [|apply H0].
    apply andb_true_iff in E as [E1 E2]. apply negb_true_iff, Z.eqb_neq in E1.
    destruct (decide (nlri_String (GetNlri p) = text')) as [<- | Hne].
    + rewrite lookup_insert_eq. intros H; inversion H; subst.
      apply Hstep; [left | exact E1 | exact E2].
    + rewrite lookup_insert_ne by exact Hne. apply H0.
Qed.

(** X24: the map of the update arm is the map of the event when it has
    one. Otherwise every entry of the map is the text of a VPN path of the
    event with the identifier, cut to 16 bits, of a VRF of the server whose
    identifier is not 0 and that can import the path; paths of the other
    families have no entry of their own. *)
Theorem update_vrf_map_entries (view : VrfView) (paths : list Path) :
  (forall m, update_vrf_map view (Some m) paths = m)
  /\ (forall text v,
        update_vrf_map view None paths !! text = Some v ->
        exists p vrf,
          p ∈ paths /\ is_VPN_family (GetRouteFamily p) = true
          /\ nlri_String (GetNlri p) = text
          /\ vrf ∈ GetVrf view /\ vrf_Id vrf <> 0
          /\ CanImportToVrf view vrf p = true
          /\ v = uint16 (vrf_Id vrf)).
Proof.
  split; [reflexivity |].
  unfold update_vrf_map.
  set (P := λ (l : list Path) (text : string) (v : Z),
         exists p vrf,
           p ∈ l /\ is_VPN_family (GetRouteFamily p) = true
           /\ nlri_String (GetNlri p) = text
           /\ vrf ∈ GetVrf view /\ vrf_Id vrf <> 0
           /\ CanImportToVrf view vrf p = true
           /\ v = uint16 (vrf_Id vrf)).
  assert (H : forall l m0,
             (forall p, p ∈ l -> p ∈ paths) ->
             (forall text v, m0 !! text = Some v -> P paths text v) ->
             forall text v,
               foldl (λ m p, if is_VPN_family (GetRouteFamily p)
                             then import_loop view p m else m) m0 l !! text = Some v ->
               P paths text v).
  { induction l as [|p l IH]; intros m0 Hl H0 text v; simpl; [apply H0 |].
    apply IH; [intros q Hq; apply Hl; right; exact Hq |].
    destruct (is_VPN_family (GetRouteFamily p)) eqn:Ev; [|exact H0].
    unfold import_loop. apply import_loop_entries; [|exact H0].
    intros vrf Hin Hid Hcan. exists p, vrf.
    split; [apply Hl; left |]. repeat split; assumption. }
  intros text v Hlk. apply (H paths ∅ (λ p Hp, Hp)) in Hlk; [exact Hlk |].
  intros text' v' H0. rewrite lookup_empty in H0. discriminate.
Qed.

Lemma update_vrf_map_entries_witness :
  update_vrf_map example_import_view None [example_vpn_default_path]
    !! "65000:1:0.0.0.0/0" = Some 30
  /\ exists p vrf,
       p ∈ [example_vpn_default_path]
       /\ is_VPN_family (GetRouteFamily p) = true
       /\ nlri_String (GetNlri p) = "65000:1:0.0.0.0/0"
       /\ vrf ∈ GetVrf example_import_view /\ vrf_Id vrf <> 0
       /\ CanImportToVrf example_import_view vrf p = true
       /\ 30 = uint16 (vrf_Id vrf).
Proof.
  assert (H : update_vrf_map example_import_view None [example_vpn_default_path]
                !! "65000:1:0.0.0.0/0" = Some 30) by (vm_compute; reflexivity).
  split; [exact H |].
  exact (proj2 (update_vrf_map_entries example_import_view [example_vpn_default_path])
           "65000:1:0.0.0.0/0" 30 H).
Defined.

(** ** What the best-path arm registers *)



(** ** The ingress translator on IPv4 routes *)

Lemma is_digit_not_sep (c : ascii) :
  is_digit c = true -> Ascii.eqb c "."%char = false /\ Ascii.eqb c ":"%char = false.
Proof.
  destruct c as [[|] [|] [|] [|] [|] [|] [|] [|]]; intros H;
    first [discriminate H | split; reflexivity].
Qed.

(** A run of [dtoi_loop] that reads the whole text reads the same number
    when the text is followed by a character that is not a digit. *)
Lemma dtoi_loop_app (s : string) (c : ascii) (r : string) :
  is_digit c = false ->
  forall (n : Z) (i : nat) (n' : Z) (i' : nat),
    dtoi_loop n i s = Some (n', i', "") ->
    dtoi_loop n i (s +:+ String c r) = Some (n', i', String c r).
Proof.
  intros Hc. induction s as [|x s IH]; intros n i n' i' H.
  - simpl in H. inversion H; subst.
    change ("" +:+ String c r) with (String c r). cbn [dtoi_loop].
    rewrite Hc. reflexivity.
  - change (String x s +:+ String c r) with (String x (s +:+ String c r)).
    cbn [dtoi_loop] in H |- *.
    destruct (is_digit x); [|discriminate].
    destruct (16777215 <=? n * 10 + digit_val x); [discriminate |].
    apply IH. exact H.
Qed.

Lemma ParseIP_scan_digits (whole : string) (s r : string) :
  forall (n : Z) (i : nat) (n' : Z) (i' : nat),
    dtoi_loop n i s = Some (n', i', "") ->
    ParseIP_scan whole (s +:+ String "." r) = parseIPv4 whole.
Proof.
  induction s as [|x s IH]; intros n i n' i' H; [reflexivity |].
  change (String x s +:+ String "." r) with (String x (s +:+ String "." r)).
  cbn [dtoi_loop] in H. cbn [ParseIP_scan].
  destruct (is_digit x) eqn:Ed; [|discriminate].
  destruct (is_digit_not_sep x Ed) as [-> ->].
  destruct (16777215 <=? n * 10 + digit_val x); [discriminate |].
  exact (IH _ _ _ _ H).
Qed.

(** The decimal text of a byte reads back as the byte. *)
Lemma uitoa_byte (n : Z) :
  0 <= n <= 255 -> exists k : nat, dtoi_loop 0 0 (uitoa n) = Some (n, S k, "").
Proof.
  intros Hn.
  assert (Hall : forallb (λ n, match dtoi_loop 0 0 (uitoa n) with
                               | Some (n', S _, EmptyString) => n' =? n
                               | _ => false
                               end) (seqZ 0 256) = true) by (vm_compute; reflexivity).
  rewrite forallb_forall in Hall.
  specialize (Hall n). rewrite <- list_elem_of_In in Hall.
  rewrite elem_of_seqZ in Hall. specialize (Hall ltac:(lia)).
  destruct (dtoi_loop 0 0 (uitoa n)) as [[[n' [|k]] [|? ?]]|]; try discriminate.
  apply Z.eqb_eq in Hall as ->. exists k. reflexivity.
Qed.

Lemma dtoi_byte_dot (n : Z) (r : string) :
  0 <= n <= 255 -> dtoi (uitoa n +:+ String "." r) = Some (n, String "." r).
Proof.
  intros Hn. destruct (uitoa_byte n Hn) as [k Hk].
  unfold dtoi. rewrite (dtoi_loop_app (uitoa n) "." r eq_refl _ _ _ _ Hk). reflexivity.
Qed.

Lemma dtoi_byte_end (n : Z) : 0 <= n <= 255 -> dtoi (uitoa n) = Some (n, "").
Proof.
  intros Hn. destruct (uitoa_byte n Hn) as [k Hk]. unfold dtoi. rewrite Hk. reflexivity.
Qed.

Lemma uitoa_byte_nonempty (n : Z) : 0 <= n <= 255 -> uitoa n <> "".
Proof.
  intros Hn E. destruct (uitoa_byte n Hn) as [k Hk]. rewrite E in Hk. discriminate.
Qed.

Lemma parseIPv4_loop_first (k : nat) (s : string) :
  s <> "" ->
  parseIPv4_loop (S k) s []
  = match dtoi s with
    | None => []
    | Some (n, s'') => if 255 <? n then [] else parseIPv4_loop k s'' [n]
    end.
Proof. destruct s; [contradiction | reflexivity]. Qed.

Lemma parseIPv4_loop_next (k : nat) (s : string) (x : Z) (acc : list Z) :
  parseIPv4_loop (S k) (String "." s) (x :: acc)
  = match dtoi s with
    | None => []
    | Some (n, s'') => if 255 <? n then [] else parseIPv4_loop k s'' ((x :: acc) ++ [n])
    end.
Proof. reflexivity. Qed.

(** The text [IP.String] prints for an IPv4 address is read back by
    [net.ParseIP] as that address. *)
Lemma ParseIP_IP_String_v4 (a b c d : Z) :
  0 <= a <= 255 -> 0 <= b <= 255 -> 0 <= c <= 255 -> 0 <= d <= 255 ->
  ParseIP (IP_String [a; b; c; d]) = IPv4 a b c d.
Proof.
  intros Ha Hb Hc Hd.
  change (IP_String [a; b; c; d])
    with (uitoa a +:+ String "." (uitoa b +:+ String "." (uitoa c
            +:+ String "." (uitoa d)))).
  destruct (uitoa_byte a Ha) as [k Hk].
  unfold ParseIP. rewrite (ParseIP_scan_digits _ (uitoa a) _ _ _ _ _ Hk).
  unfold parseIPv4. rewrite parseIPv4_loop_first.
  2:{ intros E. apply (uitoa_byte_nonempty a Ha).
      destruct (uitoa a); [reflexivity | discriminate E]. }
  rewrite (dtoi_byte_dot a _ Ha).
  replace (255 <? a) with false by (symmetry; apply Z.ltb_ge; lia).
  rewrite parseIPv4_loop_next, (dtoi_byte_dot b _ Hb).
  replace (255 <? b) with false by (symmetry; apply Z.ltb_ge; lia).
  cbn [app]. rewrite parseIPv4_loop_next, (dtoi_byte_dot c _ Hc).
  replace (255 <? c) with false by (symmetry; apply Z.ltb_ge; lia).
  cbn [app]. rewrite parseIPv4_loop_next, (dtoi_byte_end d Hd).
  replace (255 <? d) with false by (symmetry; apply Z.ltb_ge; lia).
  reflexivity.
Qed.

Lemma To4_ParseIP_IP_String_v4 (a b c d : Z) :
  0 <= a <= 255 -> 0 <= b <= 255 -> 0 <= c <= 255 -> 0 <= d <= 255 ->
  To4 (ParseIP (IP_String [a; b; c; d])) = [a; b; c; d].
Proof.
  intros Ha Hb Hc Hd. rewrite (ParseIP_IP_String_v4 a b c d Ha Hb Hc Hd). reflexivity.
Qed.

(** X26: the ingress translator keeps an IPv4 route as it is. For a route
    message of the IPv4 unicast family whose prefix is four bytes, the
    path returned has no source peer, an NLRI of the IPv4 prefix type with
    the prefix and the length of the message, the metric of the message as
    its MED and the withdraw mark of the message; its nexthop is the first
    nexthop of the message when that is four bytes, and none when the
    message has no nexthop. The addresses go through their text, which
    [net.ParseIP] reads back. *)
Theorem createPathFromIPRouteMessage_IPv4 (m : Message) (body : IPRouteBody)
    (a b c d : Z) :
  msg_Body m = Body_IPRoute body ->
  IPRouteBody_RouteFamily body = RF_IPv4_UC ->
  Prefix body = [a; b; c; d] ->
  0 <= a <= 255 -> 0 <= b <= 255 -> 0 <= c <= 255 -> 0 <= d <= 255 ->
  exists p,
    createPathFromIPRouteMessage m = Some (Some p)
    /\ GetSource p = None
    /\ nlri_type (GetNlri p) = IPAddrPrefix
    /\ nlri_Prefix (GetNlri p) = [a; b; c; d]
    /\ nlri_Length (GetNlri p) = PrefixLength body
    /\ GetMed p = (Metric body, false)
    /\ IsWithdraw p = IPRouteBody_IsWithdraw body
    /\ (Nexthops body = [] -> GetNexthop p = [])
    /\ (forall e f g h rest,
          Nexthops body = [e; f; g; h] :: rest ->
          0 <= e <= 255 -> 0 <= f <= 255 -> 0 <= g <= 255 -> 0 <= h <= 255 ->
          GetNexthop p = [e; f; g; h]).
Proof.
  intros Hm Hf Hp Ha Hb Hc Hd.
  unfold createPathFromIPRouteMessage. rewrite Hm. cbn [mbind option_bind].
  rewrite Hf. rewrite (bool_decide_eq_true_2 (RF_IPv4_UC = RF_IPv4_UC) eq_refl).
  eexists. split; [reflexivity |].
  split; [reflexivity |]. split; [reflexivity |].
  split.
  { cbn [GetNlri SetIsFromExternal NewPath path_nlri NewIPAddrPrefix nlri_Prefix].
    rewrite Hp. apply To4_ParseIP_IP_String_v4; assumption. }
  split; [reflexivity |].
  split; [destruct (Nexthops body); reflexivity |].
  split; [reflexivity |].
  split.
  - intros ->. reflexivity.
  - intros e f g h rest -> He Hf' Hg Hh.
    cbn [GetNexthop SetIsFromExternal NewPath path_nexthop app attr_nexthop
         NewPathAttributeOrigin NewPathAttributeNextHop].
    apply To4_ParseIP_IP_String_v4; assumption.
Qed.

Lemma createPathFromIPRouteMessage_IPv4_witness :
  exists p,
    createPathFromIPRouteMessage example_route_message = Some (Some p)
    /\ nlri_Prefix (GetNlri p) = [10; 0; 0; 0]
    /\ nlri_Length (GetNlri p) = 24
    /\ GetNexthop p = [192; 0; 2; 1].
Proof.
  destruct (createPathFromIPRouteMessage_IPv4 example_route_message example_route_body
              10 0 0 0 eq_refl eq_refl eq_refl)
    as (p & H & _ & _ & Hp & Hl & _ & _ & _ & Hn); try lia.
  exists p. split; [exact H |]. split; [exact Hp |]. split; [exact Hl |].
  apply (Hn 192 0 2 1 []); [reflexivity | lia | lia | lia | lia].
Defined.

(** ** From a nexthop update to the update of the paths *)






(** ** The best-path arm with multipath *)

Lemma newNexthopRegisterBody_cache (dst : pathList)
    (nhtManager nhtManager' : option nexthopTrackingManager)
    (b : option NexthopRegisterBody) (w : bool) :
  newNexthopRegisterBody dst nhtManager = (b, w, nhtManager') ->
  w = false
  /\ match nhtManager, nhtManager' with
     | Some m, Some m' => nexthopCache m ⊆ nexthopCache m'
     | None, None => b = None
     | _, _ => False
     end.
Proof.
  intros H. destruct b as [body|].
  - destruct (newNexthopRegisterBody_some _ _ _ _ _ H)
      as (m & m' & path & rest & -> & -> & -> & _ & _ & Hc).
    split; [reflexivity |]. rewrite Hc. set_solver.
  - destruct (newNexthopRegisterBody_none _ _ _ _ H) as [-> ->].
    split; [reflexivity |]. destruct nhtManager; [reflexivity | reflexivity].
Qed.

(** X28: with multipath, the best-path arm sends every message to VRF 0,
    routes and registrations only, at most two messages per destination,
    and a registration never as a withdrawal. The cache of the manager
    only grows on the way, and without a manager there is none afterwards
    and no registration is sent. *)
Theorem loop_BestPath_multipath_sends (dsts : list pathList) :
  forall (nhtManager nhtManager' : option nexthopTrackingManager)
         (acts : list bridgeAction),
    loop_BestPath_multipath nhtManager dsts = Some (nhtManager', acts) ->
    Forall is_plain_vrf0 acts
    /\ (length acts <= 2 * length dsts)%nat
    /\ match nhtManager, nhtManager' with
       | Some m, Some m' => nexthopCache m ⊆ nexthopCache m'
       | None, None => forall vrfId body w, SendNexthopRegister vrfId body w ∉ acts
       | _, _ => False
       end.
Proof.
  induction dsts as [|dst dsts IH]; intros nht nht' acts H.
  - inversion H; subst. split; [constructor |]. split; [simpl; lia |].
    destruct nht'; [reflexivity |]. intros v b w Hin. inversion Hin.
  - cbn [loop_BestPath_multipath] in H.
    destruct (newIPRouteBody dst false) as [[b1 w1]|]; [|discriminate].
    cbn [mbind option_bind] in H.
    destruct (newNexthopRegisterBody dst nht) as [[b2 w2] nht1] eqn:Hn.
    destruct (loop_BestPath_multipath nht1 dsts) as [[nht2 acts2]|] eqn:Hr;
      [|discriminate].
    cbn [mbind option_bind] in H. inversion H; subst; clear H.
    destruct (IH _ _ _ Hr) as (HF & Hlen & Hc).
    destruct (newNexthopRegisterBody_cache _ _ _ _ _ Hn) as [-> Hc1].
    split; [|split].
    + apply Forall_app. split; [destruct b1; repeat constructor |].
      apply Forall_app. split; [destruct b2; repeat constructor | exact HF].
    + rewrite !length_app. cbn [length].
      assert ((length (match b1 with
                       | Some body => [SendIPRoute 0 body w1]
                       | None => []
                       end) <= 1)%nat) by (destruct b1; simpl; lia).
      assert ((length (match b2 with
                       | Some body2 => [SendNexthopRegister 0 body2 false]
                       | None => []
                       end) <= 1)%nat) by (destruct b2; simpl; lia).
      lia.
    + destruct nht as [m|], nht1 as [m1|]; try contradiction.
      * destruct nht' as [m'|]; [|contradiction]. set_solver.
      * destruct nht' as [m'|]; [contradiction |]. subst b2.
        intros v b w Hin. apply elem_of_app in Hin as [Hin | Hin].
        { destruct b1; [apply list_elem_of_singleton in Hin; discriminate
                       | inversion Hin]. }
        apply elem_of_app in Hin as [Hin | Hin]; [inversion Hin |].
        exact (Hc v b w Hin).
Qed.

Lemma loop_BestPath_multipath_sends_witness :
  exists m' acts,
    loop_BestPath_multipath (Some (newNexthopTrackingManager 1)) [batch1 ++ batch2; batch1]
    = Some (Some m', acts)
    /\ length acts = 3%nat
    /\ Forall is_plain_vrf0 acts
    /\ nexthopCache (newNexthopTrackingManager 1) ⊆ nexthopCache m'.
Proof.
  assert (H : exists m' acts,
             loop_BestPath_multipath (Some (newNexthopTrackingManager 1))
               [batch1 ++ batch2; batch1] = Some (Some m', acts)
             /\ length acts = 3%nat) by (eexists _, _; split; reflexivity).
  destruct H as (m' & acts & H & Hl). exists m', acts.
  destruct (loop_BestPath_multipath_sends _ _ _ _ H) as (HF & _ & Hc).
  split; [exact H |]. split; [exact Hl |]. split; [exact HF | exact Hc].
Defined.

(** ** The VRF commands *)

Lemma PutUint32_bytes (v : Z) :
  Forall (λ b, 0 <= b < 256) (PutUint32 v).
Proof.
  unfold PutUint32. repeat constructor; apply Z.mod_pos_bound; lia.
Qed.

Lemma lor_shiftl_add (a b k : Z) :
  0 <= k -> 0 <= a < 2 ^ k -> Z.lor a (Z.shiftl b k) = a + b * 2 ^ k.
Proof.
  intros Hk Ha. rewrite Z.shiftl_mul_pow2 by exact Hk.
  symmetry. apply Z.add_nocarry_lor.
  apply Z.bits_inj'. intros n Hn. rewrite Z.land_spec, Z.bits_0.
  destruct (Z.lt_ge_cases n k) as [Hlt | Hge].
  - rewrite (Z.mul_pow2_bits_low b k n) by lia. apply andb_false_r.
  - rewrite <- (Z.mod_small a (2 ^ k)) by exact Ha.
    rewrite (Z.mod_pow2_bits_high a k n) by lia. reflexivity.
Qed.

Lemma Uint32_PutUint32 (v : Z) : 0 <= v < 2 ^ 32 -> Uint32 (PutUint32 v) = Some v.
Proof.
  intros Hv. unfold Uint32, PutUint32. f_equal.
  rewrite !Z.shiftr_div_pow2 by lia.
  change (2 ^ 24) with 16777216. change (2 ^ 16) with 65536. change (2 ^ 8) with 256.
  assert (H3 : 0 <= v mod 256 < 256) by (apply Z.mod_pos_bound; lia).
  assert (H2 : 0 <= (v / 256) mod 256 < 256) by (apply Z.mod_pos_bound; lia).
  assert (H1 : 0 <= (v / 65536) mod 256 < 256) by (apply Z.mod_pos_bound; lia).
  assert (H0 : 0 <= (v / 16777216) mod 256 < 256) by (apply Z.mod_pos_bound; lia).
  rewrite (lor_shiftl_add (v mod 256) _ 8) by (change (2 ^ 8) with 256; lia).
  rewrite (lor_shiftl_add _ _ 16) by (change (2 ^ 8) with 256; change (2 ^ 16) with 65536; lia).
  rewrite (lor_shiftl_add _ _ 24)
    by (change (2 ^ 8) with 256; change (2 ^ 16) with 65536;
        change (2 ^ 24) with 16777216; lia).
  change (2 ^ 24) with 16777216. change (2 ^ 16) with 65536. change (2 ^ 8) with 256.
  assert (E0 : (v / 16777216) mod 256 = v / 16777216).
  { apply Z.mod_small. split; [apply Z.div_pos; lia |].
    apply Z.div_lt_upper_bound; lia. }
  rewrite E0.
  pose proof (Z.div_mod v 256 ltac:(lia)) as D1.
  pose proof (Z.div_mod (v / 256) 256 ltac:(lia)) as D2.
  pose proof (Z.div_mod (v / 65536) 256 ltac:(lia)) as D3.
  replace (v / 256 / 256) with (v / 65536) in D2
    by (rewrite Z.div_div by lia; reflexivity).
  replace (v / 65536 / 256) with (v / 16777216) in D3
    by (rewrite Z.div_div by lia; reflexivity).
  lia.
Qed.

(** X29: [SendVrfRegister] and [SendVrfUnregister] send their command in
    the default VRF, whatever the VRF they are given, which travels in the
    body: four bytes, most significant first, from which
    [binary.BigEndian.Uint32] reads the identifier back, so that different
    identifiers give different bodies. The two functions differ by the
    command only. *)
Theorem SendVrfRegister_payload (vrfId : Z) :
  0 <= vrfId < 2 ^ 32 ->
  sc_vrfId (SendVrfRegister vrfId) = VRF_DEFAULT
  /\ sc_command (SendVrfRegister vrfId) = VRF_REGISTER
  /\ sc_command (SendVrfUnregister vrfId) = VRF_UNREGISTER
  /\ sc_vrfId (SendVrfUnregister vrfId) = VRF_DEFAULT
  /\ sc_Data (SendVrfUnregister vrfId) = sc_Data (SendVrfRegister vrfId)
  /\ length (sc_Data (SendVrfRegister vrfId)) = 4%nat
  /\ Forall (λ b, 0 <= b < 256) (sc_Data (SendVrfRegister vrfId))
  /\ Uint32 (sc_Data (SendVrfRegister vrfId)) = Some vrfId
  /\ (forall vrfId',
        0 <= vrfId' < 2 ^ 32 ->
        sc_Data (SendVrfRegister vrfId') = sc_Data (SendVrfRegister vrfId) ->
        vrfId' = vrfId).
Proof.
  intros Hv. repeat (split; [reflexivity |]).
  split; [apply PutUint32_bytes |].
  split; [apply Uint32_PutUint32; exact Hv |].
  intros v' Hv' E. cbn [sc_Data SendVrfRegister] in E.
  apply (f_equal Uint32) in E.
  rewrite !Uint32_PutUint32 in E by assumption. inversion E. reflexivity.
Qed.

Lemma SendVrfRegister_payload_witness :
  sc_Data (SendVrfRegister 66051) = [0; 1; 2; 3]
  /\ Uint32 (sc_Data (SendVrfRegister 66051)) = Some 66051.
Proof.
  split; [reflexivity |].
  assert (H : 0 <= 66051 < 2 ^ 32) by lia.
  exact (proj1 (proj2 (proj2 (proj2 (proj2 (proj2 (proj2 (proj2
           (SendVrfRegister_payload 66051 H))))))))).
Defined.
